(** * The authentication manager of gcphcp ([src/gcphcp/auth/google_auth.py])

    A shallow embedding of [GoogleCloudAuth]: the methods are functions in a
    state-and-exception monad over the manager's fields ([Self]) and the
    outside world ([World]: the credential file and the trace of external
    calls).  The outcome of every external call (gcloud subprocesses, the
    Google auth libraries, file-system failures) is read from an [Env].
    The Python standard library functions the code calls ([json],
    [base64], [bytes.decode]) are an interface, [PyLib]; a reference
    implementation of it is given so that scenarios can be evaluated. *)

From Stdlib Require Import String Ascii List ZArith Lia Bool DecimalN.
From Stdlib.Strings Require Import Byte.
Import ListNotations.
Local Open Scope string_scope.
Local Open Scope Z_scope.
Set Warnings "-register-all".

(* ===================================================================== *)
(** ** Python strings

    A Python [str] is a [string]; a character is a code point below 256. *)
(* ===================================================================== *)

Module PyStr.

(** [c.isspace()] for code points below 256. *)
Definition isspace (c : ascii) : bool :=
  let n := nat_of_ascii c in
  ((9 <=? n) && (n <=? 13) || (28 <=? n) && (n <=? 32)
   || (n =? 133) || (n =? 160))%nat.

(** [c.lower()] for code points below 256. *)
Definition lower_char (c : ascii) : ascii :=
  let n := nat_of_ascii c in
  if ((65 <=? n) && (n <=? 90)
      || (192 <=? n) && (n <=? 222) && negb (n =? 215))%nat
  then ascii_of_nat (n + 32) else c.

(** [s.lower()] *)
Fixpoint lower (s : string) : string :=
  match s with
  | EmptyString => EmptyString
  | String c r => String (lower_char c) (lower r)
  end.

(** [s.lstrip()] *)
Fixpoint lstrip (s : string) : string :=
  match s with
  | EmptyString => EmptyString
  | String c r => if isspace c then lstrip r else s
  end.

(** [s.rstrip()] *)
Fixpoint rstrip (s : string) : string :=
  match s with
  | EmptyString => EmptyString
  | String c r =>
      match rstrip r with
      | EmptyString => if isspace c then EmptyString else String c EmptyString
      | r' => String c r'
      end
  end.

(** [s.strip()] *)
Definition strip (s : string) : string := rstrip (lstrip s).

(** [s.startswith(p)] *)
Fixpoint startswith (p s : string) : bool :=
  match p, s with
  | EmptyString, _ => true
  | String a p', String b s' => Ascii.eqb a b && startswith p' s'
  | String _ _, EmptyString => false
  end.

(** [p in s] *)
Fixpoint contains (p s : string) : bool :=
  startswith p s ||
  match s with
  | EmptyString => false
  | String _ r => contains p r
  end.

(** [s.split(sep)] for a one-character separator: the pieces between the
    separators, at least one piece. *)
Fixpoint split (sep : ascii) (s : string) : list string :=
  match s with
  | EmptyString => [EmptyString]
  | String c r =>
      if Ascii.eqb c sep then EmptyString :: split sep r
      else match split sep r with
           | [] => [String c EmptyString]
           | p :: ps => String c p :: ps
           end
  end.

(** [c * n] for a one-character string [c] *)
Fixpoint repeat (c : ascii) (n : nat) : string :=
  match n with
  | O => EmptyString
  | S k => String c (repeat c k)
  end.

(** [bool(s)] *)
Definition nonempty (s : string) : bool :=
  match s with EmptyString => false | _ => true end.

End PyStr.

(* ===================================================================== *)
(** ** Python values

    The values that reach the manager's fields: what [json] reads and
    writes.  Numbers are integers; fractional numbers are outside the
    model.  A [VDict] lists its items in insertion order. *)
(* ===================================================================== *)

Inductive value : Type :=
| VNone
| VBool (b : bool)
| VInt (n : Z)
| VStr (s : string)
| VList (items : list value)
| VDict (items : list (string * value)).

(** [bool(v)] *)
Definition truthy (v : value) : bool :=
  match v with
  | VNone => false
  | VBool b => b
  | VInt n => negb (n =? 0)
  | VStr s => PyStr.nonempty s
  | VList l => match l with [] => false | _ => true end
  | VDict d => match d with [] => false | _ => true end
  end.

(** [d.get(k)], [None] standing for a missing key *)
Fixpoint dict_find (k : string) (d : list (string * value)) : option value :=
  match d with
  | [] => None
  | (k', v) :: r => if String.eqb k k' then Some v else dict_find k r
  end.

(** [d.get(k, default)] *)
Definition dict_get (d : list (string * value)) (k : string) (default : value)
  : value :=
  match dict_find k d with Some v => v | None => default end.

(** [d[k] = v]: replaces the item in place or appends it. *)
Fixpoint dict_set (k : string) (v : value) (d : list (string * value))
  : list (string * value) :=
  match d with
  | [] => [(k, v)]
  | (k', v') :: r =>
      if String.eqb k k' then (k, v) :: r else (k', v') :: dict_set k v r
  end.

(** The keys of a dict are pairwise distinct, at every depth. *)
Fixpoint distinct_keys (ks : list string) : bool :=
  match ks with
  | [] => true
  | k :: r => negb (existsb (String.eqb k) r) && distinct_keys r
  end.

Fixpoint wf_value (v : value) : bool :=
  match v with
  | VList l => forallb wf_value l
  | VDict d =>
      distinct_keys (map fst d) && forallb (fun kv => wf_value (snd kv)) d
  | _ => true
  end.

(** [type(v).__name__] *)
Definition type_name (v : value) : string :=
  match v with
  | VNone => "NoneType"
  | VBool _ => "bool"
  | VInt _ => "int"
  | VStr _ => "str"
  | VList _ => "list"
  | VDict _ => "dict"
  end.

(* ===================================================================== *)
(** ** Exceptions *)
(* ===================================================================== *)

Inductive exn_class : Type :=
| Exception
| ValueError | JSONDecodeError | UnicodeDecodeError | BinasciiError
| LookupError | KeyError
| AttributeError | TypeError
| OSError | FileNotFoundError | PermissionError
| SubprocessError | TimeoutExpired
| GoogleAuthError | RefreshError | DefaultCredentialsError
| AuthenticationError | TokenRefreshError | CredentialsNotFoundError.

Definition exn_class_eqb (a b : exn_class) : bool :=
  match a, b with
  | Exception, Exception | ValueError, ValueError
  | JSONDecodeError, JSONDecodeError
  | UnicodeDecodeError, UnicodeDecodeError | BinasciiError, BinasciiError
  | LookupError, LookupError | KeyError, KeyError
  | AttributeError, AttributeError | TypeError, TypeError
  | OSError, OSError | FileNotFoundError, FileNotFoundError
  | PermissionError, PermissionError
  | SubprocessError, SubprocessError | TimeoutExpired, TimeoutExpired
  | GoogleAuthError, GoogleAuthError | RefreshError, RefreshError
  | DefaultCredentialsError, DefaultCredentialsError
  | AuthenticationError, AuthenticationError
  | TokenRefreshError, TokenRefreshError
  | CredentialsNotFoundError, CredentialsNotFoundError => true
  | _, _ => false
  end.

(** Modelled from the spec: [auth/exceptions.py] is not among the sources.
    Section 7 of the specification gives [AuthenticationError] as the general
    error, [TokenRefreshError] as its refresh-specific subtype and
    [CredentialsNotFoundError] as the more specific error of the OAuth flow
    runner (4.4).  The other classes are Python's and google-auth's. *)
Definition base (c : exn_class) : option exn_class :=
  match c with
  | Exception => None
  | JSONDecodeError | UnicodeDecodeError | BinasciiError => Some ValueError
  | KeyError => Some LookupError
  | FileNotFoundError | PermissionError => Some OSError
  | TimeoutExpired => Some SubprocessError
  | RefreshError | DefaultCredentialsError => Some GoogleAuthError
  | TokenRefreshError | CredentialsNotFoundError => Some AuthenticationError
  | _ => Some Exception
  end.

Fixpoint subclass_upto (fuel : nat) (c d : exn_class) : bool :=
  exn_class_eqb c d ||
  match fuel with
  | O => false
  | S k => match base c with
           | Some p => subclass_upto k p d
           | None => false
           end
  end.

(** [issubclass(c, d)]; no chain of bases is longer than three. *)
Definition issubclass (c d : exn_class) : bool := subclass_upto 3 c d.

(** An exception object: its class, its message and the [cause] keyword of
    the repository's own errors. *)
Inductive exn : Type :=
| Exn (cls : exn_class) (msg : string) (cause : option exn).

Definition exn_cls (e : exn) : exn_class := let 'Exn c _ _ := e in c.
Definition exn_msg (e : exn) : string := let 'Exn _ m _ := e in m.
Definition exn_cause (e : exn) : option exn := let 'Exn _ _ c := e in c.

(** [isinstance(e, c)] *)
Definition isinstance (e : exn) (c : exn_class) : bool :=
  issubclass (exn_cls e) c.

Arguments isinstance : simpl never.

(* ===================================================================== *)
(** ** The library interface

    What the code calls of Python's standard library.  [json_dumps v] is the
    text that [json.dump(v, f, indent=2)] writes. *)
(* ===================================================================== *)

Class PyLib : Type := {
  json_loads : string -> exn + value;
  json_dumps : value -> string;
  urlsafe_b64decode : string -> exn + list byte;
  decode_utf8 : list byte -> exn + string
}.

(* ===================================================================== *)
(** ** Credentials, the manager's fields, the world *)
(* ===================================================================== *)

(** A [google.auth] credentials object.  Every such object has [token] and
    [expired]; the other attributes exist on OAuth2 user credentials and may
    be missing on other kinds ([None] here: the object has no such
    attribute, so [hasattr] is false and [getattr] yields its default). *)
Record Credentials : Type := {
  token : value;
  refresh_token : option value;
  id_token : option value;
  token_uri : option value;
  client_id : option value;
  client_secret : option value;
  scopes : option value;
  expired : bool
}.

(** [getattr(obj, name, default)] *)
Definition getattr (a : option value) (default : value) : value :=
  match a with Some v => v | None => default end.

Definition REQUIRED_SCOPES : value :=
  VList [VStr "openid"; VStr "email"; VStr "profile";
         VStr "https://www.googleapis.com/auth/cloud-platform"].

Definition DEFAULT_TOKEN_URI : value :=
  VStr "https://oauth2.googleapis.com/token".

(** [OAuth2Credentials(token=..., ...)]: all attributes exist; no expiry is
    given, so the object is not expired. *)
Definition OAuth2Credentials
  (tok rt idt uri cid csec sc : value) : Credentials :=
  {| token := tok; refresh_token := Some rt; id_token := Some idt;
     token_uri := Some uri; client_id := Some cid; client_secret := Some csec;
     scopes := Some sc; expired := false |}.

(** The fields of a [GoogleCloudAuth] instance.  [credentials_path] is not
    among them: the world has one credential file, the one at that path. *)
Record Self : Type := {
  client_secrets_path : option string;
  audience : option string;
  _credentials : option Credentials;
  _user_email : value
}.

(** [GoogleCloudAuth(...)] *)
Definition init (secrets : option string) (aud : option string) : Self :=
  {| client_secrets_path := secrets; audience := aud;
     _credentials := None; _user_email := VNone |}.

(** The file at [credentials_path]: its text and its permission bits. *)
Record File : Type := { content : string; mode : Z }.

(** Calls that leave the process. *)
Inductive Event : Type :=
| EvRun (argv : list string)     (* subprocess.run(argv, ...) *)
| EvExists                       (* credentials_path.exists() *)
| EvRead                         (* open(credentials_path, "r") *)
| EvMkdir                        (* credentials_path.parent.mkdir(...) *)
| EvWrite (text : string)        (* open(credentials_path, "w"), write *)
| EvChmod (bits : Z)             (* os.chmod(credentials_path, bits) *)
| EvDefault                      (* google.auth.default(scopes=...) *)
| EvFlow                         (* InstalledAppFlow ... run_local_server *)
| EvRefresh.                     (* credentials.refresh(Request()) *)

Record World : Type := {
  cred_file : option File;
  trace : list Event
}.

Record CompletedProcess : Type := {
  returncode : Z; stdout : string; stderr : string
}.

(** What the outside answers.  An error of a file operation is [Some e]. *)
Record Env : Type := {
  subprocess_run : list string -> exn + CompletedProcess;
  auth_default : exn + Credentials;
  secrets_exists : bool;
  run_flow : exn + Credentials;
  refresh : Credentials -> exn + Credentials;
  open_read_error : option exn;
  mkdir_error : option exn;
  open_write_error : option exn;
  chmod_error : option exn;
  umask : Z;
  (** [str(e)]; for the repository's errors it is defined in
      [auth/exceptions.py], which is not among the sources. *)
  exn_str : exn -> string
}.

(* ===================================================================== *)
(** ** The monad of the methods

    A method runs on the manager's fields and the world and either returns
    or raises; what it changed before raising stays changed. *)
(* ===================================================================== *)

Record St : Type := { self : Self; world : World }.

Definition M (A : Type) : Type := St -> (exn + A) * St.

Definition ret {A} (a : A) : M A := fun st => (inr a, st).

Definition bind {A B} (m : M A) (k : A -> M B) : M B :=
  fun st => match m st with
            | (inr a, st') => k a st'
            | (inl e, st') => (inl e, st')
            end.

Definition raise {A} (e : exn) : M A := fun st => (inl e, st).

(** [try: m  except Exception as e: h e] *)
Definition try_except {A} (m : M A) (h : exn -> M A) : M A :=
  fun st => match m st with
            | (inr a, st') => (inr a, st')
            | (inl e, st') => h e st'
            end.

(** The outcome of a library call. *)
Definition lift {A} (r : exn + A) : M A := fun st => (r, st).

Definition get_self : M Self := fun st => (inr (self st), st).

Definition put_self (s : Self) : M unit :=
  fun st => (inr tt, {| self := s; world := world st |}).

Definition get_file : M (option File) :=
  fun st => (inr (cred_file (world st)), st).

Definition put_file (f : option File) : M unit :=
  fun st => (inr tt, {| self := self st;
                        world := {| cred_file := f;
                                    trace := trace (world st) |} |}).

Definition emit (ev : Event) : M unit :=
  fun st => (inr tt, {| self := self st;
                        world := {| cred_file := cred_file (world st);
                                    trace := trace (world st) ++ [ev] |} |}).

Declare Scope py_scope.
Delimit Scope py_scope with py.
Notation "x <- m ;; k" := (bind m (fun x => k))
  (at level 61, m at next level, right associativity) : py_scope.
Notation "m ;; k" := (bind m (fun _ => k))
  (at level 61, right associativity) : py_scope.
Local Open Scope py_scope.

Definition set_credentials (c : option Credentials) : M unit :=
  s <- get_self ;;
  put_self {| client_secrets_path := client_secrets_path s;
              audience := audience s;
              _credentials := c; _user_email := _user_email s |}.

Definition set_user_email (v : value) : M unit :=
  s <- get_self ;;
  put_self {| client_secrets_path := client_secrets_path s;
              audience := audience s;
              _credentials := _credentials s; _user_email := v |}.

(** [raise cls(msg)] and [raise cls(msg, cause=e)] *)
Definition raise_new {A} (c : exn_class) (msg : string) : M A :=
  raise (Exn c msg None).

Definition raise_from {A} (c : exn_class) (msg : string) (e : exn) : M A :=
  raise (Exn c msg (Some e)).

(** A computation without effects that returns or raises. *)
Definition bind_result {A B} (r : exn + A) (k : A -> exn + B) : exn + B :=
  match r with
  | inr a => k a
  | inl e => inl e
  end.

Notation "x <-- r ;; k" := (bind_result r (fun x => k))
  (at level 61, r at next level, right associativity) : py_scope.

(** [obj.get(k, default)]: only a dict has [get]. *)
Definition py_get (obj : value) (k : string) (default : value) : exn + value :=
  match obj with
  | VDict d => inr (dict_get d k default)
  | _ => inl (Exn AttributeError
                ("'" ++ type_name obj ++ "' object has no attribute 'get'") None)
  end.

(** [obj.split(".")]: only a str has [split]. *)
Definition py_split_dot (obj : value) : exn + list string :=
  match obj with
  | VStr s => inr (PyStr.split "." s)
  | _ => inl (Exn AttributeError
                ("'" ++ type_name obj ++ "' object has no attribute 'split'") None)
  end.

(** [0o600] and the bits of group and other *)
Definition MODE_0600 : Z := 384.
Definition GROUP_OTHER_BITS : Z := 63.
Definition MODE_0666 : Z := 438.

(* ===================================================================== *)
(** ** [GoogleCloudAuth]

    The methods that authentication goes through: [authenticate] and the
    private methods it calls.  Calls to [logger] are left out: they change
    neither the fields nor the world. *)
(* ===================================================================== *)

Section GoogleCloudAuth.

Context {L : PyLib}.
Variable E : Env.

(** *** File operations on [credentials_path] *)

(** [self.credentials_path.exists()], for a path whose directories can be
    searched: the test answers and does not raise. *)
Definition path_exists : M bool :=
  emit EvExists ;;
  f <- get_file ;;
  ret (match f with Some _ => true | None => false end).

(** [with open(self.credentials_path, "r") as f: ... f.read()] *)
Definition read_file : M string :=
  emit EvRead ;;
  match open_read_error E with
  | Some e => raise e
  | None =>
      f <- get_file ;;
      match f with
      | Some f0 => ret (content f0)
      | None => raise_new FileNotFoundError "No such file or directory"
      end
  end.

(** [self.credentials_path.parent.mkdir(parents=True, exist_ok=True)] *)
Definition mkdir_parent : M unit :=
  emit EvMkdir ;;
  match mkdir_error E with
  | Some e => raise e
  | None => ret tt
  end.

(** [with open(self.credentials_path, "w") as f: f.write(text)]: the file is
    created with the bits the umask leaves, or truncated and its bits
    kept. *)
Definition write_file (text : string) : M unit :=
  emit (EvWrite text) ;;
  match open_write_error E with
  | Some e => raise e
  | None =>
      f <- get_file ;;
      put_file (Some {| content := text;
                        mode := match f with
                                | Some f0 => mode f0
                                | None => Z.ldiff MODE_0666 (umask E)
                                end |})
  end.

(** [os.chmod(self.credentials_path, bits)] *)
Definition chmod (bits : Z) : M unit :=
  emit (EvChmod bits) ;;
  match chmod_error E with
  | Some e => raise e
  | None =>
      f <- get_file ;;
      match f with
      | Some f0 => put_file (Some {| content := content f0; mode := bits |})
      | None => raise_new FileNotFoundError "No such file or directory"
      end
  end.

(** *** [_extract_user_email] (lines 203-240) *)

(** [payload += "=" * (4 - padding)] when [len(payload) % 4] is not zero *)
Definition pad_payload (payload : string) : string :=
  let padding := (String.length payload mod 4)%nat in
  if negb (padding =? 0)%nat
  then payload ++ PyStr.repeat "=" (4 - padding)
  else payload.

(** Lines 224-234 and the right-hand side of line 235: the email claim of
    the token, [None] when the token has fewer than two parts. *)
Definition token_email (idt : value) : exn + option value :=
  parts <-- py_split_dot idt ;;
  if (2 <=? List.length parts)%nat then
    let payload := pad_payload (nth 1 parts "") in
    decoded <-- urlsafe_b64decode payload ;;
    text <-- decode_utf8 decoded ;;
    token_data <-- json_loads text ;;
    email <-- py_get token_data "email" VNone ;;
    inr (Some email)
  else inr None.

(** The body of the [try] (lines 219-235). *)
Definition extract_from_token (idt : value) : M unit :=
  claim <- lift (token_email idt) ;;
  match claim with
  | Some email => set_user_email email
  | None => ret tt
  end.

Definition _extract_user_email : M value :=
  s <- get_self ;;
  if truthy (_user_email s) then ret (_user_email s)
  else
    match _credentials s with
    | Some c =>
        match id_token c with
        | Some idt =>
            if truthy idt
            then try_except (extract_from_token idt) (fun _ => ret tt)
            else ret tt
        | None => ret tt
        end
    | None => ret tt
    end ;;
    s' <- get_self ;;
    ret (_user_email s').

(** *** [_save_credentials] (lines 242-275) *)

(** The dict written to the file (lines 253-264). *)
Definition cred_data_of (c : Credentials) (user_email : value) : value :=
  VDict [ ("token", token c);
          ("refresh_token", getattr (refresh_token c) VNone);
          ("id_token", getattr (id_token c) VNone);
          ("client_id", getattr (client_id c) VNone);
          ("client_secret", getattr (client_secret c) VNone);
          ("token_uri", getattr (token_uri c) DEFAULT_TOKEN_URI);
          ("scopes", getattr (scopes c) REQUIRED_SCOPES);
          ("user_email", user_email) ].

(** The body of the [try] (lines 267-272). *)
Definition write_credentials (cred_data : value) : M unit :=
  write_file (json_dumps cred_data) ;;
  chmod MODE_0600.

Definition _save_credentials : M unit :=
  s <- get_self ;;
  match _credentials s with
  | None => ret tt
  | Some c =>
      mkdir_parent ;;
      user_email <- _extract_user_email ;;
      try_except (write_credentials (cred_data_of c user_email))
                 (fun _ => ret tt)
  end.

(** *** [_load_stored_credentials] (lines 109-142) *)

(** The body of the [try] (lines 120-138). *)
Definition load_from_file : M bool :=
  text <- read_file ;;
  cred_data <- lift (json_loads text) ;;
  c <- lift (tok <-- py_get cred_data "token" VNone ;;
             rt <-- py_get cred_data "refresh_token" VNone ;;
             idt <-- py_get cred_data "id_token" VNone ;;
             uri <-- py_get cred_data "token_uri" DEFAULT_TOKEN_URI ;;
             cid <-- py_get cred_data "client_id" VNone ;;
             csec <-- py_get cred_data "client_secret" VNone ;;
             sc <-- py_get cred_data "scopes" REQUIRED_SCOPES ;;
             inr (OAuth2Credentials tok rt idt uri cid csec sc)) ;;
  set_credentials (Some c) ;;
  email <- lift (py_get cred_data "user_email" VNone) ;;
  set_user_email email ;;
  ret true.

Definition _load_stored_credentials : M bool :=
  present <- path_exists ;;
  if negb present then ret false
  else
    try_except load_from_file
      (fun e =>
         if isinstance e JSONDecodeError || isinstance e KeyError
            || isinstance e FileNotFoundError
         then ret false
         else raise e).

(** *** [_perform_oauth_flow] (lines 144-181) *)

(** [google.auth.default(scopes=REQUIRED_SCOPES)].  The call is one event:
    what the library does inside it (it may run [gcloud config get project]
    on its own to find a project id) is not in the trace. *)
Definition call_default : M Credentials :=
  emit EvDefault ;; lift (auth_default E).

(** [InstalledAppFlow.from_client_secrets_file(...)] and
    [flow.run_local_server(...)] *)
Definition call_flow : M Credentials :=
  emit EvFlow ;; lift (run_flow E).

(** [not self.client_secrets_path or not self.client_secrets_path.exists()] *)
Definition no_client_secrets (s : Self) : bool :=
  match client_secrets_path s with
  | None => true
  | Some _ => negb (secrets_exists E)
  end.

(** The message of lines 158-160. *)
Definition NO_CREDENTIAL_SOURCE : string :=
  "No OAuth client secrets found and no application default "
  ++ "credentials available. Please provide client secrets file or "
  ++ "set up application default credentials.".

Definition _perform_oauth_flow : M unit :=
  s <- get_self ;;
  if no_client_secrets s then
    try_except
      (c <- call_default ;;
       set_credentials (Some c))
      (fun e =>
         if isinstance e DefaultCredentialsError
         then raise_new CredentialsNotFoundError NO_CREDENTIAL_SOURCE
         else raise e)
  else
    try_except
      (c <- call_flow ;;
       set_credentials (Some c) ;;
       _save_credentials)
      (fun e =>
         raise_from AuthenticationError
           ("OAuth flow failed: " ++ exn_str E e) e).

(** *** [_refresh_credentials] (lines 183-201) *)

(** [self._credentials.refresh(Request())] *)
Definition call_refresh (c : Credentials) : M Credentials :=
  emit EvRefresh ;; lift (refresh E c).

Definition _refresh_credentials : M unit :=
  s <- get_self ;;
  match _credentials s with
  | None => raise_new TokenRefreshError "No credentials available to refresh"
  | Some c =>
      try_except
        (c' <- call_refresh c ;;
         set_credentials (Some c') ;;
         _save_credentials)
        (fun e =>
           if isinstance e RefreshError
           then raise_from TokenRefreshError
                  ("Failed to refresh credentials: " ++ exn_str E e) e
           else raise e)
  end.

(** *** [_get_identity_token_without_audience] (lines 302-366) *)

Definition token_cmd : list string := ["gcloud"; "auth"; "print-identity-token"].
Definition email_cmd : list string := ["gcloud"; "config"; "get-value"; "account"].

Definition PLACEHOLDER_EMAIL : string := "unknown@example.com".

(** [subprocess.run(argv, capture_output=True, text=True, timeout=...)] *)
Definition run (argv : list string) : M CompletedProcess :=
  emit (EvRun argv) ;; lift (subprocess_run E argv).

(** [a or b] on strings *)
Definition str_or (a b : string) : string :=
  if PyStr.nonempty a then a else b.

(** Lines 325-328: the error output says that nobody is logged in. *)
Definition not_logged_in (error_msg : string) : bool :=
  PyStr.contains "not logged in" (PyStr.lower error_msg)
  || PyStr.contains "no active account" (PyStr.lower error_msg).

(** [result.stderr.strip() or "Failed to get identity token"] *)
Definition error_msg_of (result : CompletedProcess) : string :=
  str_or (PyStr.strip (stderr result)) "Failed to get identity token".

(** The messages of lines 329-339 and 366. *)
Definition NOT_AUTHENTICATED : string :=
  "Not authenticated with gcloud. Please run 'gcloud auth login' "
  ++ "first, or use 'gcphcp auth login' for OAuth flow.".
Definition PRINT_TOKEN_FAILED : string :=
  "gcloud auth print-identity-token failed: ".
Definition EMPTY_TOKEN : string := "gcloud returned empty identity token".
Definition FAILED_TO_GET_TOKEN : string := "Failed to get identity token: ".

(** The body of the [try] (lines 312-357). *)
Definition fetch_identity_token : M (value * value) :=
  result <- run token_cmd ;;
  (if negb (returncode result =? 0) then
     let error_msg := error_msg_of result in
     if not_logged_in error_msg
     then raise_new AuthenticationError NOT_AUTHENTICATED
     else raise_new AuthenticationError (PRINT_TOKEN_FAILED ++ error_msg)
   else ret tt) ;;
  let identity_token := PyStr.strip (stdout result) in
  (if negb (PyStr.nonempty identity_token)
   then raise_new AuthenticationError EMPTY_TOKEN
   else ret tt) ;;
  email_result <- run email_cmd ;;
  let user_email :=
    if returncode email_result =? 0
    then PyStr.strip (stdout email_result)
    else PLACEHOLDER_EMAIL in
  ret (VStr identity_token, VStr user_email).

Definition _get_identity_token_without_audience : M (value * value) :=
  try_except fetch_identity_token
    (fun e =>
       if isinstance e TimeoutExpired
       then raise_new AuthenticationError "Timeout while calling gcloud command"
       else if isinstance e FileNotFoundError
       then raise_new AuthenticationError
              "gcloud command not found. Install Google Cloud SDK or use OAuth flow."
       else raise_from AuthenticationError
              (FAILED_TO_GET_TOKEN ++ exn_str E e) e).

(** *** [authenticate] (lines 59-107) *)

(** Lines 79-104: the OAuth path. *)
Definition oauth_path (force_reauth : bool) : M (value * value) :=
  (if force_reauth then _perform_oauth_flow
   else
     loaded <- _load_stored_credentials ;;
     if negb loaded then _perform_oauth_flow else ret tt) ;;
  s <- get_self ;;
  match _credentials s with
  | Some c => if expired c then _refresh_credentials else ret tt
  | None => ret tt
  end ;;
  s <- get_self ;;
  match _credentials s with
  | None => raise_new AuthenticationError "Failed to obtain valid credentials"
  | Some c =>
      match id_token c with
      | Some idt =>
          if truthy idt then
            user_email <- _extract_user_email ;;
            if negb (truthy user_email)
            then raise_new AuthenticationError
                   "Failed to extract user email from credentials"
            else ret (idt, user_email)
          else raise_new AuthenticationError
                 "Failed to obtain ID token from credentials"
      | None => raise_new AuthenticationError
                  "Failed to obtain ID token from credentials"
      end
  end.

Definition authenticate (force_reauth : bool) : M (value * value) :=
  try_except
    (r <- try_except
            (p <- _get_identity_token_without_audience ;; ret (Some p))
            (fun e => if isinstance e AuthenticationError
                      then ret None else raise e) ;;
     match r with
     | Some p => ret p
     | None => oauth_path force_reauth
     end)
    (fun e =>
       if isinstance e RefreshError || isinstance e DefaultCredentialsError
       then raise_from AuthenticationError
              ("Authentication failed: " ++ exn_str E e) e
       else raise e).

End GoogleCloudAuth.

(* ===================================================================== *)
(** ** [GoogleCloudAuth]: the other methods

    [get_auth_headers], [logout], [_get_identity_token_with_audience] and
    [is_authenticated]. *)
(* ===================================================================== *)

(** *** [str] and [repr] of a value, for f-strings *)

Module PyFormat.

Definition hex_digit (n : nat) : ascii :=
  ascii_of_nat (if (n <? 10)%nat then 48 + n else 87 + n).

(** A character that [repr] writes as it is: printable, and neither a
    quote nor a backslash. *)
Definition printable (n : nat) : bool :=
  ((32 <=? n) && (n <=? 126) || (161 <=? n) && negb (n =? 173))%nat.

(** One character inside [repr(s)] written with the quote [q]. *)
Definition repr_char (q : ascii) (c : ascii) : string :=
  let n := nat_of_ascii c in
  if (n =? 92)%nat then "\\"
  else if Ascii.eqb c q then String "\" (String q EmptyString)
  else if (n =? 9)%nat then "\t"
  else if (n =? 10)%nat then "\n"
  else if (n =? 13)%nat then "\r"
  else if printable n then String c EmptyString
  else String "\" (String "x" (String (hex_digit (n / 16))
                                 (String (hex_digit (n mod 16)) EmptyString))).

Fixpoint has_char (q : ascii) (s : string) : bool :=
  match s with
  | EmptyString => false
  | String c r => Ascii.eqb c q || has_char q r
  end.

Fixpoint repr_chars (q : ascii) (s : string) : string :=
  match s with
  | EmptyString => EmptyString
  | String c r => repr_char q c ++ repr_chars q r
  end.

Definition squote : ascii := "'".
Definition dquote : ascii := Eval cbv in ascii_of_nat 34.

(** [repr(s)]: single quotes, unless [s] has a single quote and no double
    quote. *)
Definition repr_str (s : string) : string :=
  let q := if has_char squote s && negb (has_char dquote s)
           then dquote else squote in
  String q (repr_chars q s ++ String q EmptyString).

Fixpoint print_digits (u : Decimal.uint) : string :=
  match u with
  | Decimal.Nil => EmptyString
  | Decimal.D0 r => String "0" (print_digits r)
  | Decimal.D1 r => String "1" (print_digits r)
  | Decimal.D2 r => String "2" (print_digits r)
  | Decimal.D3 r => String "3" (print_digits r)
  | Decimal.D4 r => String "4" (print_digits r)
  | Decimal.D5 r => String "5" (print_digits r)
  | Decimal.D6 r => String "6" (print_digits r)
  | Decimal.D7 r => String "7" (print_digits r)
  | Decimal.D8 r => String "8" (print_digits r)
  | Decimal.D9 r => String "9" (print_digits r)
  end.

(** [repr(n)] *)
Definition repr_int (n : Z) : string :=
  if n <? 0 then String "-" (print_digits (N.to_uint (Z.to_N (- n))))
  else print_digits (N.to_uint (Z.to_N n)).

Fixpoint comma_join {A} (f : A -> string) (l : list A) : string :=
  match l with
  | [] => EmptyString
  | x :: r => f x ++ match r with
                     | [] => EmptyString
                     | _ => ", " ++ comma_join f r
                     end
  end.

(** [repr(v)] *)
Fixpoint repr (v : value) : string :=
  match v with
  | VNone => "None"
  | VBool true => "True"
  | VBool false => "False"
  | VInt n => repr_int n
  | VStr s => repr_str s
  | VList items => "[" ++ comma_join repr items ++ "]"
  | VDict items =>
      "{" ++ comma_join (fun kv => repr_str (fst kv) ++ ": " ++ repr (snd kv))
                        items ++ "}"
  end.

(** [str(v)], what an f-string writes for [{v}] *)
Definition str (v : value) : string :=
  match v with
  | VStr s => s
  | _ => repr v
  end.

End PyFormat.

Section OtherMethods.

Context {L : PyLib}.
Variable E : Env.

(** *** [get_auth_headers] (lines 277-291) *)

Definition get_auth_headers : M value :=
  r <- authenticate E false ;;
  let (access_token, user_email) := r in
  ret (VDict [ ("Authorization", VStr ("Bearer " ++ PyFormat.str access_token));
               ("X-User-Email", user_email) ]).

(** *** [logout] (lines 293-300) *)

(** [self.credentials_path.unlink()]; [unlink_error] is what the file system
    answers.  The trace has no event of its own for this call: its effect
    is that the file is gone. *)
Definition unlink_file (unlink_error : option exn) : M unit :=
  match unlink_error with
  | Some e => raise e
  | None => put_file None
  end.

(** [self.credentials_path.exists()] at line 295, outside any [try].
    [exists_error] is the error that [Path.exists] lets through, if there is
    one: it answers [False] for a missing path and raises any other
    [OSError] of the underlying [stat], such as a [PermissionError] for a
    directory that cannot be searched. *)
Definition path_exists_or (exists_error : option exn) : M bool :=
  match exists_error with
  | Some e => emit EvExists ;; raise e
  | None => path_exists
  end.

Definition logout (exists_error unlink_error : option exn) : M unit :=
  present <- path_exists_or exists_error ;;
  (if present then unlink_file unlink_error else ret tt) ;;
  s <- get_self ;;
  put_self {| client_secrets_path := client_secrets_path s;
              audience := audience s;
              _credentials := None; _user_email := VNone |}.

(** *** [_get_identity_token_with_audience] (lines 368-433) *)

Definition access_cmd : list string := ["gcloud"; "auth"; "print-access-token"].

(** The messages of lines 391-406. *)
Definition PRINT_ACCESS_FAILED : string :=
  "gcloud auth print-access-token failed: ".
Definition EMPTY_ACCESS_TOKEN : string := "gcloud returned empty access token".

(** [result.stderr.strip() or "Failed to get access token"] *)
Definition access_error_msg_of (result : CompletedProcess) : string :=
  str_or (PyStr.strip (stderr result)) "Failed to get access token".

(** The body of the [try] (lines 378-424). *)
Definition fetch_access_token : M (value * value) :=
  result <- run E access_cmd ;;
  (if negb (returncode result =? 0) then
     let error_msg := access_error_msg_of result in
     if not_logged_in error_msg
     then raise_new AuthenticationError NOT_AUTHENTICATED
     else raise_new AuthenticationError (PRINT_ACCESS_FAILED ++ error_msg)
   else ret tt) ;;
  let access_token := PyStr.strip (stdout result) in
  (if negb (PyStr.nonempty access_token)
   then raise_new AuthenticationError EMPTY_ACCESS_TOKEN
   else ret tt) ;;
  email_result <- run E email_cmd ;;
  let user_email :=
    if returncode email_result =? 0
    then PyStr.strip (stdout email_result)
    else PLACEHOLDER_EMAIL in
  ret (VStr access_token, VStr user_email).

Definition _get_identity_token_with_audience : M (value * value) :=
  try_except fetch_access_token
    (fun e =>
       if isinstance e TimeoutExpired
       then raise_new AuthenticationError "Timeout while calling gcloud command"
       else if isinstance e FileNotFoundError
       then raise_new AuthenticationError
              "gcloud command not found. Install Google Cloud SDK or use OAuth flow."
       else raise_from AuthenticationError
              (FAILED_TO_GET_TOKEN ++ exn_str E e) e).

(** *** [is_authenticated] (lines 435-452) *)

(** [bool(self._credentials and self._credentials.token)] *)
Definition has_token (s : Self) : bool :=
  match _credentials s with
  | Some c => truthy (token c)
  | None => false
  end.

(** The body of the [try] (lines 442-449). *)
Definition probe : M bool :=
  s <- get_self ;;
  nothing <- match _credentials s with
             | Some _ => ret false
             | None => loaded <- _load_stored_credentials E ;; ret (negb loaded)
             end ;;
  if (nothing : bool) then ret false
  else
    s <- get_self ;;
    match _credentials s with
    | Some c => if expired c then _refresh_credentials E else ret tt
    | None => ret tt
    end ;;
    s <- get_self ;;
    ret (has_token s).

Definition is_authenticated : M bool :=
  try_except probe (fun _ => ret false).

End OtherMethods.

(* ===================================================================== *)
(** ** A reference implementation of the library interface

    [base64.urlsafe_b64decode], [bytes.decode("utf-8")], [json.loads] and
    [json.dump(..., indent=2)] as CPython has them, on the texts of the
    model: characters are code points below 256 and numbers are integers.
    A text with a character escape above 255, a fractional number or
    [NaN]/[Infinity] is outside the model and is rejected. *)
(* ===================================================================== *)

Module RefLib.

Definition dquote : ascii := Eval cbv in ascii_of_nat 34.
Definition newline : ascii := Eval cbv in ascii_of_nat 10.
Definition code (c : ascii) : Z := Z.of_nat (nat_of_ascii c).

Definition push {A} (a : A) (r : exn + list A) : exn + list A :=
  match r with inr l => inr (a :: l) | inl e => inl e end.

Definition push_char (c : ascii) (r : exn + string) : exn + string :=
  match r with inr s => inr (String c s) | inl e => inl e end.

(** *** base64 *)

(** The value of a character of the alphabet; [-] and [_] are what
    [urlsafe_b64decode] translates to [+] and [/] first. *)
Definition b64_value (c : ascii) : option Z :=
  let n := code c in
  if (65 <=? n) && (n <=? 90) then Some (n - 65)
  else if (97 <=? n) && (n <=? 122) then Some (n - 71)
  else if (48 <=? n) && (n <=? 57) then Some (n + 4)
  else if (n =? 43) || (n =? 45) then Some 62
  else if (n =? 47) || (n =? 95) then Some 63
  else None.

Definition byte_of_Z (z : Z) : byte :=
  match Byte.of_N (Z.to_N (z mod 256)) with
  | Some b => b
  | None => x00
  end.

Definition binascii_error (m : string) : exn := Exn BinasciiError m None.

(** [binascii.a2b_base64] without [strict_mode]: characters outside the
    alphabet are skipped, a pad that completes a quad ends the decoding. *)
Fixpoint a2b_base64 (s : string) (quad_pos : nat) (leftchar : Z) (pads : nat)
  : exn + list byte :=
  match s with
  | EmptyString =>
      match quad_pos with
      | O => inr []
      | 1%nat => inl (binascii_error
               "Invalid base64-encoded string: number of data characters cannot be 1 more than a multiple of 4")
      | _ => inl (binascii_error "Incorrect padding")
      end
  | String c r =>
      if Ascii.eqb c "=" then
        if (2 <=? quad_pos)%nat then
          if (4 <=? quad_pos + S pads)%nat then inr []
          else a2b_base64 r quad_pos leftchar (S pads)
        else a2b_base64 r quad_pos leftchar pads
      else
        match b64_value c with
        | None => a2b_base64 r quad_pos leftchar pads
        | Some v =>
            match quad_pos with
            | 0%nat => a2b_base64 r 1 v 0
            | 1%nat => push (byte_of_Z (Z.lor (Z.shiftl leftchar 2) (Z.shiftr v 4)))
                         (a2b_base64 r 2 (Z.land v 15) 0)
            | 2%nat => push (byte_of_Z (Z.lor (Z.shiftl leftchar 4) (Z.shiftr v 2)))
                         (a2b_base64 r 3 (Z.land v 3) 0)
            | _ => push (byte_of_Z (Z.lor (Z.shiftl leftchar 6) v))
                     (a2b_base64 r 0 0 0)
            end
        end
  end.

Fixpoint all_ascii (s : string) : bool :=
  match s with
  | EmptyString => true
  | String c r => (code c <? 128) && all_ascii r
  end.

Definition urlsafe_b64decode (s : string) : exn + list byte :=
  if all_ascii s then a2b_base64 s 0 0 0
  else inl (Exn ValueError
              "string argument should contain only ASCII characters" None).

(** *** UTF-8, for code points below 256 *)

Definition unicode_error : exn :=
  Exn UnicodeDecodeError "'utf-8' codec can't decode byte" None.

Fixpoint decode_utf8 (bs : list byte) : exn + string :=
  match bs with
  | [] => inr EmptyString
  | b :: r =>
      let n := Byte.to_N b in
      if (n <? 128)%N then push_char (ascii_of_N n) (decode_utf8 r)
      else if ((n =? 194) || (n =? 195))%N then
        match r with
        | b2 :: r2 =>
            let m := Byte.to_N b2 in
            if ((128 <=? m) && (m <? 192))%N
            then push_char (ascii_of_N ((n - 192) * 64 + (m - 128)))
                           (decode_utf8 r2)
            else inl unicode_error
        | [] => inl unicode_error
        end
      else inl unicode_error
  end.

(** *** JSON: writing *)

Fixpoint print_uint (u : Decimal.uint) : string :=
  match u with
  | Decimal.Nil => EmptyString
  | Decimal.D0 r => String "0" (print_uint r)
  | Decimal.D1 r => String "1" (print_uint r)
  | Decimal.D2 r => String "2" (print_uint r)
  | Decimal.D3 r => String "3" (print_uint r)
  | Decimal.D4 r => String "4" (print_uint r)
  | Decimal.D5 r => String "5" (print_uint r)
  | Decimal.D6 r => String "6" (print_uint r)
  | Decimal.D7 r => String "7" (print_uint r)
  | Decimal.D8 r => String "8" (print_uint r)
  | Decimal.D9 r => String "9" (print_uint r)
  end.

Definition print_int (n : Z) : string :=
  if n <? 0 then String "-" (print_uint (N.to_uint (Z.to_N (- n))))
  else print_uint (N.to_uint (Z.to_N n)).

Definition hex_digit (n : Z) : ascii :=
  ascii_of_nat (Z.to_nat (if n <? 10 then 48 + n else 87 + n)).

(** One character of a string, as [ensure_ascii] writes it. *)
Definition escape_char (c : ascii) : string :=
  let n := code c in
  if n =? 34 then String "\" (String dquote EmptyString)
  else if n =? 92 then "\\"
  else if n =? 10 then "\n"
  else if n =? 13 then "\r"
  else if n =? 9 then "\t"
  else if n =? 8 then "\b"
  else if n =? 12 then "\f"
  else if (32 <=? n) && (n <=? 126) then String c EmptyString
  else "\u00" ++ String (hex_digit (n / 16)) (String (hex_digit (n mod 16)) EmptyString).

Fixpoint escape (s : string) : string :=
  match s with
  | EmptyString => EmptyString
  | String c r => escape_char c ++ escape r
  end.

Definition print_string (s : string) : string :=
  String dquote (escape s ++ String dquote EmptyString).

(** A line break and the indentation of nesting level [lvl]. *)
Definition newline_indent (lvl : nat) : string :=
  String newline (PyStr.repeat " " (2 * lvl)).

Fixpoint join {A} (f : A -> string) (sep : string) (l : list A) : string :=
  match l with
  | [] => EmptyString
  | x :: r => f x ++ match r with
                     | [] => EmptyString
                     | _ => sep ++ join f sep r
                     end
  end.

Fixpoint dump (lvl : nat) (v : value) : string :=
  match v with
  | VNone => "null"
  | VBool true => "true"
  | VBool false => "false"
  | VInt n => print_int n
  | VStr s => print_string s
  | VList [] => "[]"
  | VList items =>
      "[" ++ newline_indent (S lvl)
          ++ join (dump (S lvl)) ("," ++ newline_indent (S lvl)) items
          ++ newline_indent lvl ++ "]"
  | VDict [] => "{}"
  | VDict items =>
      "{" ++ newline_indent (S lvl)
          ++ join (fun kv => print_string (fst kv) ++ ": " ++ dump (S lvl) (snd kv))
                  ("," ++ newline_indent (S lvl)) items
          ++ newline_indent lvl ++ "}"
  end.

Definition json_dumps (v : value) : string := dump 0 v.

(** *** JSON: reading *)

Definition is_ws (c : ascii) : bool :=
  let n := code c in (n =? 32) || (n =? 9) || (n =? 10) || (n =? 13).

Fixpoint skip_ws (s : string) : string :=
  match s with
  | EmptyString => EmptyString
  | String c r => if is_ws c then skip_ws r else s
  end.

Definition digit_of (c : ascii) : option (Decimal.uint -> Decimal.uint) :=
  let n := code c in
  if n =? 48 then Some Decimal.D0 else if n =? 49 then Some Decimal.D1
  else if n =? 50 then Some Decimal.D2 else if n =? 51 then Some Decimal.D3
  else if n =? 52 then Some Decimal.D4 else if n =? 53 then Some Decimal.D5
  else if n =? 54 then Some Decimal.D6 else if n =? 55 then Some Decimal.D7
  else if n =? 56 then Some Decimal.D8 else if n =? 57 then Some Decimal.D9
  else None.

(** The longest run of digits at the head of [s]. *)
Fixpoint lex_uint (s : string) : Decimal.uint * string :=
  match s with
  | EmptyString => (Decimal.Nil, EmptyString)
  | String c r =>
      match digit_of c with
      | Some d => let (u, r') := lex_uint r in (d u, r')
      | None => (Decimal.Nil, s)
      end
  end.

(** A zero followed by more digits. *)
Definition leading_zero (u : Decimal.uint) : bool :=
  match u with
  | Decimal.D0 Decimal.Nil => false
  | Decimal.D0 _ => true
  | _ => false
  end.

(** The text goes on as a fraction or an exponent. *)
Definition fraction_follows (s : string) : bool :=
  match s with
  | String c _ => let n := code c in (n =? 46) || (n =? 101) || (n =? 69)
  | EmptyString => false
  end.

Definition lex_magnitude (s : string) : option (Z * string) :=
  let (u, r) := lex_uint s in
  match u with
  | Decimal.Nil => None
  | _ => if leading_zero u || fraction_follows r then None
         else Some (Z.of_N (N.of_uint u), r)
  end.

Definition parse_number (s : string) : option (value * string) :=
  match s with
  | String c r =>
      if Ascii.eqb c "-" then
        match lex_magnitude r with
        | Some (n, r') => Some (VInt (- n), r')
        | None => None
        end
      else
        match lex_magnitude s with
        | Some (n, r') => Some (VInt n, r')
        | None => None
        end
  | EmptyString => None
  end.

Definition hex_value (c : ascii) : option Z :=
  let n := code c in
  if (48 <=? n) && (n <=? 57) then Some (n - 48)
  else if (97 <=? n) && (n <=? 102) then Some (n - 87)
  else if (65 <=? n) && (n <=? 70) then Some (n - 55)
  else None.

Definition hex4 (a b c d : ascii) : option Z :=
  match hex_value a, hex_value b, hex_value c, hex_value d with
  | Some x, Some y, Some z, Some w => Some (((x * 16 + y) * 16 + z) * 16 + w)
  | _, _, _, _ => None
  end.

(** The character a one-letter escape stands for. *)
Definition unescape (e : ascii) : option ascii :=
  let n := code e in
  if (n =? 34) || (n =? 92) || (n =? 47) then Some e
  else if n =? 98 then Some (ascii_of_nat 8)
  else if n =? 102 then Some (ascii_of_nat 12)
  else if n =? 110 then Some (ascii_of_nat 10)
  else if n =? 114 then Some (ascii_of_nat 13)
  else if n =? 116 then Some (ascii_of_nat 9)
  else None.

Definition cons_char (c : ascii) (r : option (string * string))
  : option (string * string) :=
  match r with
  | Some (s, rest) => Some (String c s, rest)
  | None => None
  end.

(** A string after its opening quote: its characters and what follows the
    closing quote. *)
Fixpoint lex_string (s : string) : option (string * string) :=
  match s with
  | EmptyString => None
  | String c r =>
      if Ascii.eqb c dquote then Some (EmptyString, r)
      else if Ascii.eqb c "\" then
        match r with
        | EmptyString => None
        | String e r1 =>
            if Ascii.eqb e "u" then
              match r1 with
              | String h1 (String h2 (String h3 (String h4 r2))) =>
                  match hex4 h1 h2 h3 h4 with
                  | Some n =>
                      if n <? 256
                      then cons_char (ascii_of_nat (Z.to_nat n)) (lex_string r2)
                      else None
                  | None => None
                  end
              | _ => None
              end
            else
              match unescape e with
              | Some ch => cons_char ch (lex_string r1)
              | None => None
              end
        end
      else if code c <? 32 then None
      else cons_char c (lex_string r)
  end.

Fixpoint drop (n : nat) (s : string) : string :=
  match n, s with
  | S k, String _ r => drop k r
  | _, _ => s
  end.

Fixpoint parse_value (fuel : nat) (s : string) : option (value * string) :=
  match fuel with
  | O => None
  | S k =>
      match s with
      | EmptyString => None
      | String c r =>
          if Ascii.eqb c dquote then
            match lex_string r with
            | Some (str, r') => Some (VStr str, r')
            | None => None
            end
          else if Ascii.eqb c "[" then
            match skip_ws r with
            | EmptyString => None
            | String c2 r2 =>
                if Ascii.eqb c2 "]" then Some (VList [], r2)
                else parse_elements k [] (skip_ws r)
            end
          else if Ascii.eqb c "{" then
            match skip_ws r with
            | EmptyString => None
            | String c2 r2 =>
                if Ascii.eqb c2 "}" then Some (VDict [], r2)
                else parse_members k [] (skip_ws r)
            end
          else if PyStr.startswith "null" s then Some (VNone, drop 4 s)
          else if PyStr.startswith "true" s then Some (VBool true, drop 4 s)
          else if PyStr.startswith "false" s then Some (VBool false, drop 5 s)
          else parse_number s
      end
  end

with parse_elements (fuel : nat) (acc : list value) (s : string)
  : option (value * string) :=
  match fuel with
  | O => None
  | S k =>
      match parse_value k s with
      | None => None
      | Some (v, r) =>
          match skip_ws r with
          | EmptyString => None
          | String c r2 =>
              if Ascii.eqb c "]" then Some (VList (acc ++ [v]), r2)
              else if Ascii.eqb c ","
              then parse_elements k (acc ++ [v]) (skip_ws r2)
              else None
          end
      end
  end

with parse_members (fuel : nat) (acc : list (string * value)) (s : string)
  : option (value * string) :=
  match fuel with
  | O => None
  | S k =>
      match s with
      | EmptyString => None
      | String q r =>
          if Ascii.eqb q dquote then
            match lex_string r with
            | None => None
            | Some (key, r1) =>
                match skip_ws r1 with
                | EmptyString => None
                | String c1 r2 =>
                    if Ascii.eqb c1 ":" then
                      match parse_value k (skip_ws r2) with
                      | None => None
                      | Some (v, r3) =>
                          match skip_ws r3 with
                          | EmptyString => None
                          | String c3 r4 =>
                              if Ascii.eqb c3 "}"
                              then Some (VDict (dict_set key v acc), r4)
                              else if Ascii.eqb c3 ","
                              then parse_members k (dict_set key v acc)
                                                 (skip_ws r4)
                              else None
                          end
                      end
                    else None
                end
            end
          else None
      end
  end.

Definition decode_error (m : string) : exn := Exn JSONDecodeError m None.

Definition json_loads (s : string) : exn + value :=
  match parse_value (2 * String.length s + 2) (skip_ws s) with
  | None => inl (decode_error "Expecting value")
  | Some (v, r) =>
      match skip_ws r with
      | EmptyString => inr v
      | _ => inl (decode_error "Extra data")
      end
  end.

Definition lib : PyLib :=
  Build_PyLib json_loads json_dumps urlsafe_b64decode decode_utf8.

End RefLib.

(* ===================================================================== *)
(** ** Vocabulary of the properties *)
(* ===================================================================== *)

(** The state after the events [evs], nothing else changed. *)
Definition after_events (st : St) (evs : list Event) : St :=
  {| self := self st;
     world := {| cred_file := cred_file (world st);
                 trace := trace (world st) ++ evs |} |}.

(** The state after the gcloud calls [cmds]. *)
Definition after_runs (st : St) (cmds : list (list string)) : St :=
  after_events st (map EvRun cmds).

(** The state with other credentials in the manager. *)
Definition with_credentials (st : St) (c : option Credentials) : St :=
  {| self := {| client_secrets_path := client_secrets_path (self st);
                audience := audience (self st);
                _credentials := c;
                _user_email := _user_email (self st) |};
     world := world st |}.

(** The state with another cached email. *)
Definition with_user_email (st : St) (v : value) : St :=
  {| self := {| client_secrets_path := client_secrets_path (self st);
                audience := audience (self st);
                _credentials := _credentials (self st);
                _user_email := v |};
     world := world st |}.

(** The state with another credential file. *)
Definition with_file (st : St) (f : option File) : St :=
  {| self := self st;
     world := {| cred_file := f; trace := trace (world st) |} |}.

(** *** Concrete environments, for evaluating scenarios *)

Module Scenario.

Fixpoint argv_eqb (a b : list string) : bool :=
  match a, b with
  | [], [] => true
  | x :: a', y :: b' => String.eqb x y && argv_eqb a' b'
  | _, _ => false
  end.

Definition completed (rc : Z) (out err : string) : exn + CompletedProcess :=
  inr {| returncode := rc; stdout := out; stderr := err |}.

(** A machine without gcloud, without client secrets and without ambient
    credentials; file operations succeed; [str(e)] is the message. *)
Definition bare : Env :=
  {| subprocess_run := fun _ =>
       inl (Exn FileNotFoundError "[Errno 2] No such file or directory: 'gcloud'" None);
     auth_default :=
       inl (Exn DefaultCredentialsError
              "Your default credentials were not found." None);
     secrets_exists := false;
     run_flow := inl (Exn FileNotFoundError "client_secrets.json" None);
     refresh := fun _ => inl (Exn RefreshError "invalid_grant" None);
     open_read_error := None;
     mkdir_error := None;
     open_write_error := None;
     chmod_error := None;
     umask := 18;
     exn_str := exn_msg |}.

(** [E] with gcloud installed: what the token call and the account lookup
    answer. *)
Definition with_gcloud (tok acct : exn + CompletedProcess) (E : Env) : Env :=
  {| subprocess_run := fun argv =>
       if argv_eqb argv token_cmd then tok
       else if argv_eqb argv email_cmd then acct
       else subprocess_run E argv;
     auth_default := auth_default E;
     secrets_exists := secrets_exists E;
     run_flow := run_flow E;
     refresh := refresh E;
     open_read_error := open_read_error E;
     mkdir_error := mkdir_error E;
     open_write_error := open_write_error E;
     chmod_error := chmod_error E;
     umask := umask E;
     exn_str := exn_str E |}.

(** [E] with ambient credentials. *)
Definition with_default (c : Credentials) (E : Env) : Env :=
  {| subprocess_run := subprocess_run E;
     auth_default := inr c;
     secrets_exists := secrets_exists E;
     run_flow := run_flow E;
     refresh := refresh E;
     open_read_error := open_read_error E;
     mkdir_error := mkdir_error E;
     open_write_error := open_write_error E;
     chmod_error := chmod_error E;
     umask := umask E;
     exn_str := exn_str E |}.

(** [E] with a client secrets file whose consent flow yields [c]. *)
Definition with_flow (c : Credentials) (E : Env) : Env :=
  {| subprocess_run := subprocess_run E;
     auth_default := auth_default E;
     secrets_exists := true;
     run_flow := inr c;
     refresh := refresh E;
     open_read_error := open_read_error E;
     mkdir_error := mkdir_error E;
     open_write_error := open_write_error E;
     chmod_error := chmod_error E;
     umask := umask E;
     exn_str := exn_str E |}.

(** A fresh manager and an empty world. *)
Definition fresh (secrets : option string) (f : option File) : St :=
  {| self := init secrets None;
     world := {| cred_file := f; trace := [] |} |}.

Definition timeout_expired : exn :=
  Exn TimeoutExpired
      "Command '['gcloud', 'config', 'get-value', 'account']' timed out after 10 seconds"
      None.

Definition NOT_LOGGED_IN_STDERR : string :=
  "ERROR: (gcloud.auth.print-identity-token) You do not currently have an active account. Not logged in.".

(** A user's OAuth2 credentials with the identity token [idt]. *)
Definition user_credentials (idt : string) : Credentials :=
  OAuth2Credentials (VStr "ya29.access") (VStr "1//refresh") (VStr idt)
                    DEFAULT_TOKEN_URI (VStr "client-id") (VStr "client-secret")
                    REQUIRED_SCOPES.

End Scenario.

(** *** The external-tool token source *)

(** The error that lines 323-339 raise for a token call that completed
    with a nonzero exit code or with nothing on its output. *)
Definition classified_error (p : CompletedProcess) : exn :=
  if negb (returncode p =? 0) then
    if not_logged_in (error_msg_of p)
    then Exn AuthenticationError NOT_AUTHENTICATED None
    else Exn AuthenticationError (PRINT_TOKEN_FAILED ++ error_msg_of p) None
  else Exn AuthenticationError EMPTY_TOKEN None.

(** The token call completed with exit code 0 and a nonempty token. *)
Definition token_call_succeeded (E : Env) (tok : string) : Prop :=
  exists p, subprocess_run E token_cmd = inr p /\ returncode p = 0
            /\ PyStr.strip (stdout p) = tok /\ PyStr.nonempty tok = true.

(** The account lookup failed: it exited with a nonzero code, or the call
    itself raised (a timeout, a missing binary). *)
Definition account_lookup_failed (E : Env) : Prop :=
  match subprocess_run E email_cmd with
  | inr q => returncode q <> 0
  | inl _ => True
  end.

(** *** The token extractor and the credential store *)

(** What [_extract_user_email] returns, as a function of the fields. *)
Definition resolved_email {L : PyLib} (s : Self) : value :=
  if truthy (_user_email s) then _user_email s
  else
    match _credentials s with
    | Some c =>
        match id_token c with
        | Some idt =>
            if truthy idt then
              match token_email idt with
              | inr (Some email) => email
              | _ => _user_email s
              end
            else _user_email s
        | None => _user_email s
        end
    | None => _user_email s
    end.

(** A character of the base64url alphabet (RFC 4648, section 5). *)
Definition base64url_char (c : ascii) : bool :=
  let n := Z.of_nat (nat_of_ascii c) in
  (65 <=? n) && (n <=? 90) || (97 <=? n) && (n <=? 122)
  || (48 <=? n) && (n <=? 57) || (n =? 45) || (n =? 95).

Fixpoint all_chars (p : ascii -> bool) (s : string) : bool :=
  match s with
  | EmptyString => true
  | String c r => p c && all_chars p r
  end.

(** A segment of a JWT is valid base64url: written in the alphabet, without
    padding, in a length that some sequence of bytes encodes to. *)
Definition is_base64url (s : string) : bool :=
  all_chars base64url_char s && negb (String.length s mod 4 =? 1)%nat.

(** A call of the library returned. *)
Definition returned {A} (r : exn + A) : bool :=
  match r with inr _ => true | inl _ => false end.

(** The ways in which the token extractor finds no email claim in an
    identity token. *)
Inductive no_email_claim {L : PyLib} (t : string) : Prop :=
| too_few_segments :
    (List.length (PyStr.split "." t) < 2)%nat -> no_email_claim t
| invalid_base64 (e : exn) :
    urlsafe_b64decode (pad_payload (nth 1 (PyStr.split "." t) "")) = inl e ->
    no_email_claim t
| invalid_text (bs : list byte) (e : exn) :
    urlsafe_b64decode (pad_payload (nth 1 (PyStr.split "." t) "")) = inr bs ->
    decode_utf8 bs = inl e ->
    no_email_claim t
| invalid_json (bs : list byte) (text : string) (e : exn) :
    urlsafe_b64decode (pad_payload (nth 1 (PyStr.split "." t) "")) = inr bs ->
    decode_utf8 bs = inr text ->
    json_loads text = inl e ->
    no_email_claim t
| not_an_object (bs : list byte) (text : string) (v : value) :
    urlsafe_b64decode (pad_payload (nth 1 (PyStr.split "." t) "")) = inr bs ->
    decode_utf8 bs = inr text ->
    json_loads text = inr v ->
    (forall d, v <> VDict d) ->
    no_email_claim t
| missing_email (bs : list byte) (text : string) (d : list (string * value)) :
    urlsafe_b64decode (pad_payload (nth 1 (PyStr.split "." t) "")) = inr bs ->
    decode_utf8 bs = inr text ->
    json_loads text = inr (VDict d) ->
    dict_find "email" d = None ->
    no_email_claim t.

(** The second segment of [t] decodes to a JSON object whose email claim
    is [v]. *)
Definition has_email_claim {L : PyLib} (t : string) (v : value) : Prop :=
  (2 <= List.length (PyStr.split "." t))%nat /\
  exists bs text d,
    urlsafe_b64decode (pad_payload (nth 1 (PyStr.split "." t) "")) = inr bs
    /\ decode_utf8 bs = inr text
    /\ json_loads text = inr (VDict d)
    /\ dict_find "email" d = Some v.

(** The credentials that lines 124-134 build from the dict of the file. *)
Definition credentials_of_dict (d : list (string * value)) : Credentials :=
  OAuth2Credentials (dict_get d "token" VNone)
                    (dict_get d "refresh_token" VNone)
                    (dict_get d "id_token" VNone)
                    (dict_get d "token_uri" DEFAULT_TOKEN_URI)
                    (dict_get d "client_id" VNone)
                    (dict_get d "client_secret" VNone)
                    (dict_get d "scopes" REQUIRED_SCOPES).

(** The manager after a load of the dict [d]. *)
Definition loaded (st : St) (d : list (string * value)) : St :=
  after_events
    (with_user_email (with_credentials st (Some (credentials_of_dict d)))
                     (dict_get d "user_email" VNone))
    [EvExists; EvRead].

(** What a save leaves in the credential file. *)
Definition saved_file {L : PyLib} (c : Credentials) (email : value) : File :=
  {| content := json_dumps (cred_data_of c email); mode := MODE_0600 |}.

(** The state after a save that met no file-system error. *)
Definition saved {L : PyLib} (st : St) (c : Credentials) : St :=
  let email := resolved_email (self st) in
  after_events
    (with_file (with_user_email st email) (Some (saved_file c email)))
    [EvMkdir; EvWrite (json_dumps (cred_data_of c email)); EvChmod MODE_0600].

(** No file operation of a save fails. *)
Definition writable (E : Env) : Prop :=
  mkdir_error E = None /\ open_write_error E = None /\ chmod_error E = None.

(** *** Concrete states, for evaluating scenarios *)

Module Sample.

(** A manager that holds a user's credentials with the identity token
    [idt] and no cached email. *)
Definition holding (idt : string) : St :=
  with_credentials (Scenario.fresh None None)
                   (Some (Scenario.user_credentials idt)).

(** A world whose credential file has the text [text]. *)
Definition on_disk (text : string) : St :=
  Scenario.fresh None (Some {| content := text; mode := 420 |}).

(** Identity tokens whose payload segments have lengths 36, 38 and 35;
    the payloads are objects with the email claims [abc@example.org],
    [abcd@example.org] and [ab@example.org]. *)
Definition TOKEN_LEN_0 : string :=
  "eyJhbGciOiJSUzI1NiJ9.eyJlbWFpbCI6ImFiY0BleGFtcGxlLm9yZyJ9.c2ln".
Definition TOKEN_LEN_2 : string :=
  "eyJhbGciOiJSUzI1NiJ9.eyJlbWFpbCI6ImFiY2RAZXhhbXBsZS5vcmcifQ.c2ln".
Definition TOKEN_LEN_3 : string :=
  "eyJhbGciOiJSUzI1NiJ9.eyJlbWFpbCI6ImFiQGV4YW1wbGUub3JnIn0.c2ln".

(** Tokens without an email claim: one segment only; a payload of five
    characters; a payload that is not JSON ([not json]); a payload that is a
    list; a payload that is an object without email. *)
Definition TOKEN_ONE_SEGMENT : string := "eyJhbGciOiJSUzI1NiJ9".
Definition TOKEN_BAD_BASE64 : string := "eyJhbGciOiJSUzI1NiJ9.abcde.c2ln".
Definition TOKEN_BAD_JSON : string := "eyJhbGciOiJSUzI1NiJ9.bm90IGpzb24.c2ln".
Definition TOKEN_LIST : string := "eyJhbGciOiJSUzI1NiJ9.WyJlbWFpbCJd.c2ln".
Definition TOKEN_NO_EMAIL : string := "eyJhbGciOiJSUzI1NiJ9.eyJzdWIiOiI0MiJ9.c2ln".

(** The payload of [TOKEN_LEN_0] followed by a character that is not of the
    alphabet. *)
Definition TOKEN_STRAY : string :=
  "eyJhbGciOiJSUzI1NiJ9.eyJlbWFpbCI6ImFiY0BleGFtcGxlLm9yZyJ9!.c2ln".

End Sample.

(** *** Laws of the JSON functions *)

(** [sys.get_int_max_str_digits()]: an integer is turned into text, and
    text into an integer, only up to this many digits. *)
Definition INT_MAX_STR_DIGITS : Z := 4300.

(** The nesting allowed to an item of the dict of the credential file: far
    below the depth at which the recursion of the encoder and of the
    decoder gives up. *)
Definition ITEM_NESTING : nat := 31.

(** [v] nests at most [n] levels deep, and none of its integers has more
    than [INT_MAX_STR_DIGITS] digits. *)
Fixpoint fits (n : nat) (v : value) {struct v} : bool :=
  match v with
  | VInt z => Z.abs z <? 10 ^ INT_MAX_STR_DIGITS
  | VList l => match n with
               | O => false
               | S k => forallb (fits k) l
               end
  | VDict d => match n with
               | O => false
               | S k => forallb (fun kv => fits k (snd kv)) d
               end
  | _ => true
  end.

(** A value that can be an item of the dict of the credential file, and a
    value that [json] can write and read back: its dicts have distinct
    keys, and it fits. *)
Definition storable (v : value) : bool := wf_value v && fits ITEM_NESTING v.

Definition portable (v : value) : bool :=
  wf_value v && fits (S ITEM_NESTING) v.

(** What the round trip of the credential file needs of [json]: a portable
    value that was written with [json.dump(v, f, indent=2)] is read back by
    [json.load]. *)
Record JsonLaws (L : PyLib) : Prop := {
  loads_dumps :
    forall v, portable v = true -> json_loads (json_dumps v) = inr v
}.

Definition storable_attr (a : option value) : bool :=
  match a with Some v => storable v | None => true end.

(** A credential record whose values are storable. *)
Definition storable_credentials (c : Credentials) : bool :=
  storable (token c) && storable_attr (refresh_token c)
  && storable_attr (id_token c) && storable_attr (token_uri c)
  && storable_attr (client_id c) && storable_attr (client_secret c)
  && storable_attr (scopes c).

(** *** Measures for the reference reader *)

(** The number of nodes of a value, items counted twice: the fuel that
    reading it back takes. *)
Fixpoint size (v : value) : nat :=
  match v with
  | VList l => S (fold_right (fun x n => S (size x + n)) 0%nat l)
  | VDict d => S (fold_right (fun kv n => S (size (snd kv) + n)) 0%nat d)
  | _ => 1%nat
  end.

Definition size_items (l : list value) : nat :=
  fold_right (fun x n => S (size x + n)) 0%nat l.

Definition size_members (d : list (string * value)) : nat :=
  fold_right (fun kv n => S (size (snd kv) + n)) 0%nat d.

(** A text after which a number ends: it does not go on with a digit, a
    fraction or an exponent. *)
Definition number_ends (s : string) : bool :=
  match s with
  | EmptyString => true
  | String c _ =>
      match RefLib.digit_of c with
      | Some _ => false
      | None => negb (RefLib.fraction_follows s)
      end
  end.

(** A character that can start a value. *)
Definition value_head (c : ascii) : bool :=
  negb (RefLib.is_ws c) && negb (Ascii.eqb c "]") && negb (Ascii.eqb c "}").

Definition starts_value (s : string) : Prop :=
  exists c r, s = String c r /\ value_head c = true.

(** Reading back what was written, with [fuel] steps: a value, the items
    of a list after its bracket, the items of a dict after its brace. *)
Definition reads_back (fuel : nat) : Prop :=
  (forall v lvl rest,
      (size v <= fuel)%nat -> wf_value v = true -> number_ends rest = true ->
      RefLib.parse_value fuel (RefLib.dump lvl v ++ rest) = Some (v, rest))
  /\ (forall items acc lvl rest,
         items <> [] -> (size_items items <= fuel)%nat ->
         forallb wf_value items = true ->
         RefLib.parse_elements fuel acc
           (RefLib.join (RefLib.dump (S lvl))
                        ("," ++ RefLib.newline_indent (S lvl)) items
            ++ RefLib.newline_indent lvl ++ "]" ++ rest)
         = Some (VList (acc ++ items), rest))
  /\ (forall items acc lvl rest,
         items <> [] -> (size_members items <= fuel)%nat ->
         forallb (fun kv => wf_value (snd kv)) items = true ->
         distinct_keys (map fst (acc ++ items)) = true ->
         RefLib.parse_members fuel acc
           (RefLib.join (fun kv => RefLib.print_string (fst kv) ++ ": "
                                   ++ RefLib.dump (S lvl) (snd kv))
                        ("," ++ RefLib.newline_indent (S lvl)) items
            ++ RefLib.newline_indent lvl ++ "}" ++ rest)
         = Some (VDict (acc ++ items), rest)).

(** What the reference reader yields is a value, given that what it has
    gathered so far is one. *)
Definition reads_values (fuel : nat) : Prop :=
  (forall s v r, RefLib.parse_value fuel s = Some (v, r) -> wf_value v = true)
  /\ (forall acc s v r,
         forallb wf_value acc = true ->
         RefLib.parse_elements fuel acc s = Some (v, r) -> wf_value v = true)
  /\ (forall acc s v r,
         wf_value (VDict acc) = true ->
         RefLib.parse_members fuel acc s = Some (v, r) -> wf_value v = true).

(** *** Footprints: which calls a method makes *)

(** Where a call goes: a command that the manager runs itself with
    [subprocess.run]; a read of the credential file or a write to it; a call
    into Google's auth libraries ([google.auth.default], the consent flow,
    [Credentials.refresh]).  A call of the last kind is one event: what the
    library does inside it, commands that it runs itself included, is not
    in the trace. *)
Inductive origin : Type := Gcloud | FileRead | FileWrite | Google.

Definition origin_of (ev : Event) : origin :=
  match ev with
  | EvRun _ => Gcloud
  | EvExists | EvRead => FileRead
  | EvMkdir | EvWrite _ | EvChmod _ => FileWrite
  | EvDefault | EvFlow | EvRefresh => Google
  end.

(** From [st], the method [m] makes only calls that satisfy [P]: the trace
    grows by such events and keeps what it had. *)
Definition calls_at {A} (P : Event -> Prop) (m : M A) (st : St) : Prop :=
  exists evs, trace (world (snd (m st))) = (trace (world st) ++ evs)%list
              /\ Forall P evs.

Definition calls_only {A} (P : Event -> Prop) (m : M A) : Prop :=
  forall st, calls_at P m st.

(** [m] leaves the part [f] of the state as it is, whether it returns or
    raises. *)
Definition keeps {A X} (f : St -> X) (m : M A) : Prop :=
  forall st, f (snd (m st)) = f st.

(** The credential file, and the manager's fields. *)
Definition the_file (st : St) : option File := cred_file (world st).
Definition the_fields (st : St) : Self := self st.

(** A gcloud call that the identity-token source makes. *)
Definition identity_token_call (ev : Event) : Prop :=
  ev = EvRun token_cmd \/ ev = EvRun email_cmd.

(** The token call completed with exit code 0 and a nonempty token. *)
Definition token_ok (E : Env) : bool :=
  match subprocess_run E token_cmd with
  | inr p => (returncode p =? 0) && PyStr.nonempty (PyStr.strip (stdout p))
  | inl _ => false
  end.

(** The access-token call completed with exit code 0 and a nonempty
    token. *)
Definition access_ok (E : Env) : bool :=
  match subprocess_run E access_cmd with
  | inr p => (returncode p =? 0) && PyStr.nonempty (PyStr.strip (stdout p))
  | inl _ => false
  end.

(** The state with the fields of a manager that has logged out. *)
Definition cleared (st : St) : St :=
  with_user_email (with_credentials st None) VNone.

(** *** [authenticate] *)

(** What lines 106-107 make of an error that reaches them. *)
Definition rewrap_google_errors (E : Env) (e : exn) : exn :=
  if isinstance e RefreshError || isinstance e DefaultCredentialsError
  then Exn AuthenticationError ("Authentication failed: " ++ exn_str E e)
           (Some e)
  else e.

(** The gcloud path of [authenticate] is closed: the token source raises. *)
Definition gcloud_unavailable (E : Env) : Prop :=
  token_ok E = false \/ exists e, subprocess_run E email_cmd = inl e.

(** The headers that [get_auth_headers] builds from a token and an email. *)
Definition headers_of (access_token user_email : value) : value :=
  VDict [ ("Authorization", VStr ("Bearer " ++ PyFormat.str access_token));
          ("X-User-Email", user_email) ].

(** *** More concrete environments and states *)

Module Cases.

(** [E] where [google.auth.default] raises [e]. *)
Definition with_default_error (e : exn) (E : Env) : Env :=
  {| subprocess_run := subprocess_run E;
     auth_default := inl e;
     secrets_exists := secrets_exists E;
     run_flow := run_flow E;
     refresh := refresh E;
     open_read_error := open_read_error E;
     mkdir_error := mkdir_error E;
     open_write_error := open_write_error E;
     chmod_error := chmod_error E;
     umask := umask E;
     exn_str := exn_str E |}.

(** [E] where refreshing yields the credentials [c]. *)
Definition with_refresh (c : Credentials) (E : Env) : Env :=
  {| subprocess_run := subprocess_run E;
     auth_default := auth_default E;
     secrets_exists := secrets_exists E;
     run_flow := run_flow E;
     refresh := fun _ => inr c;
     open_read_error := open_read_error E;
     mkdir_error := mkdir_error E;
     open_write_error := open_write_error E;
     chmod_error := chmod_error E;
     umask := umask E;
     exn_str := exn_str E |}.

(** [E] with failing file operations: opening for reading, creating the
    directory, opening for writing, changing the mode. *)
Definition with_file_errors (rd mk wr ch : option exn) (E : Env) : Env :=
  {| subprocess_run := subprocess_run E;
     auth_default := auth_default E;
     secrets_exists := secrets_exists E;
     run_flow := run_flow E;
     refresh := refresh E;
     open_read_error := rd;
     mkdir_error := mk;
     open_write_error := wr;
     chmod_error := ch;
     umask := umask E;
     exn_str := exn_str E |}.

Definition permission_denied : exn :=
  Exn PermissionError "[Errno 13] Permission denied" None.

Definition transport_error : exn :=
  Exn RefreshError "Unable to acquire impersonated credentials" None.

(** The credentials of [c], expired. *)
Definition expire (c : Credentials) : Credentials :=
  {| token := token c; refresh_token := refresh_token c;
     id_token := id_token c; token_uri := token_uri c;
     client_id := client_id c; client_secret := client_secret c;
     scopes := scopes c; expired := true |}.


End Cases.

(** What lines 87-104 of [authenticate] answer for credentials with the
    identity token [idt] when the email resolves to [email]. *)
Definition token_and_email (idt email : value) : exn + (value * value) :=
  if truthy idt then
    if truthy email then inr (idt, email)
    else inl (Exn AuthenticationError
                "Failed to extract user email from credentials" None)
  else inl (Exn AuthenticationError
              "Failed to obtain ID token from credentials" None).

(** The state in which the token source leaves [st]. *)
Definition after_token_source (E : Env) (st : St) : St :=
  after_runs st (token_cmd :: if token_ok E then [email_cmd] else []).

(** *** Concrete credential files *)

Module Stored.

(** A world whose credential file holds the JSON object [d], as the
    reference library writes it. *)
Definition holding (d : list (string * value)) : St :=
  Sample.on_disk (RefLib.json_dumps (VDict d)).

Definition file_of (d : list (string * value)) : File :=
  {| content := RefLib.json_dumps (VDict d); mode := 420 |}.

(** A complete file, and one with an access token only. *)
Definition COMPLETE : list (string * value) :=
  [ ("token", VStr "ya29.access");
    ("id_token", VStr Sample.TOKEN_LEN_0);
    ("user_email", VStr "abc@example.org") ].

Definition ACCESS_ONLY : list (string * value) :=
  [ ("token", VStr "ya29.access") ].

End Stored.

(** The state after a save that could make the directory: the email is
    resolved and cached, and the file is [f]. *)
Definition save_attempted {L : PyLib} (st : St) (f : option File)
  (evs : list Event) : St :=
  after_events (with_file (with_user_email st (resolved_email (self st))) f)
               (EvMkdir :: evs).

(** The text that a save of [c] writes from [st]. *)
Definition saved_text {L : PyLib} (st : St) (c : Credentials) : string :=
  json_dumps (cred_data_of c (resolved_email (self st))).

(** The mode of a file that is opened for writing: kept when the file
    exists, [0o666] without the bits of the umask when it is created. *)
Definition mode_on_write (E : Env) (st : St) : Z :=
  match cred_file (world st) with
  | Some f0 => mode f0
  | None => Z.ldiff MODE_0666 (umask E)
  end.

(** What [_refresh_credentials] makes of an error inside its [try]. *)
Definition rewrap_refresh_error (E : Env) (e : exn) : exn :=
  if isinstance e RefreshError
  then Exn TokenRefreshError
         ("Failed to refresh credentials: " ++ exn_str E e) (Some e)
  else e.

(** What the interactive branch of [_perform_oauth_flow] makes of an error. *)
Definition flow_failed (E : Env) (e : exn) : exn :=
  Exn AuthenticationError ("OAuth flow failed: " ++ exn_str E e) (Some e).

(** *** The audience *)

(** The fields with another audience, and the state with another
    audience. *)
Definition set_audience (s : Self) (aud : option string) : Self :=
  {| client_secrets_path := client_secrets_path s;
     audience := aud;
     _credentials := _credentials s;
     _user_email := _user_email s |}.

Definition with_audience (st : St) (aud : option string) : St :=
  {| self := set_audience (self st) aud; world := world st |}.

(** Run with the audience [aud], [m1] does what [m2] does: the same
    outcome and the same state, but for the audience. *)
Definition same_but_audience {A} (aud : option string) (m1 m2 : M A) : Prop :=
  forall st, m1 (with_audience st aud)
             = (fst (m2 st), with_audience (snd (m2 st)) aud).

(** [m] does not depend on the audience of the manager. *)
Definition ignores_audience {A} (m : M A) : Prop :=
  forall aud, same_but_audience aud m m.

(** *** A machine with gcloud *)

(** A machine on which every gcloud command exits with code 0 and prints
    [out]; the rest as on the bare machine. *)
Definition gcloud_prints (out : string) : Env :=
  {| subprocess_run := fun _ => Scenario.completed 0 out "";
     auth_default := auth_default Scenario.bare;
     secrets_exists := secrets_exists Scenario.bare;
     run_flow := run_flow Scenario.bare;
     refresh := refresh Scenario.bare;
     open_read_error := open_read_error Scenario.bare;
     mkdir_error := mkdir_error Scenario.bare;
     open_write_error := open_write_error Scenario.bare;
     chmod_error := chmod_error Scenario.bare;
     umask := umask Scenario.bare;
     exn_str := exn_str Scenario.bare |}.

(* ===================================================================== *)
(** ** Properties *)
(* ===================================================================== *)

(** Unfolds the monad so that a run reduces to its outcome. *)
Ltac run_monad :=
  cbv [bind ret raise raise_new raise_from try_except lift emit
       get_self put_self get_file put_file set_credentials set_user_email];
  cbn [self world cred_file trace fst snd].

(** *** Exception classes *)

Lemma isinstance_refl (c : exn_class) (m : string) (k : option exn) :
  isinstance (Exn c m k) c = true.
Proof. destruct c; reflexivity. Qed.

Lemma authentication_error_falls_through (m : string) (k : option exn) :
  isinstance (Exn AuthenticationError m k) TimeoutExpired = false /\
  isinstance (Exn AuthenticationError m k) FileNotFoundError = false.
Proof. split; reflexivity. Qed.

(** *** The external-tool token source *)

Section ExternalTool.

Context {L : PyLib}.
Variable E : Env.

Lemma fetch_token_call_raises (st : St) (e : exn) :
  subprocess_run E token_cmd = inl e ->
  fetch_identity_token E st = (inl e, after_runs st [token_cmd]).
Proof.
  intros H. unfold fetch_identity_token, run. run_monad. rewrite H.
  reflexivity.
Qed.

Lemma fetch_both_complete (st : St) (p q : CompletedProcess) :
  subprocess_run E token_cmd = inr p ->
  returncode p = 0 ->
  PyStr.nonempty (PyStr.strip (stdout p)) = true ->
  subprocess_run E email_cmd = inr q ->
  fetch_identity_token E st =
    (inr (VStr (PyStr.strip (stdout p)),
          VStr (if returncode q =? 0 then PyStr.strip (stdout q)
                else PLACEHOLDER_EMAIL)),
     after_runs st [token_cmd; email_cmd]).
Proof.
  intros Hp Hz Hne Hq. unfold fetch_identity_token, run. run_monad.
  rewrite Hp, Hz. cbn. rewrite Hne. cbn. rewrite Hq.
  unfold after_runs. cbn. rewrite <- app_assoc. reflexivity.
Qed.

Lemma token_source_returns (st st' : St) (r : value * value) :
  fetch_identity_token E st = (inr r, st') ->
  _get_identity_token_without_audience E st = (inr r, st').
Proof.
  intros H. unfold _get_identity_token_without_audience, try_except.
  rewrite H. reflexivity.
Qed.

Lemma token_source_timeout (st st' : St) (e : exn) :
  fetch_identity_token E st = (inl e, st') ->
  isinstance e TimeoutExpired = true ->
  _get_identity_token_without_audience E st =
    (inl (Exn AuthenticationError "Timeout while calling gcloud command" None),
     st').
Proof.
  intros H Ht. unfold _get_identity_token_without_audience, try_except.
  rewrite H, Ht. reflexivity.
Qed.

(** Whatever the body raises, the method raises an [AuthenticationError]. *)
Lemma token_source_raises_authentication_error (st st' : St) (e : exn) :
  fetch_identity_token E st = (inl e, st') ->
  exists e', _get_identity_token_without_audience E st = (inl e', st')
             /\ exn_cls e' = AuthenticationError.
Proof.
  intros H. unfold _get_identity_token_without_audience, try_except.
  rewrite H.
  destruct (isinstance e TimeoutExpired);
    [| destruct (isinstance e FileNotFoundError)];
    eexists; split; reflexivity.
Qed.

(** C1: when the token call exits with code 0 and prints "abc.def" and the
    account lookup exits with code 0 and prints "user@example.com",
    [authenticate] returns that pair; the two gcloud calls are all it does:
    the manager's fields and the credential file are untouched and no
    stored-credential load, OAuth flow or refresh appears in the trace. *)
Theorem authenticate_external_tool_success
  (force : bool) (st : St) (p q : CompletedProcess) :
  subprocess_run E token_cmd = inr p ->
  returncode p = 0 -> stdout p = "abc.def" ->
  subprocess_run E email_cmd = inr q ->
  returncode q = 0 -> stdout q = "user@example.com" ->
  authenticate E force st =
    (inr (VStr "abc.def", VStr "user@example.com"),
     after_runs st [token_cmd; email_cmd]).
Proof.
  intros Hp Hp0 Hpo Hq Hq0 Hqo.
  assert (Hf := fetch_both_complete st p q Hp Hp0).
  rewrite Hpo, Hq0, Hqo in Hf. specialize (Hf eq_refl Hq).
  apply token_source_returns in Hf.
  unfold authenticate. run_monad. rewrite Hf. reflexivity.
Qed.

End ExternalTool.

Lemma authenticate_external_tool_success_witness :
  authenticate (L := RefLib.lib)
    (Scenario.with_gcloud (Scenario.completed 0 "abc.def" "")
                          (Scenario.completed 0 "user@example.com" "")
                          Scenario.bare)
    false (Scenario.fresh None None)
  = (inr (VStr "abc.def", VStr "user@example.com"),
     after_runs (Scenario.fresh None None) [token_cmd; email_cmd]).
Proof.
  eapply (authenticate_external_tool_success
            (L := RefLib.lib)
            (Scenario.with_gcloud (Scenario.completed 0 "abc.def" "")
                                  (Scenario.completed 0 "user@example.com" "")
                                  Scenario.bare)
            false (Scenario.fresh None None));
    reflexivity.
Defined.

Section ExternalToolErrors.

Variable E : Env.

Lemma nonempty_false (s : string) : PyStr.nonempty s = false <-> s = EmptyString.
Proof. destruct s; cbn; split; congruence. Qed.

Lemma classified_error_class (p : CompletedProcess) :
  exn_cls (classified_error p) = AuthenticationError.
Proof.
  unfold classified_error.
  destruct (negb (returncode p =? 0)); [destruct (not_logged_in _) |];
    reflexivity.
Qed.

Lemma fetch_classifies (st : St) (p : CompletedProcess) :
  subprocess_run E token_cmd = inr p ->
  returncode p <> 0 \/ PyStr.strip (stdout p) = EmptyString ->
  fetch_identity_token E st =
    (inl (classified_error p), after_runs st [token_cmd]).
Proof.
  intros Hp Hfail. unfold fetch_identity_token, run, classified_error.
  run_monad. rewrite Hp.
  destruct (returncode p =? 0) eqn:Hrc; cbn.
  - destruct Hfail as [Hnz | Hempty]; [apply Z.eqb_eq in Hrc; contradiction |].
    rewrite Hempty. reflexivity.
  - destruct (not_logged_in (error_msg_of p)); reflexivity.
Qed.

(** The handler of line 365 wraps the error of the classification. *)
Lemma classification_rewrapped (st : St) (p : CompletedProcess) :
  subprocess_run E token_cmd = inr p ->
  returncode p <> 0 \/ PyStr.strip (stdout p) = EmptyString ->
  _get_identity_token_without_audience E st
  = (inl (Exn AuthenticationError
            (FAILED_TO_GET_TOKEN ++ exn_str E (classified_error p))
            (Some (classified_error p))),
     after_runs st [token_cmd]).
Proof.
  intros Hp Hfail.
  unfold _get_identity_token_without_audience, try_except.
  rewrite (fetch_classifies st p Hp Hfail).
  pose proof (classified_error_class p) as Hc.
  destruct (classified_error p) as [c m k]. cbn in Hc. subst c.
  reflexivity.
Qed.

(** C10: a token call that completed with a nonzero exit code (whether or
    not its error output says that nobody is logged in) or with exit code 0
    and an empty output makes the body raise its own [AuthenticationError];
    the trailing [except Exception] handler of the same method catches that
    error and raises a new [AuthenticationError] whose message is
    "Failed to get identity token: " followed by the text of the caught
    error, which it keeps as its cause. *)
Theorem classified_failure_is_rewrapped (st : St) (p : CompletedProcess) :
  subprocess_run E token_cmd = inr p ->
  returncode p <> 0 \/ (returncode p = 0 /\ PyStr.strip (stdout p) = EmptyString) ->
  fetch_identity_token E st
    = (inl (classified_error p), after_runs st [token_cmd])
  /\ exn_cls (classified_error p) = AuthenticationError
  /\ _get_identity_token_without_audience E st
     = (inl (Exn AuthenticationError
               (FAILED_TO_GET_TOKEN ++ exn_str E (classified_error p))
               (Some (classified_error p))),
        after_runs st [token_cmd]).
Proof.
  intros Hp Hfail.
  assert (Hfail' : returncode p <> 0 \/ PyStr.strip (stdout p) = EmptyString)
    by tauto.
  split; [apply fetch_classifies; assumption |].
  split; [apply classified_error_class |].
  apply classification_rewrapped; assumption.
Qed.

(** C4, as the code has it: once the token call has succeeded with a
    nonempty token, an account lookup that exits with a nonzero code yields
    the pair of the token and the placeholder email; an account lookup that
    raises (a timeout, a missing binary, anything else) makes the method
    raise an [AuthenticationError]. *)
Theorem account_lookup_failure_outcomes (st : St) (tok : string) :
  token_call_succeeded E tok ->
  account_lookup_failed E ->
  match subprocess_run E email_cmd with
  | inr q =>
      _get_identity_token_without_audience E st
      = (inr (VStr tok, VStr PLACEHOLDER_EMAIL),
         after_runs st [token_cmd; email_cmd])
  | inl e =>
      exists e',
        _get_identity_token_without_audience E st
        = (inl e', after_runs st [token_cmd; email_cmd])
        /\ exn_cls e' = AuthenticationError
        /\ (isinstance e TimeoutExpired = true ->
            exn_msg e' = "Timeout while calling gcloud command")
  end.
Proof.
  intros (p & Hp & Hrc & Htok & Hne) Hfail. unfold account_lookup_failed in Hfail.
  destruct (subprocess_run E email_cmd) as [e | q] eqn:Hq.
  - assert (Hf : fetch_identity_token E st
                 = (inl e, after_runs st [token_cmd; email_cmd])).
    { unfold fetch_identity_token, run. run_monad.
      rewrite Hp, Hrc. cbn. rewrite Htok, Hne. cbn. rewrite Hq.
      unfold after_runs, after_events. cbn. rewrite <- app_assoc. reflexivity. }
    unfold _get_identity_token_without_audience, try_except. rewrite Hf.
    destruct (isinstance e TimeoutExpired);
      [| destruct (isinstance e FileNotFoundError)];
      eexists; (split; [reflexivity | split; [reflexivity |]]);
      intros; try reflexivity; discriminate.
  - subst tok.
    pose proof (fetch_both_complete E st p q Hp Hrc Hne Hq) as Hf.
    apply Z.eqb_neq in Hfail. rewrite Hfail in Hf.
    apply token_source_returns. exact Hf.
Qed.

End ExternalToolErrors.

Lemma classified_failure_is_rewrapped_witness :
  let E := Scenario.with_gcloud
             (Scenario.completed 1 "" Scenario.NOT_LOGGED_IN_STDERR)
             (Scenario.completed 0 "user@example.com" "") Scenario.bare in
  fst (_get_identity_token_without_audience E
         (Scenario.fresh None None))
  = inl (Exn AuthenticationError
           (FAILED_TO_GET_TOKEN ++ NOT_AUTHENTICATED)
           (Some (Exn AuthenticationError NOT_AUTHENTICATED None))).
Proof.
  intros E.
  destruct (classified_failure_is_rewrapped E
              (Scenario.fresh None None)
              {| returncode := 1; stdout := "";
                 stderr := Scenario.NOT_LOGGED_IN_STDERR |})
    as (_ & _ & H).
  - reflexivity.
  - left. cbn. lia.
  - rewrite H. reflexivity.
Defined.

Lemma account_lookup_failure_outcomes_witness :
  _get_identity_token_without_audience
    (Scenario.with_gcloud (Scenario.completed 0 "abc.def" "")
                          (Scenario.completed 1 "" "no account")
                          Scenario.bare)
    (Scenario.fresh None None)
  = (inr (VStr "abc.def", VStr PLACEHOLDER_EMAIL),
     after_runs (Scenario.fresh None None) [token_cmd; email_cmd]).
Proof.
  apply (account_lookup_failure_outcomes
           (Scenario.with_gcloud (Scenario.completed 0 "abc.def" "")
                                 (Scenario.completed 1 "" "no account")
                                 Scenario.bare)
           (Scenario.fresh None None) "abc.def").
  - eexists. repeat split; reflexivity.
  - cbn. lia.
Defined.

(** C4 as stated fails: with the token call successful and the account
    lookup timing out, the method raises instead of returning the token
    with the placeholder email. *)
Lemma account_lookup_timeout_raises :
  ~ (forall (E : Env) (st : St) (tok : string),
        token_call_succeeded E tok ->
        account_lookup_failed E ->
        fst (_get_identity_token_without_audience E st)
        = inr (VStr tok, VStr PLACEHOLDER_EMAIL)).
Proof.
  intros claim.
  specialize (claim
                (Scenario.with_gcloud (Scenario.completed 0 "abc.def" "")
                                      (inl Scenario.timeout_expired)
                                      Scenario.bare)
                (Scenario.fresh None None) "abc.def").
  assert (H : fst (_get_identity_token_without_audience
                     (Scenario.with_gcloud (Scenario.completed 0 "abc.def" "")
                                           (inl Scenario.timeout_expired)
                                           Scenario.bare)
                     (Scenario.fresh None None))
              = inl (Exn AuthenticationError
                       "Timeout while calling gcloud command" None))
    by reflexivity.
  rewrite H in claim.
  assert (Hc : @inl exn (value * value)
                 (Exn AuthenticationError "Timeout while calling gcloud command" None)
               = inr (VStr "abc.def", VStr PLACEHOLDER_EMAIL)).
  { apply claim; [eexists; repeat split; reflexivity | exact I]. }
  discriminate Hc.
Qed.

(** *** The token extractor *)

Section TokenExtractor.

Context {L : PyLib}.

Lemma extract_user_email_spec (st : St) :
  _extract_user_email st
  = (inr (resolved_email (self st)),
     with_user_email st (resolved_email (self st))).
Proof.
  destruct st as [[sec aud cr em] w].
  unfold _extract_user_email, resolved_email, extract_from_token,
    with_user_email.
  run_monad. cbn.
  destruct (truthy em) eqn:Hem; [reflexivity |].
  destruct cr as [c |]; [| reflexivity].
  destruct (id_token c) as [idt |]; [| reflexivity].
  destruct (truthy idt); [| reflexivity].
  destruct (token_email idt) as [e | [email |]]; reflexivity.
Qed.

Lemma split_at_least_one (sep : ascii) (s : string) :
  (1 <= List.length (PyStr.split sep s))%nat.
Proof.
  induction s as [| c r IH]; cbn; [lia |].
  destruct (Ascii.eqb c sep); cbn; [lia |].
  destruct (PyStr.split sep r); cbn in *; lia.
Qed.

Lemma two_segments_nonempty (t : string) :
  (2 <= List.length (PyStr.split "." t))%nat -> PyStr.nonempty t = true.
Proof. destruct t; cbn; [lia | reflexivity]. Qed.

Lemma repeat_length (c : ascii) (n : nat) :
  String.length (PyStr.repeat c n) = n.
Proof. induction n; cbn; congruence. Qed.

Lemma append_length (a b : string) :
  String.length (a ++ b) = (String.length a + String.length b)%nat.
Proof. induction a; cbn; congruence. Qed.

(** The padding of line 229-231 completes the payload to a multiple of
    four characters by appending [=] signs only. *)
Lemma pad_payload_spec (payload : string) :
  (String.length (pad_payload payload) mod 4 = 0)%nat
  /\ exists k, (k < 4)%nat
               /\ pad_payload payload = payload ++ PyStr.repeat "=" k.
Proof.
  unfold pad_payload.
  pose proof (Nat.mod_upper_bound (String.length payload) 4 ltac:(lia)) as Hlt.
  pose proof (Nat.div_mod_eq (String.length payload) 4) as Hdm.
  destruct (String.length payload mod 4 =? 0)%nat eqn:Hz; cbn [negb].
  - apply Nat.eqb_eq in Hz. split; [exact Hz |].
    exists 0%nat. split; [lia |]. cbn.
    clear. induction payload; cbn; congruence.
  - apply Nat.eqb_neq in Hz. split.
    + rewrite append_length, repeat_length.
      replace (String.length payload + (4 - String.length payload mod 4))%nat
        with (4 * (String.length payload / 4 + 1))%nat by lia.
      rewrite Nat.mul_comm. apply Nat.Div0.mod_mul.
    + exists (4 - String.length payload mod 4)%nat. split; [lia | reflexivity].
Qed.

Lemma token_email_absent (t : string) :
  no_email_claim t ->
  match token_email (VStr t) with
  | inr (Some email) => email = VNone
  | _ => True
  end.
Proof.
  intros H. unfold token_email, py_split_dot, bind_result.
  destruct H as [Hlen | e He | bs e Hb He | bs text e Hb Ht He
                 | bs text v Hb Ht Hv Hnd | bs text d Hb Ht Hv Hd].
  - apply Nat.leb_gt in Hlen. rewrite Hlen. exact I.
  - destruct (2 <=? _)%nat; [| exact I]. rewrite He. exact I.
  - destruct (2 <=? _)%nat; [| exact I]. rewrite Hb, He. exact I.
  - destruct (2 <=? _)%nat; [| exact I]. rewrite Hb, Ht, He. exact I.
  - destruct (2 <=? _)%nat; [| exact I]. rewrite Hb, Ht, Hv.
    destruct v; try exact I. exfalso. eapply Hnd. reflexivity.
  - destruct (2 <=? _)%nat; [| exact I]. rewrite Hb, Ht, Hv. cbn.
    unfold dict_get. rewrite Hd. reflexivity.
Qed.

Lemma token_email_present (t : string) (v : value) :
  has_email_claim t v -> token_email (VStr t) = inr (Some v).
Proof.
  intros (Hlen & bs & text & d & Hb & Ht & Hv & Hd).
  unfold token_email, py_split_dot, bind_result.
  apply Nat.leb_le in Hlen. rewrite Hlen, Hb, Ht, Hv. cbn.
  unfold dict_get. rewrite Hd. reflexivity.
Qed.

(** C5, as the code has it: with no email cached, an identity token that
    has fewer than two dot-separated segments, or whose padded second
    segment the base64url decoder rejects, or whose decoded payload the
    text decoder or the JSON parser rejects, or whose payload is not an
    object or has no email field, makes the token extractor return [None];
    it returns normally and leaves the cache at [None]. *)
Theorem extract_email_malformed_token_absent
  (st : St) (c : Credentials) (t : string) :
  _user_email (self st) = VNone ->
  _credentials (self st) = Some c ->
  id_token c = Some (VStr t) ->
  no_email_claim t ->
  _extract_user_email st = (inr VNone, with_user_email st VNone).
Proof.
  intros Hem Hc Hid Hbad.
  rewrite extract_user_email_spec.
  assert (Hr : resolved_email (self st) = VNone).
  { unfold resolved_email. rewrite Hem, Hc, Hid. cbn [truthy].
    apply token_email_absent in Hbad.
    destruct (PyStr.nonempty t); [| reflexivity].
    destruct (token_email (VStr t)) as [e | [email |]]; auto. }
  rewrite Hr. reflexivity.
Qed.

(** C6: with no email cached, an identity token with at least two segments
    whose second segment, padded with [=] to a multiple of four characters,
    base64url-decodes to the text of a JSON object with an email claim
    makes the token extractor return exactly that claim, whatever the
    length of the segment; the padded segment is the segment followed by
    fewer than four [=] signs. *)
Theorem extract_email_valid_token
  (st : St) (c : Credentials) (t : string) (v : value) :
  truthy (_user_email (self st)) = false ->
  _credentials (self st) = Some c ->
  id_token c = Some (VStr t) ->
  has_email_claim t v ->
  _extract_user_email st = (inr v, with_user_email st v)
  /\ (String.length (pad_payload (nth 1 (PyStr.split "." t) "")) mod 4 = 0)%nat.
Proof.
  intros Hem Hc Hid Hok. split; [| apply pad_payload_spec].
  rewrite extract_user_email_spec.
  assert (Hr : resolved_email (self st) = v).
  { unfold resolved_email. rewrite Hem, Hc, Hid. cbn [truthy].
    rewrite (two_segments_nonempty t (proj1 Hok)).
    rewrite (token_email_present t v Hok). reflexivity. }
  rewrite Hr. reflexivity.
Qed.

End TokenExtractor.

(** *** The credential store *)

Section CredentialStore.

Context {L : PyLib}.
Variable E : Env.

Lemma load_missing_file (st : St) :
  cred_file (world st) = None ->
  _load_stored_credentials E st = (inr false, after_events st [EvExists]).
Proof.
  intros H. unfold _load_stored_credentials, path_exists, after_events.
  run_monad. rewrite H. reflexivity.
Qed.

Lemma load_from_file_rejected (st : St) (f : File) (e : exn) :
  cred_file (world st) = Some f ->
  open_read_error E = None ->
  json_loads (content f) = inl e ->
  _load_stored_credentials E st
  = (if isinstance e JSONDecodeError || isinstance e KeyError
        || isinstance e FileNotFoundError
     then inr false else inl e,
     after_events st [EvExists; EvRead]).
Proof.
  intros Hf Hr He.
  unfold _load_stored_credentials, path_exists, load_from_file, read_file.
  unfold after_events.
  run_monad. rewrite Hf. cbn. rewrite Hr. cbn. rewrite He.
  rewrite <- app_assoc. cbn.
  destruct (isinstance e JSONDecodeError || isinstance e KeyError
            || isinstance e FileNotFoundError); reflexivity.
Qed.

Lemma load_object (st : St) (f : File) (d : list (string * value)) :
  cred_file (world st) = Some f ->
  open_read_error E = None ->
  json_loads (content f) = inr (VDict d) ->
  _load_stored_credentials E st = (inr true, loaded st d).
Proof.
  intros Hf Hr Hd.
  unfold _load_stored_credentials, path_exists, load_from_file, read_file.
  unfold loaded, after_events, with_user_email, with_credentials.
  run_monad. rewrite Hf. cbn. rewrite Hr. cbn. rewrite Hd. cbn.
  rewrite <- app_assoc. reflexivity.
Qed.

(** A document that is not an object: [cred_data.get] raises, and the
    handler of line 140 does not catch an [AttributeError]. *)
Lemma load_not_an_object (st : St) (f : File) (v : value) :
  cred_file (world st) = Some f ->
  open_read_error E = None ->
  json_loads (content f) = inr v ->
  (forall d, v <> VDict d) ->
  exists e, _load_stored_credentials E st
            = (inl e, after_events st [EvExists; EvRead])
            /\ exn_cls e = AttributeError.
Proof.
  intros Hf Hr Hv Hnd.
  unfold _load_stored_credentials, path_exists, load_from_file, read_file.
  unfold after_events.
  run_monad. rewrite Hf. cbn. rewrite Hr. cbn. rewrite Hv.
  rewrite <- app_assoc. cbn.
  destruct v; try (eexists; split; reflexivity).
  exfalso. eapply Hnd. reflexivity.
Qed.


Lemma save_without_credentials (st : St) :
  _credentials (self st) = None ->
  _save_credentials E st = (inr tt, st).
Proof.
  intros H. unfold _save_credentials. run_monad. rewrite H. reflexivity.
Qed.

Lemma save_writes (st : St) (c : Credentials) :
  _credentials (self st) = Some c ->
  writable E ->
  _save_credentials E st = (inr tt, saved st c).
Proof.
  intros Hc (Hm & Ho & Hch).
  unfold _save_credentials, mkdir_parent, write_credentials, write_file, chmod.
  unfold bind at 1. unfold get_self at 1. rewrite Hc.
  unfold bind at 1. unfold bind at 1. unfold emit at 1. rewrite Hm.
  unfold ret at 1. unfold bind at 1.
  rewrite extract_user_email_spec. cbn [self world].
  run_monad. rewrite Ho. cbn. rewrite Hch. cbn.
  unfold saved, saved_file, after_events, with_file, with_user_email. cbn.
  repeat rewrite <- app_assoc. reflexivity.
Qed.

(** C9: a save of a credential record that meets no file-system error
    leaves the credential file with the bits [0o600], which share no bit
    with those of group and other; the [chmod] is the call that follows the
    write. *)
Theorem save_restricts_permissions (st : St) (c : Credentials) :
  _credentials (self st) = Some c ->
  writable E ->
  exists (f : File),
    fst (_save_credentials E st) = inr tt
    /\ cred_file (world (snd (_save_credentials E st))) = Some f
    /\ mode f = MODE_0600
    /\ Z.land (mode f) GROUP_OTHER_BITS = 0
    /\ trace (world (snd (_save_credentials E st)))
       = (trace (world st)
          ++ [EvMkdir; EvWrite (content f); EvChmod MODE_0600])%list.
Proof.
  intros Hc Hw. rewrite (save_writes st c Hc Hw).
  eexists. repeat split.
Qed.

End CredentialStore.

(** *** The OAuth flow runner and [authenticate] *)

Section OAuthFlow.

Context {L : PyLib}.
Variable E : Env.

Lemma flow_ambient_success (st : St) (c : Credentials) :
  no_client_secrets E (self st) = true ->
  auth_default E = inr c ->
  _perform_oauth_flow E st
  = (inr tt, after_events (with_credentials st (Some c)) [EvDefault]).
Proof.
  intros Hn Hd. unfold _perform_oauth_flow, call_default. run_monad.
  rewrite Hn, Hd. reflexivity.
Qed.

Lemma flow_ambient_failure (st : St) (e : exn) :
  no_client_secrets E (self st) = true ->
  auth_default E = inl e ->
  _perform_oauth_flow E st
  = (inl (if isinstance e DefaultCredentialsError
          then Exn CredentialsNotFoundError NO_CREDENTIAL_SOURCE None
          else e),
     after_events st [EvDefault]).
Proof.
  intros Hn Hd. unfold _perform_oauth_flow, call_default. run_monad.
  rewrite Hn, Hd. destruct (isinstance e DefaultCredentialsError); reflexivity.
Qed.

Lemma flow_interactive (st : St) (c : Credentials) :
  no_client_secrets E (self st) = false ->
  run_flow E = inr c ->
  _perform_oauth_flow E st
  = match _save_credentials E
            (with_credentials (after_events st [EvFlow]) (Some c)) with
    | (inr tt, st') => (inr tt, st')
    | (inl e, st') =>
        (inl (Exn AuthenticationError ("OAuth flow failed: " ++ exn_str E e)
                  (Some e)), st')
    end.
Proof.
  intros Hn Hf. unfold _perform_oauth_flow, call_flow.
  unfold bind at 1. unfold get_self at 1. rewrite Hn.
  unfold try_except, bind, emit, lift, set_credentials, get_self, put_self.
  cbn [self world cred_file trace]. rewrite Hf.
  unfold with_credentials, after_events. cbn [self world cred_file trace].
  match goal with
  | |- match ?a with _ => _ end = match ?b with _ => _ end =>
      change a with b; destruct b as [[e | []] st']
  end; reflexivity.
Qed.

Lemma flow_interactive_failure (st : St) (e : exn) :
  no_client_secrets E (self st) = false ->
  run_flow E = inl e ->
  fst (_perform_oauth_flow E st)
  = inl (Exn AuthenticationError ("OAuth flow failed: " ++ exn_str E e)
             (Some e)).
Proof.
  intros Hn Hf. unfold _perform_oauth_flow, call_flow. run_monad.
  rewrite Hn, Hf. reflexivity.
Qed.

(** C3, as the code has it: a run of the OAuth flow runner that returns
    normally through the interactive authorization-code branch has called
    the save operation on the new credentials before returning, and the
    record is in the credential file when the write and the [chmod] meet no
    error; a run that returns normally through the ambient
    (default-credentials) branch keeps the credentials in memory only: it
    makes no file-system call and leaves the credential file as it was. *)
Theorem oauth_flow_persistence (st : St) :
  fst (_perform_oauth_flow E st) = inr tt ->
  if no_client_secrets E (self st)
  then exists c,
      auth_default E = inr c
      /\ snd (_perform_oauth_flow E st)
         = after_events (with_credentials st (Some c)) [EvDefault]
  else exists c,
      run_flow E = inr c
      /\ _perform_oauth_flow E st
         = _save_credentials E
             (with_credentials (after_events st [EvFlow]) (Some c))
      /\ (open_write_error E = None -> chmod_error E = None ->
          snd (_perform_oauth_flow E st)
          = saved (with_credentials (after_events st [EvFlow]) (Some c)) c).
Proof.
  intros Hok. destruct (no_client_secrets E (self st)) eqn:Hn.
  - destruct (auth_default E) as [e | c] eqn:Hd.
    + rewrite (flow_ambient_failure st e Hn Hd) in Hok. discriminate.
    + exists c. split; [reflexivity |].
      rewrite (flow_ambient_success st c Hn Hd). reflexivity.
  - destruct (run_flow E) as [e | c] eqn:Hf.
    + rewrite (flow_interactive_failure st e Hn Hf) in Hok. discriminate.
    + exists c. split; [reflexivity |].
      pose proof (flow_interactive st c Hn Hf) as Hrun.
      assert (Hsave : _perform_oauth_flow E st
                      = _save_credentials E
                          (with_credentials (after_events st [EvFlow]) (Some c))).
      { rewrite Hrun. rewrite Hrun in Hok.
        destruct (_save_credentials E _) as [[e | []] st'];
          [discriminate | reflexivity]. }
      split; [exact Hsave |].
      intros Ho Hch. rewrite Hsave.
      assert (Hm : mkdir_error E = None).
      { rewrite Hsave in Hok. revert Hok.
        unfold _save_credentials, mkdir_parent. run_monad.
        destruct (mkdir_error E); [discriminate | reflexivity]. }
      rewrite (save_writes E
                 (with_credentials (after_events st [EvFlow]) (Some c)) c
                 eq_refl (conj Hm (conj Ho Hch))).
      reflexivity.
Qed.

Lemma authentication_error_is_caught (m : string) (k : option exn) :
  isinstance (Exn AuthenticationError m k) AuthenticationError = true.
Proof. reflexivity. Qed.

(** C8: when the token call fails with a not-logged-in error, no credential
    file exists, no client secrets are configured and the ambient
    credentials are unavailable, [authenticate] raises a
    [CredentialsNotFoundError] (the error of lines 157-161 itself, not
    wrapped into another error). *)
Theorem authenticate_no_source_raises_not_found
  (force : bool) (st : St) (p : CompletedProcess) (e : exn) :
  subprocess_run E token_cmd = inr p ->
  returncode p <> 0 ->
  not_logged_in (error_msg_of p) = true ->
  cred_file (world st) = None ->
  no_client_secrets E (self st) = true ->
  auth_default E = inl e ->
  isinstance e DefaultCredentialsError = true ->
  fst (authenticate E force st)
  = inl (Exn CredentialsNotFoundError NO_CREDENTIAL_SOURCE None).
Proof.
  intros Hp Hrc Hmsg Hfile Hn Hd He.
  pose proof (classification_rewrapped E st p Hp (or_introl Hrc)) as Hget.
  unfold authenticate, oauth_path.
  unfold try_except at 1. unfold bind at 1. unfold try_except at 1.
  unfold bind at 1. rewrite Hget.
  rewrite authentication_error_is_caught. unfold ret at 1.
  assert (Hflow : _perform_oauth_flow E (after_runs st [token_cmd])
                  = (inl (Exn CredentialsNotFoundError NO_CREDENTIAL_SOURCE None),
                     after_events (after_runs st [token_cmd]) [EvDefault])).
  { rewrite (flow_ambient_failure (after_runs st [token_cmd]) e Hn Hd), He.
    reflexivity. }
  destruct force.
  - unfold bind at 1. rewrite Hflow. reflexivity.
  - unfold bind at 1. unfold bind at 1.
    rewrite (load_missing_file E (after_runs st [token_cmd]) Hfile).
    cbn [negb].
    assert (Hflow' : _perform_oauth_flow E
                       (after_events (after_runs st [token_cmd]) [EvExists])
                     = (inl (Exn CredentialsNotFoundError NO_CREDENTIAL_SOURCE None),
                        after_events
                          (after_events (after_runs st [token_cmd]) [EvExists])
                          [EvDefault])).
    { rewrite (flow_ambient_failure
                 (after_events (after_runs st [token_cmd]) [EvExists])
                 e Hn Hd), He.
      reflexivity. }
    rewrite Hflow'. reflexivity.
Qed.

End OAuthFlow.

(** *** The properties on concrete scenarios *)

Lemma extract_email_malformed_token_absent_witness :
  _extract_user_email (L := RefLib.lib) (Sample.holding Sample.TOKEN_ONE_SEGMENT)
  = (inr VNone, with_user_email (Sample.holding Sample.TOKEN_ONE_SEGMENT) VNone).
Proof.
  apply (extract_email_malformed_token_absent (L := RefLib.lib)
           (Sample.holding Sample.TOKEN_ONE_SEGMENT)
           (Scenario.user_credentials Sample.TOKEN_ONE_SEGMENT)
           Sample.TOKEN_ONE_SEGMENT); try reflexivity.
  apply too_few_segments. vm_compute. lia.
Defined.

Example extract_rejects_bad_base64 :
  no_email_claim (L := RefLib.lib) Sample.TOKEN_BAD_BASE64
  /\ fst (_extract_user_email (L := RefLib.lib)
            (Sample.holding Sample.TOKEN_BAD_BASE64)) = inr VNone.
Proof.
  split; [| reflexivity].
  eapply invalid_base64. reflexivity.
Qed.

Example extract_rejects_bad_json :
  no_email_claim (L := RefLib.lib) Sample.TOKEN_BAD_JSON
  /\ fst (_extract_user_email (L := RefLib.lib)
            (Sample.holding Sample.TOKEN_BAD_JSON)) = inr VNone.
Proof.
  split; [| reflexivity].
  eapply invalid_json; reflexivity.
Qed.

Example extract_rejects_list_payload :
  no_email_claim (L := RefLib.lib) Sample.TOKEN_LIST
  /\ fst (_extract_user_email (L := RefLib.lib)
            (Sample.holding Sample.TOKEN_LIST)) = inr VNone.
Proof.
  split; [| reflexivity].
  eapply not_an_object; [reflexivity .. | discriminate].
Qed.

Example extract_rejects_missing_email :
  no_email_claim (L := RefLib.lib) Sample.TOKEN_NO_EMAIL
  /\ fst (_extract_user_email (L := RefLib.lib)
            (Sample.holding Sample.TOKEN_NO_EMAIL)) = inr VNone.
Proof.
  split; [| reflexivity].
  eapply missing_email; reflexivity.
Qed.

(** C5 as stated fails: Python's decoder skips the characters that are
    not of the alphabet, so a second segment that is not valid base64url
    can still decode to an object with an email claim, which the token
    extractor then returns. *)
Lemma extract_stray_character_yields_email :
  ~ (forall (L : PyLib) (st : St) (c : Credentials) (t : string),
        _user_email (self st) = VNone ->
        _credentials (self st) = Some c ->
        id_token c = Some (VStr t) ->
        is_base64url (nth 1 (PyStr.split "." t) "") = false ->
        fst (_extract_user_email st) = inr VNone).
Proof.
  intros claim.
  specialize (claim RefLib.lib (Sample.holding Sample.TOKEN_STRAY)
                (Scenario.user_credentials Sample.TOKEN_STRAY)
                Sample.TOKEN_STRAY eq_refl eq_refl eq_refl eq_refl).
  assert (H : fst (_extract_user_email (L := RefLib.lib)
                     (Sample.holding Sample.TOKEN_STRAY))
              = inr (VStr "abc@example.org")) by reflexivity.
  rewrite H in claim. discriminate claim.
Qed.

Lemma extract_email_valid_token_witness :
  _extract_user_email (L := RefLib.lib) (Sample.holding Sample.TOKEN_LEN_2)
  = (inr (VStr "abcd@example.org"),
     with_user_email (Sample.holding Sample.TOKEN_LEN_2) (VStr "abcd@example.org"))
  /\ (String.length
        (pad_payload (nth 1 (PyStr.split "." Sample.TOKEN_LEN_2) "")) mod 4 = 0)%nat.
Proof.
  apply (extract_email_valid_token (L := RefLib.lib)
           (Sample.holding Sample.TOKEN_LEN_2)
           (Scenario.user_credentials Sample.TOKEN_LEN_2)
           Sample.TOKEN_LEN_2 (VStr "abcd@example.org"));
    try reflexivity.
  split; [vm_compute; lia |].
  do 3 eexists. repeat split; reflexivity.
Defined.

Example extract_email_length_0 :
  (String.length (nth 1 (PyStr.split "." Sample.TOKEN_LEN_0) "") mod 4 = 0)%nat
  /\ fst (_extract_user_email (L := RefLib.lib) (Sample.holding Sample.TOKEN_LEN_0))
     = inr (VStr "abc@example.org").
Proof. split; reflexivity. Qed.

Example extract_email_length_3 :
  (String.length (nth 1 (PyStr.split "." Sample.TOKEN_LEN_3) "") mod 4 = 3)%nat
  /\ fst (_extract_user_email (L := RefLib.lib) (Sample.holding Sample.TOKEN_LEN_3))
     = inr (VStr "ab@example.org").
Proof. split; reflexivity. Qed.



Example load_list_raises :
  fst (_load_stored_credentials (L := RefLib.lib) Scenario.bare (Sample.on_disk "[]"))
  = inl (Exn AttributeError "'list' object has no attribute 'get'" None).
Proof. reflexivity. Qed.

Lemma save_restricts_permissions_witness :
  exists f,
    fst (_save_credentials (L := RefLib.lib) Scenario.bare
           (Sample.holding Sample.TOKEN_LEN_2)) = inr tt
    /\ cred_file (world (snd (_save_credentials (L := RefLib.lib) Scenario.bare
                                (Sample.holding Sample.TOKEN_LEN_2))))
       = Some f
    /\ mode f = MODE_0600
    /\ Z.land (mode f) GROUP_OTHER_BITS = 0
    /\ trace (world (snd (_save_credentials (L := RefLib.lib) Scenario.bare
                            (Sample.holding Sample.TOKEN_LEN_2))))
       = [EvMkdir; EvWrite (content f); EvChmod MODE_0600].
Proof.
  apply (save_restricts_permissions (L := RefLib.lib) Scenario.bare
           (Sample.holding Sample.TOKEN_LEN_2)
           (Scenario.user_credentials Sample.TOKEN_LEN_2) eq_refl).
  repeat split.
Defined.

Lemma oauth_flow_persistence_witness :
  let E := Scenario.with_flow (Scenario.user_credentials Sample.TOKEN_LEN_2)
                              Scenario.bare in
  let st := Scenario.fresh (Some "client_secrets.json") None in
  exists c,
    run_flow E = inr c
    /\ _perform_oauth_flow (L := RefLib.lib) E st
       = _save_credentials (L := RefLib.lib) E
           (with_credentials (after_events st [EvFlow]) (Some c))
    /\ (open_write_error E = None -> chmod_error E = None ->
        snd (_perform_oauth_flow (L := RefLib.lib) E st)
        = saved (L := RefLib.lib)
            (with_credentials (after_events st [EvFlow]) (Some c)) c).
Proof.
  intros E st.
  apply (oauth_flow_persistence (L := RefLib.lib) E st). reflexivity.
Defined.

(** C3 as stated fails: a run through the ambient branch returns normally
    and nothing is in the credential file. *)
Lemma oauth_flow_ambient_not_persisted :
  ~ (forall (L : PyLib) (E : Env) (st : St),
        writable E ->
        fst (_perform_oauth_flow E st) = inr tt ->
        exists c email,
          _credentials (self (snd (_perform_oauth_flow E st))) = Some c
          /\ cred_file (world (snd (_perform_oauth_flow E st)))
             = Some (saved_file c email)).
Proof.
  intros claim.
  destruct (claim RefLib.lib
              (Scenario.with_default
                 (Scenario.user_credentials Sample.TOKEN_LEN_2) Scenario.bare)
              (Scenario.fresh None None))
    as (c & email & _ & Hfile).
  - repeat split.
  - reflexivity.
  - change (cred_file _) with (@None File) in Hfile. discriminate Hfile.
Qed.

Lemma authenticate_no_source_raises_not_found_witness :
  fst (authenticate (L := RefLib.lib)
         (Scenario.with_gcloud
            (Scenario.completed 1 "" Scenario.NOT_LOGGED_IN_STDERR)
            (Scenario.completed 0 "" "") Scenario.bare)
         false (Scenario.fresh None None))
  = inl (Exn CredentialsNotFoundError NO_CREDENTIAL_SOURCE None).
Proof.
  eapply (authenticate_no_source_raises_not_found (L := RefLib.lib)
            (Scenario.with_gcloud
               (Scenario.completed 1 "" Scenario.NOT_LOGGED_IN_STDERR)
               (Scenario.completed 0 "" "") Scenario.bare)
            false (Scenario.fresh None None)
            {| returncode := 1; stdout := "";
               stderr := Scenario.NOT_LOGGED_IN_STDERR |});
    try reflexivity.
  cbn. lia.
Defined.

(* ===================================================================== *)
(** ** The reference library keeps the laws of [json] *)
(* ===================================================================== *)

Module RefLibFacts.

Import RefLib.

(** *** Characters *)

Lemma string_app_assoc (a b c : string) : ((a ++ b) ++ c = a ++ (b ++ c))%string.
Proof. induction a; cbn; congruence. Qed.

Lemma string_app_nil (a : string) : (a ++ EmptyString)%string = a.
Proof. induction a; cbn; congruence. Qed.

(** Reading back one written character. *)
Lemma lex_escape_char (c : ascii) (r : string) :
  lex_string (escape_char c ++ r) = cons_char c (lex_string r).
Proof.
  destruct c as [[] [] [] [] [] [] [] []]; reflexivity.
Qed.

Lemma lex_escape (s rest : string) :
  lex_string (escape s ++ String dquote rest) = Some (s, rest).
Proof.
  induction s as [| c s IH]; [reflexivity |].
  cbn [escape]. rewrite string_app_assoc, lex_escape_char, IH. reflexivity.
Qed.

Lemma lex_print_string (s rest : string) :
  exists body, (print_string s ++ rest)%string = String dquote body
               /\ lex_string body = Some (s, rest).
Proof.
  exists (escape s ++ String dquote rest)%string. split; [| apply lex_escape].
  unfold print_string. cbn. rewrite string_app_assoc. reflexivity.
Qed.

(** *** Numbers *)

Lemma lex_print_uint (u : Decimal.uint) (rest : string) :
  number_ends rest = true ->
  lex_uint (print_uint u ++ rest) = (u, rest).
Proof.
  intros Hend.
  induction u; cbn [print_uint append];
    try (cbn [lex_uint]; rewrite IHu; reflexivity).
  destruct rest as [| c r]; [reflexivity |].
  cbn [lex_uint]. unfold number_ends in Hend.
  destruct (digit_of c); [discriminate | reflexivity].
Qed.

Lemma nzhead_not_zero (u v : Decimal.uint) : Decimal.nzhead u <> Decimal.D0 v.
Proof. induction u; cbn; try discriminate. exact IHu. Qed.

Lemma normal_no_leading_zero (u : Decimal.uint) :
  Decimal.unorm u = u -> u <> Decimal.Nil /\ leading_zero u = false.
Proof.
  intros H. destruct u; try (split; [discriminate | reflexivity]).
  split; [discriminate |].
  destruct u; try reflexivity; exfalso;
      unfold Decimal.unorm in H; cbn [Decimal.nzhead] in H;
      try discriminate H;
      match type of H with
      | match ?h with _ => _ end = _ =>
          destruct h eqn:Hh; try discriminate H;
          exact (nzhead_not_zero _ _ Hh)
      end.
Qed.

Lemma to_uint_normal (n : N) :
  N.to_uint n <> Decimal.Nil /\ leading_zero (N.to_uint n) = false.
Proof.
  apply normal_no_leading_zero.
  rewrite <- (DecimalN.Unsigned.of_to n) at 2.
  symmetry. apply DecimalN.Unsigned.to_of.
Qed.

Lemma lex_magnitude_print (n : N) (rest : string) :
  number_ends rest = true ->
  lex_magnitude (print_uint (N.to_uint n) ++ rest) = Some (Z.of_N n, rest).
Proof.
  intros Hend. unfold lex_magnitude. rewrite (lex_print_uint _ _ Hend).
  destruct (to_uint_normal n) as [Hnil Hlz]. rewrite Hlz.
  assert (Hf : fraction_follows rest = false).
  { unfold number_ends in Hend. destruct rest as [| c r]; [reflexivity |].
    destruct (digit_of c); [discriminate |].
    apply negb_true_iff in Hend. exact Hend. }
  rewrite Hf. cbn [orb].
  rewrite DecimalN.Unsigned.of_to.
  destruct (N.to_uint n); try reflexivity. contradiction.
Qed.

(** The first character of a written number that is not negative. *)
Lemma print_uint_head (u : Decimal.uint) (rest : string) :
  u <> Decimal.Nil ->
  exists c r, (print_uint u ++ rest)%string = String c r
              /\ (exists d, digit_of c = Some d).
Proof.
  intros Hnil. destruct u; try contradiction;
    cbn [print_uint append]; do 2 eexists; (split; [reflexivity |]);
    eexists; reflexivity.
Qed.

Lemma digit_dispatch (c : ascii) (r : string) (fuel : nat) :
  (exists d, digit_of c = Some d) ->
  parse_value (S fuel) (String c r) = parse_number (String c r)
  /\ Ascii.eqb c "-" = false /\ value_head c = true.
Proof.
  intros [d Hd].
  destruct c as [[] [] [] [] [] [] [] []]; try discriminate Hd;
    repeat split; reflexivity.
Qed.

Lemma parse_print_int (n : Z) (rest : string) (fuel : nat) :
  number_ends rest = true ->
  parse_value (S fuel) (print_int n ++ rest) = Some (VInt n, rest).
Proof.
  intros Hend. unfold print_int. destruct (n <? 0) eqn:Hneg.
  - cbn [append]. change (parse_value (S fuel) (String "-" ?s))
      with (parse_number (String "-" s)).
    cbn [parse_number]. change (Ascii.eqb "-" "-") with true. cbn iota.
    rewrite (lex_magnitude_print _ _ Hend).
    apply Z.ltb_lt in Hneg. rewrite Z2N.id by lia.
    rewrite Z.opp_involutive. reflexivity.
  - apply Z.ltb_ge in Hneg.
    destruct (to_uint_normal (Z.to_N n)) as [Hnil _].
    destruct (print_uint_head _ rest Hnil) as (c & r & Heq & Hd).
    pose proof (lex_magnitude_print (Z.to_N n) rest Hend) as Hm.
    rewrite Heq in *.
    destruct (digit_dispatch c r fuel Hd) as (Hp & Hminus & _).
    rewrite Hp. unfold parse_number. rewrite Hminus, Hm.
    rewrite Z2N.id by lia. reflexivity.
Qed.

Lemma print_int_head (n : Z) (rest : string) :
  starts_value (print_int n ++ rest).
Proof.
  unfold print_int. destruct (n <? 0).
  - do 2 eexists. split; reflexivity.
  - destruct (to_uint_normal (Z.to_N n)) as [Hnil _].
    destruct (print_uint_head _ rest Hnil) as (c & r & Heq & Hd).
    exists c, r. split; [exact Heq |].
    apply (digit_dispatch c r 0 Hd).
Qed.

(** *** White space and the first character of a written value *)

Lemma skip_ws_spaces (n : nat) (s : string) :
  skip_ws (PyStr.repeat " " n ++ s) = skip_ws s.
Proof. induction n; [reflexivity | exact IHn]. Qed.

Lemma skip_ws_newline_indent (lvl : nat) (s : string) :
  skip_ws (newline_indent lvl ++ s) = skip_ws s.
Proof. unfold newline_indent. cbn [append]. apply skip_ws_spaces. Qed.

Lemma skip_ws_value (s : string) : starts_value s -> skip_ws s = s.
Proof.
  intros (c & r & -> & Hc). unfold value_head in Hc.
  cbn [skip_ws]. destruct (is_ws c); [discriminate | reflexivity].
Qed.

Lemma number_ends_newline_indent (lvl : nat) (s : string) :
  number_ends (newline_indent lvl ++ s) = true.
Proof. reflexivity. Qed.

Lemma dump_head (lvl : nat) (v : value) (rest : string) :
  starts_value (dump lvl v ++ rest).
Proof.
  destruct v as [| [] | n | s | [| x l] | [| kv d]];
    try (do 2 eexists; split; reflexivity).
  apply print_int_head.
Qed.

Lemma join_cons {A} (f : A -> string) (sep : string) (x y : A) (l : list A) :
  join f sep (x :: y :: l) = (f x ++ sep ++ join f sep (y :: l))%string.
Proof. reflexivity. Qed.

Lemma join_one {A} (f : A -> string) (sep : string) (x : A) :
  join f sep [x] = f x.
Proof. cbn. apply string_app_nil. Qed.

Lemma join_items_head (lvl : nat) (sep : string) (x : value) (l : list value)
  (rest : string) :
  starts_value (join (dump lvl) sep (x :: l) ++ rest).
Proof.
  cbn [join]. rewrite string_app_assoc. apply dump_head.
Qed.

(** *** One step of the reader *)

Lemma parse_value_string (k : nat) (body : string) :
  parse_value (S k) (String dquote body)
  = match lex_string body with
    | Some (str, r') => Some (VStr str, r')
    | None => None
    end.
Proof. reflexivity. Qed.

Lemma parse_value_open_list (k : nat) (s : string) :
  parse_value (S k) (String "[" s)
  = match skip_ws s with
    | EmptyString => None
    | String c2 r2 =>
        if Ascii.eqb c2 "]" then Some (VList [], r2)
        else parse_elements k [] (skip_ws s)
    end.
Proof. reflexivity. Qed.

Lemma parse_value_open_dict (k : nat) (s : string) :
  parse_value (S k) (String "{" s)
  = match skip_ws s with
    | EmptyString => None
    | String c2 r2 =>
        if Ascii.eqb c2 "}" then Some (VDict [], r2)
        else parse_members k [] (skip_ws s)
    end.
Proof. reflexivity. Qed.

Lemma parse_elements_step (k : nat) (acc : list value) (s : string) :
  parse_elements (S k) acc s
  = match parse_value k s with
    | None => None
    | Some (v, r) =>
        match skip_ws r with
        | EmptyString => None
        | String c r2 =>
            if Ascii.eqb c "]" then Some (VList (acc ++ [v]), r2)
            else if Ascii.eqb c ","
            then parse_elements k (acc ++ [v]) (skip_ws r2)
            else None
        end
    end.
Proof. reflexivity. Qed.

Lemma parse_members_step (k : nat) (acc : list (string * value)) (body : string) :
  parse_members (S k) acc (String dquote body)
  = match lex_string body with
    | None => None
    | Some (key, r1) =>
        match skip_ws r1 with
        | EmptyString => None
        | String c1 r2 =>
            if Ascii.eqb c1 ":" then
              match parse_value k (skip_ws r2) with
              | None => None
              | Some (v, r3) =>
                  match skip_ws r3 with
                  | EmptyString => None
                  | String c3 r4 =>
                      if Ascii.eqb c3 "}"
                      then Some (VDict (dict_set key v acc), r4)
                      else if Ascii.eqb c3 ","
                      then parse_members k (dict_set key v acc) (skip_ws r4)
                      else None
                  end
              end
            else None
        end
    end.
Proof. reflexivity. Qed.

(** *** Dicts *)

Lemma distinct_keys_app (a b : list string) :
  distinct_keys (a ++ b) = true ->
  distinct_keys a = true /\ distinct_keys b = true
  /\ forall k, In k b -> existsb (String.eqb k) a = false.
Proof.
  induction a as [| x a IH]; cbn [app distinct_keys].
  - intros H. split; [reflexivity |]. split; [exact H |].
    intros; reflexivity.
  - intros H. apply andb_true_iff in H as [Hx Hrest].
    destruct (IH Hrest) as (Ha & Hb & Hin).
    rewrite existsb_app, negb_orb in Hx. apply andb_true_iff in Hx as [Hxa Hxb].
    split; [cbn; rewrite Hxa, Ha; reflexivity |]. split; [exact Hb |].
    intros k Hk. cbn [existsb]. rewrite (Hin k Hk), orb_false_r.
    apply negb_true_iff in Hxb.
    destruct (String.eqb k x) eqn:Hkx; [| reflexivity].
    apply String.eqb_eq in Hkx. subst k.
    assert (existsb (String.eqb x) b = true) as Habs.
    { apply existsb_exists. exists x. split; [exact Hk | apply String.eqb_refl]. }
    congruence.
Qed.

Lemma dict_set_fresh (k : string) (v : value) (d : list (string * value)) :
  existsb (String.eqb k) (map fst d) = false ->
  dict_set k v d = (d ++ [(k, v)])%list.
Proof.
  induction d as [| [k' v'] d IH]; [reflexivity |].
  cbn [map fst existsb dict_set app]. intros H.
  apply orb_false_iff in H as [Hk Hd]. rewrite Hk, (IH Hd). reflexivity.
Qed.

Lemma dict_set_appends (key : string) (v : value)
  (acc items : list (string * value)) :
  distinct_keys (map fst (acc ++ (key, v) :: items)) = true ->
  dict_set key v acc = (acc ++ [(key, v)])%list.
Proof.
  intros H. rewrite map_app in H.
  destruct (distinct_keys_app _ _ H) as (_ & _ & Hin).
  apply dict_set_fresh. apply Hin. left. reflexivity.
Qed.

(** *** What was written is read back *)

Lemma size_positive (v : value) : (1 <= size v)%nat.
Proof. destruct v; cbn; lia. Qed.

Lemma dump_list_text (lvl : nat) (x : value) (l : list value) (rest : string) :
  (dump lvl (VList (x :: l)) ++ rest)%string
  = String "[" (newline_indent (S lvl)
                ++ (join (dump (S lvl)) ("," ++ newline_indent (S lvl)) (x :: l)
                    ++ newline_indent lvl ++ "]" ++ rest))%string.
Proof.
  change (dump lvl (VList (x :: l)))
    with (String "[" (newline_indent (S lvl)
                      ++ join (dump (S lvl)) ("," ++ newline_indent (S lvl)) (x :: l)
                      ++ newline_indent lvl ++ "]"))%string.
  cbn [append]. f_equal.
  rewrite !string_app_assoc. reflexivity.
Qed.

Lemma dump_dict_text (lvl : nat) (kv : string * value)
  (d : list (string * value)) (rest : string) :
  (dump lvl (VDict (kv :: d)) ++ rest)%string
  = String "{" (newline_indent (S lvl)
                ++ (join (fun kv => print_string (fst kv) ++ ": "
                                    ++ dump (S lvl) (snd kv))
                         ("," ++ newline_indent (S lvl)) (kv :: d)
                    ++ newline_indent lvl ++ "}" ++ rest))%string.
Proof.
  change (dump lvl (VDict (kv :: d)))
    with (String "{" (newline_indent (S lvl)
                      ++ join (fun kv => print_string (fst kv) ++ ": "
                                         ++ dump (S lvl) (snd kv))
                              ("," ++ newline_indent (S lvl)) (kv :: d)
                      ++ newline_indent lvl ++ "}"))%string.
  cbn [append]. f_equal.
  rewrite !string_app_assoc. reflexivity.
Qed.

Lemma join_members_head (lvl : nat) (sep : string) (kv : string * value)
  (d : list (string * value)) (rest : string) :
  exists body,
    (join (fun kv => print_string (fst kv) ++ ": " ++ dump lvl (snd kv))
          sep (kv :: d) ++ rest)%string
    = String dquote body.
Proof.
  cbn [join]. unfold print_string. cbn [append]. eexists. reflexivity.
Qed.


Lemma parse_elements_last (k : nat) (acc : list value) (s : string)
  (v : value) (after rest : string) :
  parse_value k s = Some (v, after) ->
  skip_ws after = String "]" rest ->
  parse_elements (S k) acc s = Some (VList (acc ++ [v]), rest).
Proof.
  intros Hv Hws. rewrite parse_elements_step, Hv, Hws. reflexivity.
Qed.

Lemma parse_elements_more (k : nat) (acc : list value) (s : string)
  (v : value) (more : string) :
  parse_value k s = Some (v, String "," more) ->
  parse_elements (S k) acc s = parse_elements k (acc ++ [v]) (skip_ws more).
Proof.
  intros Hv. rewrite parse_elements_step, Hv. reflexivity.
Qed.

Lemma parse_members_last (k : nat) (acc : list (string * value))
  (body key item : string) (v : value) (after rest : string) :
  lex_string body = Some (key, String ":" (String " " item)) ->
  starts_value item ->
  parse_value k item = Some (v, after) ->
  skip_ws after = String "}" rest ->
  parse_members (S k) acc (String dquote body)
  = Some (VDict (dict_set key v acc), rest).
Proof.
  intros Hlex Hitem Hv Hws. rewrite parse_members_step, Hlex.
  change (skip_ws (String ":" (String " " item)))
    with (String ":" (String " " item)).
  change (Ascii.eqb ":" ":") with true. cbn iota.
  change (skip_ws (String " " item)) with (skip_ws item).
  rewrite (skip_ws_value item Hitem), Hv, Hws. reflexivity.
Qed.

Lemma parse_members_more (k : nat) (acc : list (string * value))
  (body key item : string) (v : value) (more : string) :
  lex_string body = Some (key, String ":" (String " " item)) ->
  starts_value item ->
  parse_value k item = Some (v, String "," more) ->
  parse_members (S k) acc (String dquote body)
  = parse_members k (dict_set key v acc) (skip_ws more).
Proof.
  intros Hlex Hitem Hv. rewrite parse_members_step, Hlex.
  change (skip_ws (String ":" (String " " item)))
    with (String ":" (String " " item)).
  change (Ascii.eqb ":" ":") with true. cbn iota.
  change (skip_ws (String " " item)) with (skip_ws item).
  rewrite (skip_ws_value item Hitem), Hv. reflexivity.
Qed.

(** The text of a dict item: its key, a colon, a space, its value. *)
Lemma member_text (lvl : nat) (key : string) (v : value) (after : string) :
  exists body,
    ((print_string key ++ ": " ++ dump lvl v) ++ after)%string
    = String dquote body
    /\ lex_string body
       = Some (key, String ":" (String " " (dump lvl v ++ after)%string)).
Proof.
  destruct (lex_print_string key (": " ++ dump lvl v ++ after)%string)
    as (body & Heq & Hlex).
  exists body. split; [| exact Hlex].
  rewrite <- Heq, !string_app_assoc. reflexivity.
Qed.

Lemma reads_back_all (fuel : nat) : reads_back fuel.
Proof.
  induction fuel as [| k (IHv & IHe & IHm)].
  - split; [| split].
    + intros v lvl rest Hs. pose proof (size_positive v). lia.
    + intros [| x l] acc lvl rest Hne Hs; [contradiction | cbn in Hs; lia].
    + intros [| x l] acc lvl rest Hne Hs; [contradiction | cbn in Hs; lia].
  - split; [| split].
    + intros v lvl rest Hs Hwf Hend.
      destruct v as [| b | n | s | items | items].
      * reflexivity.
      * destruct b; reflexivity.
      * apply parse_print_int; exact Hend.
      * cbn [dump]. destruct (lex_print_string s rest) as (body & -> & Hlex).
        rewrite parse_value_string, Hlex. reflexivity.
      * destruct items as [| x l]; [reflexivity |].
        rewrite dump_list_text, parse_value_open_list, skip_ws_newline_indent.
        rewrite skip_ws_value by apply join_items_head.
        destruct (join_items_head (S lvl) ("," ++ newline_indent (S lvl)) x l
                    (newline_indent lvl ++ "]" ++ rest)) as (c & r & Heq & Hc).
        rewrite Heq. unfold value_head in Hc.
        destruct (Ascii.eqb c "]");
          [rewrite !andb_false_r in Hc; discriminate Hc |].
        rewrite <- Heq.
        apply (IHe (x :: l) [] lvl rest); [discriminate | | exact Hwf].
        change (size (VList (x :: l))) with (S (size_items (x :: l))) in Hs. lia.
      * destruct items as [| [key x] d]; [reflexivity |].
        rewrite dump_dict_text, parse_value_open_dict, skip_ws_newline_indent.
        destruct (join_members_head (S lvl) ("," ++ newline_indent (S lvl))
                    (key, x) d (newline_indent lvl ++ "}" ++ rest))
          as (body & Heq).
        rewrite Heq.
        change (skip_ws (String dquote body)) with (String dquote body).
        change (Ascii.eqb dquote "}") with false. cbn iota.
        rewrite <- Heq.
        cbn [wf_value] in Hwf. apply andb_true_iff in Hwf as [Hkeys Hvals].
        apply (IHm ((key, x) :: d) [] lvl rest);
          [discriminate | | exact Hvals | exact Hkeys].
        change (size (VDict ((key, x) :: d)))
          with (S (size_members ((key, x) :: d))) in Hs. lia.
    + intros items acc lvl rest Hne Hs Hwf.
      destruct items as [| x l]; [contradiction |].
      cbn [forallb] in Hwf. apply andb_true_iff in Hwf as [Hx Hl].
      change (size_items (x :: l)) with (S (size x + size_items l)) in Hs.
      destruct l as [| y l'].
      * rewrite join_one.
        apply (parse_elements_last k acc _ x
                 (newline_indent lvl ++ "]" ++ rest)%string rest).
        -- apply IHv; [lia | exact Hx | reflexivity].
        -- rewrite skip_ws_newline_indent. reflexivity.
      * rewrite join_cons, !string_app_assoc. cbn [append].
        rewrite (parse_elements_more k acc _ x
                   (newline_indent (S lvl)
                    ++ join (dump (S lvl)) ("," ++ newline_indent (S lvl)) (y :: l')
                    ++ newline_indent lvl ++ String "]" rest)%string).
        -- rewrite skip_ws_newline_indent.
           rewrite skip_ws_value by apply join_items_head.
           change (String "]" rest) with ("]" ++ rest)%string.
           rewrite (IHe (y :: l') (acc ++ [x])%list lvl rest);
             [| discriminate | lia | exact Hl].
           rewrite <- app_assoc. reflexivity.
        -- apply IHv; [lia | exact Hx | reflexivity].
    + intros items acc lvl rest Hne Hs Hwf Hkeys.
      destruct items as [| [key x] d]; [contradiction |].
      cbn [forallb snd] in Hwf. apply andb_true_iff in Hwf as [Hx Hd].
      change (size_members ((key, x) :: d))
        with (S (size x + size_members d)) in Hs.
      pose proof (dict_set_appends key x acc d Hkeys) as Hset.
      destruct d as [| kv d'].
      * rewrite join_one. cbn [fst snd].
        destruct (member_text (S lvl) key x
                    (newline_indent lvl ++ "}" ++ rest)%string)
          as (body & -> & Hlex).
        rewrite (parse_members_last k acc body key _ x
                   (newline_indent lvl ++ "}" ++ rest)%string rest Hlex).
        -- rewrite Hset. reflexivity.
        -- apply dump_head.
        -- apply IHv; [lia | exact Hx | reflexivity].
        -- rewrite skip_ws_newline_indent. reflexivity.
      * rewrite join_cons. cbn [fst snd].
        set (sep := ("," ++ newline_indent (S lvl))%string).
        set (J := join (fun kv0 => print_string (fst kv0) ++ ": "
                                   ++ dump (S lvl) (snd kv0))%string
                       sep (kv :: d')).
        set (tail := (newline_indent lvl ++ "}" ++ rest)%string).
        destruct (member_text (S lvl) key x (sep ++ J ++ tail)%string)
          as (body & Heq & Hlex).
        assert (Htext : (((print_string key ++ ": " ++ dump (S lvl) x)
                          ++ sep ++ J) ++ tail)%string = String dquote body).
        { rewrite <- Heq, !string_app_assoc. reflexivity. }
        rewrite Htext.
        rewrite (parse_members_more k acc body key
                   (dump (S lvl) x ++ sep ++ J ++ tail)%string x
                   (newline_indent (S lvl) ++ J ++ tail)%string Hlex).
        -- rewrite skip_ws_newline_indent.
           destruct (join_members_head (S lvl) sep kv d' tail) as (b2 & Hb2).
           fold J in Hb2. rewrite Hb2.
           change (skip_ws (String dquote b2)) with (String dquote b2).
           rewrite <- Hb2, Hset. unfold J, sep, tail.
           rewrite (IHm (kv :: d') (acc ++ [(key, x)])%list lvl rest);
             [| discriminate | lia | exact Hd |].
           ++ rewrite <- app_assoc. reflexivity.
           ++ rewrite <- app_assoc. exact Hkeys.
        -- apply dump_head.
        -- apply (IHv x (S lvl) (sep ++ J ++ tail)%string);
             [lia | exact Hx | reflexivity].
Qed.

(** *** The fuel of [json_loads] is enough *)

Lemma print_string_length (s : string) : (1 <= String.length (print_string s))%nat.
Proof. unfold print_string. cbn. lia. Qed.

Lemma newline_indent_length (lvl : nat) :
  (1 <= String.length (newline_indent lvl))%nat.
Proof. unfold newline_indent. cbn. lia. Qed.

Lemma starts_value_length (s : string) :
  starts_value s -> (1 <= String.length s)%nat.
Proof. intros (c & r & -> & _). cbn. lia. Qed.

Lemma join_length {A} (f : A -> string) (w : A -> nat) (sep : string)
  (items : list A) :
  (forall x, In x items -> (w x <= String.length (f x))%nat) ->
  (1 <= String.length sep)%nat ->
  items <> [] ->
  (fold_right (fun x n => S (w x + n)) 0 items
   <= String.length (join f sep items) + 1)%nat.
Proof.
  intros Hf Hsep. induction items as [| x l IH]; [contradiction |].
  intros _. cbn [fold_right join]. rewrite append_length.
  pose proof (Hf x (or_introl eq_refl)) as Hx.
  destruct l as [| y l'].
  - cbn. lia.
  - rewrite append_length.
    assert (Hl : (fold_right (fun x n => S (w x + n)) 0 (y :: l')
                  <= String.length (join f sep (y :: l')) + 1)%nat).
    { apply IH; [| discriminate]. intros z Hz. apply Hf. right. exact Hz. }
    lia.
Qed.

Lemma size_le_length (n : nat) :
  forall v lvl, (size v <= n)%nat -> (size v <= String.length (dump lvl v))%nat.
Proof.
  induction n as [| n IH]; intros v lvl Hs.
  - pose proof (size_positive v). lia.
  - destruct v as [| b | z | s | items | items].
    + cbn. lia.
    + destruct b; cbn; lia.
    + rewrite <- (string_app_nil (dump lvl (VInt z))).
      apply starts_value_length, dump_head.
    + apply print_string_length.
    + destruct items as [| x l]; [cbn; lia |].
      change (size (VList (x :: l))) with (S (size_items (x :: l))) in *.
      rewrite <- (string_app_nil (dump lvl (VList (x :: l)))), dump_list_text.
      cbn [String.length]. rewrite !append_length.
      pose proof (newline_indent_length (S lvl)).
      assert (size_items (x :: l)
              <= String.length (join (dump (S lvl))
                                     ("," ++ newline_indent (S lvl)) (x :: l)) + 1)%nat.
      { apply (join_length (dump (S lvl)) size); [| cbn; lia | discriminate].
        intros y Hy. apply IH.
        assert (size y <= size_items (x :: l))%nat; [| lia].
        clear - Hy. induction (x :: l) as [| a t IHt]; [contradiction |].
        cbn [size_items fold_right]. destruct Hy as [-> | Hy]; [lia |].
        specialize (IHt Hy). unfold size_items in IHt. lia. }
      lia.
    + destruct items as [| kv d]; [cbn; lia |].
      change (size (VDict (kv :: d))) with (S (size_members (kv :: d))) in *.
      rewrite <- (string_app_nil (dump lvl (VDict (kv :: d)))), dump_dict_text.
      cbn [String.length]. rewrite !append_length.
      pose proof (newline_indent_length (S lvl)).
      assert (size_members (kv :: d)
              <= String.length
                   (join (fun kv => print_string (fst kv) ++ ": "
                                    ++ dump (S lvl) (snd kv))%string
                         ("," ++ newline_indent (S lvl)) (kv :: d)) + 1)%nat.
      { apply (join_length _ (fun kv => size (snd kv))); [| cbn; lia | discriminate].
        intros y Hy. rewrite !append_length.
        assert (size (snd y) <= String.length (dump (S lvl) (snd y)))%nat; [| lia].
        apply IH.
        assert (size (snd y) <= size_members (kv :: d))%nat; [| lia].
        clear - Hy. induction (kv :: d) as [| a t IHt]; [contradiction |].
        cbn [size_members fold_right]. destruct Hy as [-> | Hy]; [lia |].
        specialize (IHt Hy). unfold size_members in IHt. lia. }
      lia.
Qed.

Lemma json_loads_dumps (v : value) :
  wf_value v = true -> json_loads (json_dumps v) = inr v.
Proof.
  intros Hwf. unfold json_loads, json_dumps.
  pose proof (dump_head 0 v EmptyString) as Hhead.
  rewrite string_app_nil in Hhead. rewrite (skip_ws_value _ Hhead).
  destruct (reads_back_all (2 * String.length (dump 0 v) + 2)) as (Hv & _ & _).
  specialize (Hv v 0%nat EmptyString).
  rewrite string_app_nil in Hv. rewrite Hv; [reflexivity | | exact Hwf | reflexivity].
  pose proof (size_le_length (size v) v 0 (Nat.le_refl _)). lia.
Qed.

(** *** What is read is a value *)

Lemma forallb_snoc {A} (p : A -> bool) (l : list A) (x : A) :
  forallb p l = true -> p x = true -> forallb p (l ++ [x]) = true.
Proof.
  intros Hl Hx. rewrite forallb_app, Hl. cbn. rewrite Hx. reflexivity.
Qed.

Lemma distinct_keys_snoc (l : list string) (k : string) :
  distinct_keys l = true ->
  existsb (String.eqb k) l = false ->
  distinct_keys (l ++ [k]) = true.
Proof.
  induction l as [| x l IH]; [reflexivity |].
  cbn [distinct_keys existsb app]. intros Hd Hk.
  apply andb_true_iff in Hd as [Hx Hl].
  apply orb_false_iff in Hk as [Hkx Hkl].
  rewrite (IH Hl Hkl), existsb_app, andb_true_r, negb_orb.
  apply negb_true_iff in Hx. rewrite Hx. cbn.
  rewrite String.eqb_sym, Hkx. reflexivity.
Qed.

Lemma dict_set_keys (k : string) (v : value) (d : list (string * value)) :
  map fst (dict_set k v d)
  = if existsb (String.eqb k) (map fst d) then map fst d
    else (map fst d ++ [k])%list.
Proof.
  induction d as [| [k' v'] d IH]; [reflexivity |].
  cbn [dict_set map fst existsb].
  destruct (String.eqb k k') eqn:Hk; cbn [orb map fst].
  - apply String.eqb_eq in Hk. subst k'. reflexivity.
  - rewrite IH. destruct (existsb (String.eqb k) (map fst d)); reflexivity.
Qed.

Lemma dict_set_values (k : string) (v : value) (d : list (string * value)) :
  forallb (fun kv => wf_value (snd kv)) d = true ->
  wf_value v = true ->
  forallb (fun kv => wf_value (snd kv)) (dict_set k v d) = true.
Proof.
  intros Hd Hv. induction d as [| [k' v'] d IH]; [cbn; rewrite Hv; reflexivity |].
  cbn [forallb snd] in Hd. apply andb_true_iff in Hd as [Hv' Hd].
  cbn [dict_set]. destruct (String.eqb k k'); cbn [forallb snd].
  - rewrite Hv, Hd. reflexivity.
  - rewrite Hv', (IH Hd). reflexivity.
Qed.

Lemma dict_set_wf (k : string) (v : value) (d : list (string * value)) :
  wf_value (VDict d) = true -> wf_value v = true ->
  wf_value (VDict (dict_set k v d)) = true.
Proof.
  cbn [wf_value]. intros Hd Hv. apply andb_true_iff in Hd as [Hkeys Hvals].
  rewrite (dict_set_values k v d Hvals Hv), andb_true_r, dict_set_keys.
  destruct (existsb (String.eqb k) (map fst d)) eqn:Hin; [exact Hkeys |].
  apply distinct_keys_snoc; assumption.
Qed.

Lemma parse_number_value (s : string) (v : value) (r : string) :
  parse_number s = Some (v, r) -> wf_value v = true.
Proof.
  unfold parse_number. destruct s as [| c s']; [discriminate |].
  destruct (Ascii.eqb c "-");
    match goal with
    | |- match ?m with _ => _ end = _ -> _ =>
        destruct m as [[n r'] |]; [| discriminate]
    end;
    intros H; injection H as <- _; reflexivity.
Qed.

(** The cases of a value by its first character. *)
Lemma parse_value_cases (k : nat) (s : string) (v : value) (r : string) :
  parse_value (S k) s = Some (v, r) ->
  (exists str, v = VStr str) \/ v = VList [] \/ v = VDict [] \/ v = VNone
  \/ (exists b, v = VBool b) \/ parse_number s = Some (v, r)
  \/ (exists s', parse_elements k [] s' = Some (v, r))
  \/ (exists s', parse_members k [] s' = Some (v, r)).
Proof.
  destruct s as [| c s']; [discriminate |].
  cbn [parse_value].
  destruct (Ascii.eqb c dquote).
  { destruct (lex_string s') as [[str r'] |]; [| discriminate].
    intros H. injection H as <- _. left. eexists. reflexivity. }
  destruct (Ascii.eqb c "[").
  { destruct (skip_ws s') as [| c2 r2] eqn:Hws; [discriminate |].
    destruct (Ascii.eqb c2 "]").
    - intros H. injection H as <- _. tauto.
    - intros H. do 6 right. left. eexists. exact H. }
  destruct (Ascii.eqb c "{").
  { destruct (skip_ws s') as [| c2 r2] eqn:Hws; [discriminate |].
    destruct (Ascii.eqb c2 "}").
    - intros H. injection H as <- _. tauto.
    - intros H. do 7 right. eexists. exact H. }
  destruct (PyStr.startswith "null" (String c s')).
  { intros H. injection H as <- _. tauto. }
  destruct (PyStr.startswith "true" (String c s')).
  { intros H. injection H as <- _. do 4 right. left. eexists. reflexivity. }
  destruct (PyStr.startswith "false" (String c s')).
  { intros H. injection H as <- _. do 4 right. left. eexists. reflexivity. }
  intros H. do 5 right. left. exact H.
Qed.

Lemma reads_values_all (fuel : nat) : reads_values fuel.
Proof.
  induction fuel as [| k (IHv & IHe & IHm)].
  - repeat split; intros; discriminate.
  - split; [| split].
    + intros s v r H.
      destruct (parse_value_cases k s v r H)
        as [[str ->] | [-> | [-> | [-> | [[b ->] | [Hn | [[s' He] | [s' Hm]]]]]]]];
        try reflexivity.
      * exact (parse_number_value s v r Hn).
      * exact (IHe [] s' v r eq_refl He).
      * exact (IHm [] s' v r eq_refl Hm).
    + intros acc s v r Hacc H. rewrite parse_elements_step in H.
      destruct (parse_value k s) as [[v1 r1] |] eqn:Hv1; [| discriminate].
      pose proof (IHv s v1 r1 Hv1) as Hwf1.
      destruct (skip_ws r1) as [| c r2]; [discriminate |].
      destruct (Ascii.eqb c "]").
      * injection H as <- _. cbn [wf_value]. apply forallb_snoc; assumption.
      * destruct (Ascii.eqb c ","); [| discriminate].
        eapply (IHe (acc ++ [v1])%list); [| exact H].
        apply forallb_snoc; assumption.
    + intros acc s v r Hacc H.
      destruct s as [| q body]; [discriminate |].
      cbn [parse_members] in H.
      destruct (Ascii.eqb q dquote); [| discriminate].
      destruct (lex_string body) as [[key r1] |]; [| discriminate].
      destruct (skip_ws r1) as [| c1 r2]; [discriminate |].
      destruct (Ascii.eqb c1 ":"); [| discriminate].
      destruct (parse_value k (skip_ws r2)) as [[v1 r3] |] eqn:Hv1;
        [| discriminate].
      pose proof (IHv _ v1 r3 Hv1) as Hwf1.
      destruct (skip_ws r3) as [| c3 r4]; [discriminate |].
      destruct (Ascii.eqb c3 "}").
      * injection H as <- _. apply dict_set_wf; assumption.
      * destruct (Ascii.eqb c3 ","); [| discriminate].
        eapply (IHm (dict_set key v1 acc)); [| exact H].
        apply dict_set_wf; assumption.
Qed.

Lemma json_loads_value (s : string) (v : value) :
  json_loads s = inr v -> wf_value v = true.
Proof.
  unfold json_loads.
  destruct (parse_value _ _) as [[v' r] |] eqn:Hp; [| discriminate].
  destruct (skip_ws r); [| discriminate].
  intros H. injection H as <-.
  destruct (reads_values_all (2 * String.length s + 2)) as (Hv & _ & _).
  exact (Hv _ _ _ Hp).
Qed.

(** The reference library keeps the laws of [json]. *)
Lemma reference_json_laws : JsonLaws lib.
Proof.
  constructor. intros v Hv. apply json_loads_dumps.
  unfold portable in Hv. apply andb_true_iff in Hv. exact (proj1 Hv).
Qed.

End RefLibFacts.

(** *** The padding of the token extractor and the reference decoder *)

Module PaddingFacts.

Import RefLib.

Lemma push_returned {A} (a : A) (r : exn + list A) :
  returned (push a r) = returned r.
Proof. destruct r; reflexivity. Qed.

Lemma base64url_char_decoded (c : ascii) :
  base64url_char c = true ->
  (exists v, b64_value c = Some v)
  /\ Ascii.eqb c "=" = false /\ (code c <? 128) = true.
Proof.
  destruct c as [[] [] [] [] [] [] [] []]; try discriminate;
    intros _; (split; [eexists; reflexivity | split; reflexivity]).
Qed.

(** After a run of characters of the alphabet the decoder stands at the
    position that their number gives, with no pad counted. *)
Lemma a2b_alphabet_run (s : string) :
  s <> EmptyString ->
  all_chars base64url_char s = true ->
  forall tail q lc pads,
    (q < 4)%nat ->
    exists lc',
      returned (a2b_base64 (s ++ tail) q lc pads)
      = returned (a2b_base64 tail ((q + String.length s) mod 4) lc' 0).
Proof.
  induction s as [| c s IH]; [contradiction |].
  intros _ Hall tail q lc pads Hq.
  cbn [all_chars] in Hall. apply andb_true_iff in Hall as [Hc Hs].
  destruct (base64url_char_decoded c Hc) as ([v Hv] & Heq & _).
  cbn [append a2b_base64]. rewrite Heq, Hv.
  assert (Hnext : forall q' lc0,
             (q' < 4)%nat ->
             exists lc',
               returned (a2b_base64 (s ++ tail) q' lc0 0)
               = returned (a2b_base64 tail ((q' + String.length s) mod 4) lc' 0)).
  { intros q' lc0 Hq'. destruct s as [| c' s'].
    - exists lc0. cbn [append String.length].
      rewrite Nat.add_0_r, Nat.mod_small by exact Hq'. reflexivity.
    - apply IH; [discriminate | exact Hs | exact Hq']. }
  cbn [String.length].
  destruct q as [| [| [| [| q]]]]; try lia; rewrite ?push_returned.
  - replace ((0 + S (String.length s)) mod 4)%nat
      with ((1 + String.length s) mod 4)%nat by (f_equal; lia).
    apply Hnext. lia.
  - replace ((1 + S (String.length s)) mod 4)%nat
      with ((2 + String.length s) mod 4)%nat by (f_equal; lia).
    apply Hnext. lia.
  - replace ((2 + S (String.length s)) mod 4)%nat
      with ((3 + String.length s) mod 4)%nat by (f_equal; lia).
    apply Hnext. lia.
  - replace ((3 + S (String.length s)) mod 4)%nat
      with ((0 + String.length s) mod 4)%nat.
    + apply Hnext. lia.
    + replace (3 + S (String.length s))%nat
        with (0 + String.length s + 1 * 4)%nat by lia.
      symmetry. apply Nat.Div0.mod_add.
Qed.

Lemma all_ascii_alphabet (s : string) (k : nat) :
  all_chars base64url_char s = true ->
  all_ascii (s ++ PyStr.repeat "=" k) = true.
Proof.
  intros Hall. induction s as [| c s IH].
  - cbn [append]. induction k; [reflexivity | exact IHk].
  - cbn [all_chars] in Hall. apply andb_true_iff in Hall as [Hc Hs].
    cbn [append all_ascii].
    destruct (base64url_char_decoded c Hc) as (_ & _ & ->). exact (IH Hs).
Qed.

(** The reference decoder accepts a segment written in the alphabet and
    padded by lines 229-231 exactly when its length is not one more than a
    multiple of four. *)
Lemma padded_segment_decodes (s : string) :
  all_chars base64url_char s = true ->
  returned (urlsafe_b64decode (pad_payload s))
  = negb (String.length s mod 4 =? 1)%nat.
Proof.
  intros Hall. unfold urlsafe_b64decode, pad_payload.
  pose proof (Nat.mod_upper_bound (String.length s) 4 ltac:(lia)) as Hlt.
  destruct s as [| c s'] eqn:Hs; [reflexivity |]. rewrite <- Hs in *.
  assert (Hne : s <> EmptyString) by (rewrite Hs; discriminate).
  clear Hs c s'.
  destruct (String.length s mod 4)%nat as [| [| [| [| m]]]] eqn:Hm; try lia;
    cbn [Nat.eqb negb Nat.sub].
  - pose proof (all_ascii_alphabet s 0 Hall) as Ha.
    cbn [PyStr.repeat] in Ha. rewrite RefLibFacts.string_app_nil in Ha.
    rewrite Ha.
    destruct (a2b_alphabet_run s Hne Hall EmptyString 0 0 0 ltac:(lia))
      as [lc' H].
    rewrite RefLibFacts.string_app_nil in H.
    rewrite H. cbn [Nat.add]. rewrite Hm. reflexivity.
  - rewrite (all_ascii_alphabet s 3 Hall).
    destruct (a2b_alphabet_run s Hne Hall (PyStr.repeat "=" 3) 0 0 0 ltac:(lia))
      as [lc' H].
    rewrite H. cbn [Nat.add]. rewrite Hm. reflexivity.
  - rewrite (all_ascii_alphabet s 2 Hall).
    destruct (a2b_alphabet_run s Hne Hall (PyStr.repeat "=" 2) 0 0 0 ltac:(lia))
      as [lc' H].
    rewrite H. cbn [Nat.add]. rewrite Hm. reflexivity.
  - rewrite (all_ascii_alphabet s 1 Hall).
    destruct (a2b_alphabet_run s Hne Hall (PyStr.repeat "=" 1) 0 0 0 ltac:(lia))
      as [lc' H].
    rewrite H. cbn [Nat.add]. rewrite Hm. reflexivity.
Qed.

(** A valid base64url segment, padded, is accepted. *)
Lemma valid_segment_decodes (s : string) :
  is_base64url s = true ->
  returned (urlsafe_b64decode (pad_payload s)) = true.
Proof.
  unfold is_base64url. intros H. apply andb_true_iff in H as [Hall Hlen].
  rewrite (padded_segment_decodes s Hall). exact Hlen.
Qed.

End PaddingFacts.

(** *** Saving and loading *)

Section RoundTrip.

Context {L : PyLib}.
Variable E : Env.
Hypothesis laws : JsonLaws L.

Lemma storable_parts (v : value) :
  storable v = true -> wf_value v = true /\ fits ITEM_NESTING v = true.
Proof. intros H. apply andb_true_iff in H. exact H. Qed.

Lemma storable_getattr (a : option value) (default : value) :
  storable_attr a = true -> storable default = true ->
  storable (getattr a default) = true.
Proof. destruct a; cbn; auto. Qed.

Lemma cred_data_portable (c : Credentials) (email : value) :
  storable_credentials c = true -> storable email = true ->
  portable (cred_data_of c email) = true.
Proof.
  unfold storable_credentials. intros Hc Hem.
  apply andb_true_iff in Hc as [Hc Hsc].
  apply andb_true_iff in Hc as [Hc Hcs].
  apply andb_true_iff in Hc as [Hc Hci].
  apply andb_true_iff in Hc as [Hc Huri].
  apply andb_true_iff in Hc as [Hc Hid].
  apply andb_true_iff in Hc as [Htok Hrt].
  destruct (storable_parts _ Htok) as [W0 F0].
  destruct (storable_parts _ (storable_getattr _ VNone Hrt eq_refl))
    as [W1 F1].
  destruct (storable_parts _ (storable_getattr _ VNone Hid eq_refl))
    as [W2 F2].
  destruct (storable_parts _ (storable_getattr _ VNone Hci eq_refl))
    as [W3 F3].
  destruct (storable_parts _ (storable_getattr _ VNone Hcs eq_refl))
    as [W4 F4].
  destruct (storable_parts _ (storable_getattr _ DEFAULT_TOKEN_URI Huri eq_refl))
    as [W5 F5].
  destruct (storable_parts _ (storable_getattr _ REQUIRED_SCOPES Hsc eq_refl))
    as [W6 F6].
  destruct (storable_parts _ Hem) as [W7 F7].
  unfold portable, cred_data_of. cbn [wf_value fits forallb snd map fst].
  rewrite W0, W1, W2, W3, W4, W5, W6, W7, F0, F1, F2, F3, F4, F5, F6, F7.
  reflexivity.
Qed.

(** Resolving the email again after a load of what a save wrote yields
    the email that the save resolved. *)
Lemma resolved_email_again (s s2 : Self) (c : Credentials) :
  _credentials s = Some c ->
  _user_email s2 = resolved_email s ->
  (exists c2, _credentials s2 = Some c2
              /\ id_token c2 = Some (getattr (id_token c) VNone)) ->
  resolved_email s2 = resolved_email s.
Proof.
  intros Hc Hem (c2 & Hc2 & Hid).
  unfold resolved_email at 1. rewrite Hem, Hc2, Hid.
  destruct (truthy (resolved_email s)) eqn:Ht; [reflexivity |].
  revert Ht. unfold resolved_email. rewrite Hc.
  destruct (truthy (_user_email s)) eqn:Hcached; [congruence |].
  destruct (id_token c) as [idt |]; cbn [getattr truthy]; [| reflexivity].
  destruct (truthy idt); [| reflexivity].
  destruct (token_email idt) as [e | [v |]]; reflexivity.
Qed.

(** C7: a save of a credential record that meets no file-system error,
    followed by a load (by this manager or by a fresh one), succeeds and
    reproduces the token, the refresh token, the identity token, the list
    of scopes in its order (and the token URI and the client id and
    secret) of the record that was saved, and the email that the save
    resolved, which is also the email the manager resolves after the load.
    An attribute that the saved credentials object lacks comes back as the
    default of lines 255-262.  The values of the record are storable. *)
Theorem save_then_load_round_trip (st : St) (c : Credentials) (s' : Self) :
  writable E ->
  open_read_error E = None ->
  _credentials (self st) = Some c ->
  storable_credentials c = true ->
  storable (resolved_email (self st)) = true ->
  let on_disk := world (snd (_save_credentials E st)) in
  let r := _load_stored_credentials E {| self := s'; world := on_disk |} in
  fst r = inr true
  /\ exists c',
      _credentials (self (snd r)) = Some c'
      /\ token c' = token c
      /\ (forall v, refresh_token c = Some v -> refresh_token c' = Some v)
      /\ (forall v, id_token c = Some v -> id_token c' = Some v)
      /\ (forall v, scopes c = Some v -> scopes c' = Some v)
      /\ (forall v, token_uri c = Some v -> token_uri c' = Some v)
      /\ (forall v, client_id c = Some v -> client_id c' = Some v)
      /\ (forall v, client_secret c = Some v -> client_secret c' = Some v)
      /\ (refresh_token c = None -> refresh_token c' = Some VNone)
      /\ (id_token c = None -> id_token c' = Some VNone)
      /\ (scopes c = None -> scopes c' = Some REQUIRED_SCOPES)
      /\ (token_uri c = None -> token_uri c' = Some DEFAULT_TOKEN_URI)
      /\ (client_id c = None -> client_id c' = Some VNone)
      /\ (client_secret c = None -> client_secret c' = Some VNone)
      /\ _user_email (self (snd r)) = resolved_email (self st)
      /\ resolved_email (self (snd r)) = resolved_email (self st).
Proof.
  intros Hw Hr Hc Hcs Hem on_disk r.
  assert (Hdisk : cred_file on_disk
                  = Some (saved_file c (resolved_email (self st)))).
  { unfold on_disk. rewrite (save_writes E st c Hc Hw). reflexivity. }
  pose proof (cred_data_portable c _ Hcs Hem) as Hdata.
  apply (loads_dumps L laws) in Hdata.
  assert (Hload : r = (inr true,
                       loaded {| self := s'; world := on_disk |}
                         [ ("token", token c);
                           ("refresh_token", getattr (refresh_token c) VNone);
                           ("id_token", getattr (id_token c) VNone);
                           ("client_id", getattr (client_id c) VNone);
                           ("client_secret", getattr (client_secret c) VNone);
                           ("token_uri", getattr (token_uri c) DEFAULT_TOKEN_URI);
                           ("scopes", getattr (scopes c) REQUIRED_SCOPES);
                           ("user_email", resolved_email (self st)) ])).
  { unfold r. eapply load_object; [exact Hdisk | exact Hr | exact Hdata]. }
  rewrite Hload. split; [reflexivity |].
  eexists. split; [reflexivity |].
  split; [reflexivity |].
  split; [intros v Hv;
          change (Some (getattr (refresh_token c) VNone) = Some v);
          rewrite Hv; reflexivity |].
  split; [intros v Hv;
          change (Some (getattr (id_token c) VNone) = Some v);
          rewrite Hv; reflexivity |].
  split; [intros v Hv;
          change (Some (getattr (scopes c) REQUIRED_SCOPES) = Some v);
          rewrite Hv; reflexivity |].
  split; [intros v Hv;
          change (Some (getattr (token_uri c) DEFAULT_TOKEN_URI) = Some v);
          rewrite Hv; reflexivity |].
  split; [intros v Hv;
          change (Some (getattr (client_id c) VNone) = Some v);
          rewrite Hv; reflexivity |].
  split; [intros v Hv;
          change (Some (getattr (client_secret c) VNone) = Some v);
          rewrite Hv; reflexivity |].
  split; [intros Hv;
          change (Some (getattr (refresh_token c) VNone) = Some VNone);
          rewrite Hv; reflexivity |].
  split; [intros Hv;
          change (Some (getattr (id_token c) VNone) = Some VNone);
          rewrite Hv; reflexivity |].
  split; [intros Hv;
          change (Some (getattr (scopes c) REQUIRED_SCOPES)
                  = Some REQUIRED_SCOPES);
          rewrite Hv; reflexivity |].
  split; [intros Hv;
          change (Some (getattr (token_uri c) DEFAULT_TOKEN_URI)
                  = Some DEFAULT_TOKEN_URI);
          rewrite Hv; reflexivity |].
  split; [intros Hv;
          change (Some (getattr (client_id c) VNone) = Some VNone);
          rewrite Hv; reflexivity |].
  split; [intros Hv;
          change (Some (getattr (client_secret c) VNone) = Some VNone);
          rewrite Hv; reflexivity |].
  split; [reflexivity |].
  eapply resolved_email_again; [exact Hc | reflexivity |].
  eexists. split; reflexivity.
Qed.

End RoundTrip.

Lemma save_then_load_round_trip_witness :
  let st := Sample.holding Sample.TOKEN_LEN_2 in
  let c := Scenario.user_credentials Sample.TOKEN_LEN_2 in
  let on_disk := world (snd (_save_credentials (L := RefLib.lib) Scenario.bare st)) in
  let r := _load_stored_credentials (L := RefLib.lib) Scenario.bare
             {| self := init None None; world := on_disk |} in
  fst r = inr true
  /\ exists c',
      _credentials (self (snd r)) = Some c'
      /\ token c' = token c
      /\ (forall v, refresh_token c = Some v -> refresh_token c' = Some v)
      /\ (forall v, id_token c = Some v -> id_token c' = Some v)
      /\ (forall v, scopes c = Some v -> scopes c' = Some v)
      /\ (forall v, token_uri c = Some v -> token_uri c' = Some v)
      /\ (forall v, client_id c = Some v -> client_id c' = Some v)
      /\ (forall v, client_secret c = Some v -> client_secret c' = Some v)
      /\ (refresh_token c = None -> refresh_token c' = Some VNone)
      /\ (id_token c = None -> id_token c' = Some VNone)
      /\ (scopes c = None -> scopes c' = Some REQUIRED_SCOPES)
      /\ (token_uri c = None -> token_uri c' = Some DEFAULT_TOKEN_URI)
      /\ (client_id c = None -> client_id c' = Some VNone)
      /\ (client_secret c = None -> client_secret c' = Some VNone)
      /\ _user_email (self (snd r)) = resolved_email (L := RefLib.lib) (self st)
      /\ resolved_email (L := RefLib.lib) (self (snd r))
         = resolved_email (L := RefLib.lib) (self st).
Proof.
  intros st c.
  apply (save_then_load_round_trip (L := RefLib.lib) Scenario.bare
           RefLibFacts.reference_json_laws st c (init None None)).
  - repeat split.
  - reflexivity.
  - reflexivity.
  - reflexivity.
  - vm_compute. reflexivity.
Defined.

(** The record that comes back, field by field. *)
Example round_trip_reproduces_the_record :
  let st := Sample.holding Sample.TOKEN_LEN_2 in
  let on_disk := world (snd (_save_credentials (L := RefLib.lib) Scenario.bare st)) in
  let r := _load_stored_credentials (L := RefLib.lib) Scenario.bare
             {| self := init None None; world := on_disk |} in
  _credentials (self (snd r))
  = Some (Scenario.user_credentials Sample.TOKEN_LEN_2)
  /\ _user_email (self (snd r)) = VStr "abcd@example.org".
Proof. vm_compute. split; reflexivity. Qed.

Example round_trip_resolves_email :
  let st := Sample.holding Sample.TOKEN_LEN_2 in
  let on_disk := world (snd (_save_credentials (L := RefLib.lib) Scenario.bare st)) in
  fst (_extract_user_email (L := RefLib.lib)
         (snd (_load_stored_credentials (L := RefLib.lib) Scenario.bare
                 {| self := init None None; world := on_disk |})))
  = inr (VStr "abcd@example.org").
Proof. vm_compute. reflexivity. Qed.

(* ===================================================================== *)
(** ** Further properties of the methods *)
(* ===================================================================== *)

(** *** Footprints *)

Section Footprints.

Variable P : Event -> Prop.

Lemma calls_ret {A} (a : A) : calls_only P (ret a).
Proof. intros st. exists []. split; [symmetry; apply app_nil_r | constructor]. Qed.

Lemma calls_raise {A} (e : exn) : calls_only P (@raise A e).
Proof. intros st. exists []. split; [symmetry; apply app_nil_r | constructor]. Qed.

Lemma calls_lift {A} (r : exn + A) : calls_only P (lift r).
Proof. intros st. exists []. split; [symmetry; apply app_nil_r | constructor]. Qed.

Lemma calls_get_self : calls_only P get_self.
Proof. intros st. exists []. split; [symmetry; apply app_nil_r | constructor]. Qed.

Lemma calls_put_self (s : Self) : calls_only P (put_self s).
Proof. intros st. exists []. split; [symmetry; apply app_nil_r | constructor]. Qed.

Lemma calls_get_file : calls_only P get_file.
Proof. intros st. exists []. split; [symmetry; apply app_nil_r | constructor]. Qed.

Lemma calls_put_file (f : option File) : calls_only P (put_file f).
Proof. intros st. exists []. split; [symmetry; apply app_nil_r | constructor]. Qed.

Lemma calls_emit (ev : Event) : P ev -> calls_only P (emit ev).
Proof. intros H st. exists [ev]. split; [reflexivity | repeat constructor; exact H]. Qed.

Lemma calls_bind {A B} (m : M A) (k : A -> M B) :
  calls_only P m -> (forall a, calls_only P (k a)) -> calls_only P (bind m k).
Proof.
  intros Hm Hk st. destruct (Hm st) as (evs & Ht & Hall).
  unfold calls_at, bind.
  destruct (m st) as [[e | a] st1]; cbn [snd] in *.
  - exists evs. split; assumption.
  - destruct (Hk a st1) as (evs2 & Ht2 & Hall2).
    exists (evs ++ evs2)%list. split.
    + rewrite Ht2, Ht, app_assoc. reflexivity.
    + apply Forall_app. split; assumption.
Qed.

Lemma calls_try {A} (m : M A) (h : exn -> M A) :
  calls_only P m -> (forall e, calls_only P (h e)) -> calls_only P (try_except m h).
Proof.
  intros Hm Hh st. destruct (Hm st) as (evs & Ht & Hall).
  unfold calls_at, try_except.
  destruct (m st) as [[e | a] st1]; cbn [snd] in *.
  - destruct (Hh e st1) as (evs2 & Ht2 & Hall2).
    exists (evs ++ evs2)%list. split.
    + rewrite Ht2, Ht, app_assoc. reflexivity.
    + apply Forall_app. split; assumption.
  - exists evs. split; assumption.
Qed.

End Footprints.

Lemma calls_weaken {A} (P Q : Event -> Prop) (m : M A) :
  (forall ev, P ev -> Q ev) -> calls_only P m -> calls_only Q m.
Proof.
  intros HPQ Hm st. destruct (Hm st) as (evs & Ht & Hall).
  exists evs. split; [exact Ht |]. eapply Forall_impl; eassumption.
Qed.

(** Breaks a method into its steps. *)
Ltac calls_step :=
  first
    [ apply calls_ret | apply calls_raise | apply calls_lift
    | apply calls_get_self | apply calls_put_self
    | apply calls_get_file | apply calls_put_file
    | apply calls_bind; [| intros ?]
    | apply calls_try; [| intros ?]
    | match goal with
      | |- calls_only _ (match ?x with _ => _ end) => destruct x
      | |- calls_only _ (if ?x then _ else _) => destruct x
      | |- calls_only _ (raise_new _ _) => apply calls_raise
      | |- calls_only _ (raise_from _ _ _) => apply calls_raise
      | |- calls_only _ (set_credentials _) => unfold set_credentials
      | |- calls_only _ (set_user_email _) => unfold set_user_email
      end ].

Ltac calls_steps := repeat calls_step.

(** The same, with the steps whose footprint is known taken as a whole. *)
Ltac calls_steps_with known := repeat first [ known | calls_step ].

Ltac calls_known lemma :=
  eapply calls_weaken; [| apply lemma]; cbv beta; intros ? ?; tauto.

Section FootprintsOfMethods.

Context {L : PyLib}.
Variable E : Env.

Lemma calls_extract (P : Event -> Prop) : calls_only P _extract_user_email.
Proof.
  intros st. exists []. rewrite extract_user_email_spec.
  split; [symmetry; apply app_nil_r | constructor].
Qed.

Lemma calls_token_source :
  calls_only identity_token_call (_get_identity_token_without_audience E).
Proof.
  unfold _get_identity_token_without_audience, fetch_identity_token, run.
  calls_steps; apply calls_emit; unfold identity_token_call; auto.
Qed.

Lemma calls_load :
  calls_only (fun ev => origin_of ev = FileRead) (_load_stored_credentials E).
Proof.
  unfold _load_stored_credentials, path_exists, load_from_file, read_file.
  calls_steps; apply calls_emit; reflexivity.
Qed.

Lemma calls_save :
  calls_only (fun ev => origin_of ev = FileWrite) (_save_credentials E).
Proof.
  unfold _save_credentials, mkdir_parent, write_credentials, write_file, chmod.
  calls_steps_with ltac:(apply calls_extract);
    apply calls_emit; reflexivity.
Qed.

Lemma calls_flow :
  calls_only (fun ev => origin_of ev = Google \/ origin_of ev = FileWrite)
             (_perform_oauth_flow E).
Proof.
  unfold _perform_oauth_flow, call_default, call_flow.
  calls_steps_with ltac:(calls_known calls_save);
    apply calls_emit; left; reflexivity.
Qed.

Lemma calls_refresh :
  calls_only (fun ev => origin_of ev = Google \/ origin_of ev = FileWrite)
             (_refresh_credentials E).
Proof.
  unfold _refresh_credentials, call_refresh.
  calls_steps_with ltac:(calls_known calls_save);
    apply calls_emit; left; reflexivity.
Qed.

Lemma calls_oauth_path (force : bool) :
  calls_only (fun ev => origin_of ev = Google \/ origin_of ev = FileWrite
                        \/ (force = false /\ origin_of ev = FileRead))
             (oauth_path E force).
Proof.
  unfold oauth_path. destruct force;
    calls_steps_with
      ltac:(first [ calls_known calls_flow | calls_known calls_refresh
                  | calls_known calls_load | apply calls_extract ]).
Qed.

Lemma calls_authenticate (force : bool) :
  calls_only (fun ev => identity_token_call ev
                        \/ origin_of ev = Google \/ origin_of ev = FileWrite
                        \/ (force = false /\ origin_of ev = FileRead))
             (authenticate E force).
Proof.
  unfold authenticate.
  calls_steps_with
    ltac:(first [ calls_known calls_token_source
                | calls_known (calls_oauth_path force) ]).
Qed.

End FootprintsOfMethods.

(** *** Frames: what a method leaves as it is *)

Section Frames.

Context {X : Type}.
Variable f : St -> X.

Lemma keeps_ret {A} (a : A) : keeps f (ret a).
Proof. intros st. reflexivity. Qed.

Lemma keeps_raise {A} (e : exn) : keeps f (@raise A e).
Proof. intros st. reflexivity. Qed.

Lemma keeps_lift {A} (r : exn + A) : keeps f (lift r).
Proof. intros st. reflexivity. Qed.

Lemma keeps_get_self : keeps f get_self.
Proof. intros st. reflexivity. Qed.

Lemma keeps_get_file : keeps f get_file.
Proof. intros st. reflexivity. Qed.

Lemma keeps_bind {A B} (m : M A) (k : A -> M B) :
  keeps f m -> (forall a, keeps f (k a)) -> keeps f (bind m k).
Proof.
  intros Hm Hk st. specialize (Hm st). unfold bind.
  destruct (m st) as [[e | a] st1]; cbn [snd] in *; [exact Hm |].
  rewrite (Hk a st1). exact Hm.
Qed.

Lemma keeps_try {A} (m : M A) (h : exn -> M A) :
  keeps f m -> (forall e, keeps f (h e)) -> keeps f (try_except m h).
Proof.
  intros Hm Hh st. specialize (Hm st). unfold try_except.
  destruct (m st) as [[e | a] st1]; cbn [snd] in *; [| exact Hm].
  rewrite (Hh e st1). exact Hm.
Qed.

End Frames.

Lemma keeps_file_emit (ev : Event) : keeps the_file (emit ev).
Proof. intros st. reflexivity. Qed.

Lemma keeps_fields_emit (ev : Event) : keeps the_fields (emit ev).
Proof. intros st. reflexivity. Qed.

Lemma keeps_file_put_self (s : Self) : keeps the_file (put_self s).
Proof. intros st. reflexivity. Qed.

Lemma keeps_fields_put_file (g : option File) : keeps the_fields (put_file g).
Proof. intros st. reflexivity. Qed.

Ltac keeps_step :=
  first
    [ apply keeps_ret | apply keeps_raise | apply keeps_lift
    | apply keeps_get_self | apply keeps_get_file
    | apply keeps_file_emit | apply keeps_fields_emit
    | apply keeps_file_put_self | apply keeps_fields_put_file
    | apply keeps_bind; [| intros ?]
    | apply keeps_try; [| intros ?]
    | match goal with
      | |- keeps _ (match ?x with _ => _ end) => destruct x
      | |- keeps _ (if ?x then _ else _) => destruct x
      | |- keeps _ (raise_new _ _) => apply keeps_raise
      | |- keeps _ (raise_from _ _ _) => apply keeps_raise
      | |- keeps _ (set_credentials _) => unfold set_credentials
      | |- keeps _ (set_user_email _) => unfold set_user_email
      end ].

Ltac keeps_steps_with known := repeat first [ known | keeps_step ].

Section FramesOfMethods.

Context {L : PyLib}.
Variable E : Env.

Lemma extract_keeps_file : keeps the_file _extract_user_email.
Proof. intros st. rewrite extract_user_email_spec. reflexivity. Qed.

Lemma token_source_keeps_file :
  keeps the_file (_get_identity_token_without_audience E).
Proof.
  unfold _get_identity_token_without_audience, fetch_identity_token, run.
  keeps_steps_with fail.
Qed.

Lemma token_source_keeps_fields :
  keeps the_fields (_get_identity_token_without_audience E).
Proof.
  unfold _get_identity_token_without_audience, fetch_identity_token, run.
  keeps_steps_with fail.
Qed.

Lemma load_keeps_file : keeps the_file (_load_stored_credentials E).
Proof.
  unfold _load_stored_credentials, path_exists, load_from_file, read_file.
  keeps_steps_with fail.
Qed.

End FramesOfMethods.

(** *** The external-tool token sources, whatever gcloud answers *)

Section TokenSources.

Variable E : Env.

Lemma token_source_error_class (st : St) (e : exn) :
  fst (_get_identity_token_without_audience E st) = inl e ->
  exn_cls e = AuthenticationError.
Proof.
  unfold _get_identity_token_without_audience, try_except.
  destruct (fetch_identity_token E st) as [[e0 | r] st']; cbn [fst].
  - destruct (isinstance e0 TimeoutExpired);
      [| destruct (isinstance e0 FileNotFoundError)];
      cbn; intros H; injection H as <-; reflexivity.
  - discriminate.
Qed.

Lemma token_source_state (st : St) :
  snd (_get_identity_token_without_audience E st)
  = after_runs st (token_cmd :: if token_ok E then [email_cmd] else []).
Proof.
  unfold _get_identity_token_without_audience, fetch_identity_token, run,
    token_ok, after_runs, after_events.
  run_monad.
  destruct (subprocess_run E token_cmd) as [e | p]; cbn.
  - destruct (isinstance e TimeoutExpired);
      [| destruct (isinstance e FileNotFoundError)]; reflexivity.
  - destruct (returncode p =? 0); cbn.
    + destruct (PyStr.nonempty (PyStr.strip (stdout p))); cbn.
      * destruct (subprocess_run E email_cmd) as [e | q]; cbn.
        -- destruct (isinstance e TimeoutExpired);
             [| destruct (isinstance e FileNotFoundError)];
             cbn; rewrite <- app_assoc; reflexivity.
        -- rewrite <- app_assoc. reflexivity.
      * reflexivity.
    + destruct (not_logged_in (error_msg_of p)); reflexivity.
Qed.

Lemma token_source_returned (st : St) :
  returned (fst (_get_identity_token_without_audience E st)) = true ->
  token_ok E = true /\ returned (subprocess_run E email_cmd) = true.
Proof.
  unfold _get_identity_token_without_audience, fetch_identity_token, run,
    token_ok.
  run_monad.
  destruct (subprocess_run E token_cmd) as [e | p]; cbn.
  - destruct (isinstance e TimeoutExpired);
      [| destruct (isinstance e FileNotFoundError)]; discriminate.
  - destruct (returncode p =? 0); cbn.
    + destruct (PyStr.nonempty (PyStr.strip (stdout p))); cbn.
      * destruct (subprocess_run E email_cmd) as [e | q]; cbn.
        -- destruct (isinstance e TimeoutExpired);
             [| destruct (isinstance e FileNotFoundError)]; discriminate.
        -- auto.
      * discriminate.
    + destruct (not_logged_in (error_msg_of p)); discriminate.
Qed.

Lemma token_source_unavailable (st : St) :
  gcloud_unavailable E ->
  exists e, fst (_get_identity_token_without_audience E st) = inl e.
Proof.
  intros H.
  destruct (fst (_get_identity_token_without_audience E st)) as [e | r] eqn:Hr.
  - exists e. reflexivity.
  - destruct (token_source_returned st) as [Hok Hq].
    + rewrite Hr. reflexivity.
    + destruct H as [H | [e H]].
      * congruence.
      * rewrite H in Hq. discriminate.
Qed.

(** X1: whatever gcloud answers, the identity-token source runs the token
    command and then, exactly when that command exited with code 0 and
    printed a token, the account lookup; it touches neither the manager's
    fields nor the credential file; and it returns only when the token call
    succeeded and the lookup call completed. *)
Theorem token_source_calls (st : St) :
  snd (_get_identity_token_without_audience E st)
  = after_runs st (token_cmd :: if token_ok E then [email_cmd] else [])
  /\ (returned (fst (_get_identity_token_without_audience E st)) = true <->
      token_ok E = true /\ returned (subprocess_run E email_cmd) = true).
Proof.
  split; [apply token_source_state |].
  split; [apply token_source_returned |].
  intros [Hok Hq]. unfold token_ok in Hok.
  destruct (subprocess_run E token_cmd) as [e0 | p] eqn:Hp; [discriminate |].
  apply andb_prop in Hok. destruct Hok as [H0 Hne]. apply Z.eqb_eq in H0.
  destruct (subprocess_run E email_cmd) as [e1 | q] eqn:Hq'; [discriminate |].
  rewrite (token_source_returns E st _ _
             (fetch_both_complete E st p q Hp H0 Hne Hq')).
  reflexivity.
Qed.

Lemma access_source_error_class (st : St) (e : exn) :
  fst (_get_identity_token_with_audience E st) = inl e ->
  exn_cls e = AuthenticationError.
Proof.
  unfold _get_identity_token_with_audience, try_except.
  destruct (fetch_access_token E st) as [[e0 | r] st']; cbn [fst].
  - destruct (isinstance e0 TimeoutExpired);
      [| destruct (isinstance e0 FileNotFoundError)];
      cbn; intros H; injection H as <-; reflexivity.
  - discriminate.
Qed.

(** X2: whatever goes wrong in either token source (a nonzero exit code, an
    empty output, a timeout, a missing binary, any other error of the
    subprocess call), what the method raises is an [AuthenticationError]
    itself, not a subclass and not the original error. *)
Theorem token_sources_raise_authentication_error (st : St) (e : exn) :
  fst (_get_identity_token_without_audience E st) = inl e
  \/ fst (_get_identity_token_with_audience E st) = inl e ->
  exn_cls e = AuthenticationError.
Proof.
  intros [H | H].
  - exact (token_source_error_class st e H).
  - exact (access_source_error_class st e H).
Qed.

End TokenSources.

Lemma token_sources_raise_authentication_error_witness :
  fst (_get_identity_token_without_audience Scenario.bare
         (Scenario.fresh None None))
  = inl (Exn AuthenticationError
           "gcloud command not found. Install Google Cloud SDK or use OAuth flow."
           None)
  /\ exn_cls (Exn AuthenticationError
                "gcloud command not found. Install Google Cloud SDK or use OAuth flow."
                None) = AuthenticationError.
Proof.
  split; [reflexivity |].
  apply (token_sources_raise_authentication_error
           Scenario.bare (Scenario.fresh None None)).
  left. reflexivity.
Defined.

(** *** Runs of the monad *)

Lemma bind_inr {A B} (m : M A) (k : A -> M B) (st st' : St) (r : B) :
  bind m k st = (inr r, st') ->
  exists a st1, m st = (inr a, st1) /\ k a st1 = (inr r, st').
Proof.
  unfold bind. destruct (m st) as [[e | a] st1]; [discriminate |].
  intros H. exists a, st1. split; [reflexivity | exact H].
Qed.

Lemma run_pair {A} (m : M A) (st : St) : m st = (fst (m st), snd (m st)).
Proof. apply surjective_pairing. Qed.

(** *** [authenticate]: the two paths *)

Section AuthenticatePaths.

Context {L : PyLib}.
Variable E : Env.

Lemma authenticate_unfold (force : bool) (st : St) :
  authenticate E force st
  = match _get_identity_token_without_audience E st with
    | (inr p, st') => (inr p, st')
    | (inl _, st') =>
        match oauth_path E force st' with
        | (inr r, st'') => (inr r, st'')
        | (inl e, st'') => (inl (rewrap_google_errors E e), st'')
        end
    end.
Proof.
  pose proof (token_source_error_class E st) as Hc.
  unfold authenticate, try_except, bind, ret.
  destruct (_get_identity_token_without_audience E st) as [[e | p] st'];
    cbn [fst] in Hc.
  - specialize (Hc e eq_refl). destruct e as [c m k]. cbn in Hc. subst c.
    rewrite authentication_error_is_caught.
    destruct (oauth_path E force st') as [[e | r] st'']; [| reflexivity].
    unfold rewrap_google_errors.
    destruct (isinstance e RefreshError || isinstance e DefaultCredentialsError);
      reflexivity.
  - reflexivity.
Qed.

(** X3: [authenticate] has two paths and nothing else.  When the identity-token
    source returns, that pair is the result.  Whatever the source raises is
    caught, and the result is that of the OAuth path, run from the state the
    source left; an error of the OAuth path that is a [RefreshError] or a
    [DefaultCredentialsError] is wrapped in an [AuthenticationError] with
    the message "Authentication failed: ..." and the error as its cause, and
    any other error passes as it is. *)
Theorem authenticate_two_paths (force : bool) (st : St) :
  authenticate E force st
  = match _get_identity_token_without_audience E st with
    | (inr p, st') => (inr p, st')
    | (inl _, st') =>
        match oauth_path E force st' with
        | (inr r, st'') => (inr r, st'')
        | (inl e, st'') => (inl (rewrap_google_errors E e), st'')
        end
    end.
Proof. apply authenticate_unfold. Qed.

(** X4: [authenticate] never lets a [RefreshError] or a
    [DefaultCredentialsError] of the Google libraries out. *)
Theorem authenticate_never_raises_google_errors
  (force : bool) (st : St) (e : exn) :
  fst (authenticate E force st) = inl e ->
  isinstance e RefreshError = false
  /\ isinstance e DefaultCredentialsError = false.
Proof.
  rewrite authenticate_unfold.
  destruct (_get_identity_token_without_audience E st) as [[e0 | p] st'];
    [| discriminate].
  destruct (oauth_path E force st') as [[e1 | r] st'']; [| discriminate].
  cbn [fst]. intros H. injection H as <-. unfold rewrap_google_errors.
  destruct (isinstance e1 RefreshError || isinstance e1 DefaultCredentialsError)
    eqn:Hg.
  - split; reflexivity.
  - apply orb_false_elim in Hg. exact Hg.
Qed.

Lemma token_source_result (st : St) (t m : value) :
  fst (_get_identity_token_without_audience E st) = inr (t, m) ->
  exists tok em, t = VStr tok /\ PyStr.nonempty tok = true /\ m = VStr em.
Proof.
  unfold _get_identity_token_without_audience, fetch_identity_token, run.
  run_monad.
  destruct (subprocess_run E token_cmd) as [e | p]; cbn.
  - destruct (isinstance e TimeoutExpired);
      [| destruct (isinstance e FileNotFoundError)]; discriminate.
  - destruct (returncode p =? 0); cbn.
    + destruct (PyStr.nonempty (PyStr.strip (stdout p))) eqn:Hne; cbn.
      * destruct (subprocess_run E email_cmd) as [e | q]; cbn.
        -- destruct (isinstance e TimeoutExpired);
             [| destruct (isinstance e FileNotFoundError)]; discriminate.
        -- intros H. injection H as <- <-. eauto.
      * discriminate.
    + destruct (not_logged_in (error_msg_of p)); discriminate.
Qed.

Lemma oauth_path_result (force : bool) (st : St) (t m : value) :
  fst (oauth_path E force st) = inr (t, m) ->
  truthy t = true /\ truthy m = true.
Proof.
  intros H. rewrite (run_pair (oauth_path E force) st) in H.
  destruct (oauth_path E force st) as [r st'] eqn:Hrun. cbn [fst] in H.
  subst r. unfold oauth_path in Hrun.
  apply bind_inr in Hrun. destruct Hrun as (u1 & st1 & _ & Hrun).
  apply bind_inr in Hrun. destruct Hrun as (s1 & st2 & _ & Hrun).
  apply bind_inr in Hrun. destruct Hrun as (u2 & st3 & _ & Hrun).
  apply bind_inr in Hrun. destruct Hrun as (s2 & st4 & _ & Hrun).
  destruct (_credentials s2) as [c |]; [| discriminate].
  destruct (id_token c) as [idt |]; [| discriminate].
  destruct (truthy idt) eqn:Hidt; [| discriminate].
  apply bind_inr in Hrun. destruct Hrun as (em & st5 & _ & Hrun).
  destruct (truthy em) eqn:Hem; [| discriminate].
  cbn in Hrun. injection Hrun as <- <- _. split; assumption.
Qed.

Lemma authenticate_result (force : bool) (st : St) (t m : value) :
  fst (authenticate E force st) = inr (t, m) ->
  truthy t = true
  /\ (truthy m = true
      \/ exists tok em, fst (_get_identity_token_without_audience E st)
                        = inr (VStr tok, VStr em)
                        /\ t = VStr tok /\ m = VStr em).
Proof.
  rewrite authenticate_unfold.
  destruct (_get_identity_token_without_audience E st) as [[e0 | p] st'] eqn:Hs.
  - pose proof (oauth_path_result force st' t m) as Ho.
    destruct (oauth_path E force st') as [[e1 | r] st'']; [discriminate |].
    cbn [fst] in *. intros H. destruct (Ho H) as [Ht Hm]. auto.
  - cbn [fst]. intros H. injection H as ->.
    destruct (token_source_result st t m) as (tok & em & -> & Hne & ->).
    + rewrite Hs. reflexivity.
    + split; [exact Hne |]. right. exists tok, em. auto.
Qed.

(** X5: a token that [authenticate] returns is never empty; on the OAuth path
    the email is not empty either, and on the gcloud path both are
    strings. *)
Theorem authenticate_returns_nonempty_token
  (force : bool) (st : St) (t m : value) :
  fst (authenticate E force st) = inr (t, m) ->
  truthy t = true
  /\ (truthy m = true
      \/ exists tok em, fst (_get_identity_token_without_audience E st)
                        = inr (VStr tok, VStr em)
                        /\ t = VStr tok /\ m = VStr em).
Proof. apply authenticate_result. Qed.

End AuthenticatePaths.

(** *** [get_auth_headers] *)

Lemma print_digits_nonempty (u : Decimal.uint) :
  u <> Decimal.Nil -> PyFormat.print_digits u <> EmptyString.
Proof. destruct u; cbn; congruence. Qed.

Lemma str_of_truthy (v : value) :
  truthy v = true -> PyFormat.str v <> EmptyString.
Proof.
  destruct v as [| b | n | s | l | d]; cbn.
  - discriminate.
  - destruct b; discriminate.
  - intros Hn. unfold PyFormat.repr_int.
    destruct (n <? 0) eqn:Hneg; [discriminate |].
    destruct n as [| p | p]; [discriminate | | discriminate].
    cbn. apply print_digits_nonempty. apply DecimalPos.Unsigned.to_uint_nonnil.
  - destruct s; [discriminate | discriminate].
  - discriminate.
  - discriminate.
Qed.

Section Headers.

Context {L : PyLib}.
Variable E : Env.

Lemma get_auth_headers_unfold (st : St) :
  get_auth_headers E st
  = match authenticate E false st with
    | (inr (t, m), st') => (inr (headers_of t m), st')
    | (inl e, st') => (inl e, st')
    end.
Proof.
  unfold get_auth_headers, bind.
  destruct (authenticate E false st) as [[e | [t m]] st']; reflexivity.
Qed.

(** X6: [get_auth_headers] authenticates without forcing; what [authenticate]
    raises it raises, and from the pair that [authenticate] returns it
    builds the two headers, [Authorization] being "Bearer " followed by at
    least one character. *)
Theorem get_auth_headers_of_authenticate (st : St) :
  match authenticate E false st with
  | (inr (t, m), st') =>
      get_auth_headers E st = (inr (headers_of t m), st')
      /\ PyFormat.str t <> EmptyString
  | (inl e, st') => get_auth_headers E st = (inl e, st')
  end.
Proof.
  rewrite get_auth_headers_unfold.
  pose proof (authenticate_result E false st) as H.
  destruct (authenticate E false st) as [[e | [t m]] st'];
    [reflexivity |].
  split; [reflexivity |].
  apply str_of_truthy. apply (H t m eq_refl).
Qed.

(** X7: the gcloud path does not look at the email it found.  When the token
    call succeeds and the account lookup exits with code 0 and prints
    nothing but white space, [get_auth_headers] returns an empty
    [X-User-Email] header: neither the placeholder nor an error. *)
Theorem gcloud_blank_account_gives_empty_email_header
  (st : St) (p q : CompletedProcess) :
  subprocess_run E token_cmd = inr p ->
  returncode p = 0 ->
  PyStr.nonempty (PyStr.strip (stdout p)) = true ->
  subprocess_run E email_cmd = inr q ->
  returncode q = 0 ->
  PyStr.strip (stdout q) = EmptyString ->
  get_auth_headers E st
  = (inr (VDict [ ("Authorization",
                   VStr ("Bearer " ++ PyStr.strip (stdout p)));
                  ("X-User-Email", VStr EmptyString) ]),
     after_runs st [token_cmd; email_cmd]).
Proof.
  intros Hp Hp0 Hne Hq Hq0 Hblank.
  rewrite get_auth_headers_unfold, authenticate_unfold.
  rewrite (token_source_returns E st _ _
             (fetch_both_complete E st p q Hp Hp0 Hne Hq)).
  rewrite Hq0, Hblank. reflexivity.
Qed.

End Headers.

Lemma gcloud_blank_account_gives_empty_email_header_witness :
  get_auth_headers (L := RefLib.lib)
    (Scenario.with_gcloud (Scenario.completed 0 "abc.def" "")
                          (Scenario.completed 0 " " "")
                          Scenario.bare)
    (Scenario.fresh None None)
  = (inr (VDict [ ("Authorization", VStr "Bearer abc.def");
                  ("X-User-Email", VStr EmptyString) ]),
     after_runs (Scenario.fresh None None) [token_cmd; email_cmd]).
Proof.
  apply (gcloud_blank_account_gives_empty_email_header
           (L := RefLib.lib)
           (Scenario.with_gcloud (Scenario.completed 0 "abc.def" "")
                                 (Scenario.completed 0 " " "")
                                 Scenario.bare)
           (Scenario.fresh None None)
           {| returncode := 0; stdout := "abc.def"; stderr := "" |}
           {| returncode := 0; stdout := " "; stderr := "" |});
    reflexivity.
Defined.

Lemma authenticate_never_raises_google_errors_witness :
  let E := Cases.with_default_error Cases.transport_error Scenario.bare in
  let e := Exn AuthenticationError
             "Authentication failed: Unable to acquire impersonated credentials"
             (Some Cases.transport_error) in
  fst (authenticate (L := RefLib.lib) E true (Scenario.fresh None None)) = inl e
  /\ isinstance e RefreshError = false
  /\ isinstance e DefaultCredentialsError = false.
Proof.
  split; [reflexivity |].
  apply (authenticate_never_raises_google_errors
           (L := RefLib.lib)
           (Cases.with_default_error Cases.transport_error Scenario.bare)
           true (Scenario.fresh None None)).
  reflexivity.
Defined.

Lemma authenticate_returns_nonempty_token_witness :
  let E := Scenario.with_default
             (Scenario.user_credentials Sample.TOKEN_LEN_0) Scenario.bare in
  fst (authenticate (L := RefLib.lib) E true (Scenario.fresh None None))
  = inr (VStr Sample.TOKEN_LEN_0, VStr "abc@example.org")
  /\ truthy (VStr Sample.TOKEN_LEN_0) = true
  /\ (truthy (VStr "abc@example.org") = true
      \/ exists tok em,
           fst (_get_identity_token_without_audience E (Scenario.fresh None None))
           = inr (VStr tok, VStr em)
           /\ VStr Sample.TOKEN_LEN_0 = VStr tok
           /\ VStr "abc@example.org" = VStr em).
Proof.
  split; [vm_compute; reflexivity |].
  apply (authenticate_returns_nonempty_token
           (L := RefLib.lib)
           (Scenario.with_default
              (Scenario.user_credentials Sample.TOKEN_LEN_0) Scenario.bare)
           true (Scenario.fresh None None)).
  vm_compute. reflexivity.
Defined.

(** *** What [authenticate] calls *)

Section AuthenticateCalls.

Context {L : PyLib}.
Variable E : Env.


(** X9: with [force_reauth] set, [authenticate] never looks at the stored
    credential file: it neither asks whether the file exists nor opens it
    for reading. *)
Theorem force_reauth_never_reads_credential_file :
  calls_only (fun ev => ev <> EvExists /\ ev <> EvRead) (authenticate E true).
Proof.
  eapply calls_weaken; [| apply (calls_authenticate E true)].
  intros ev H. unfold identity_token_call in H.
  destruct H as [[H | H] | [H | [H | [H _]]]]; try discriminate H;
    split; intros ->; discriminate H.
Qed.

End AuthenticateCalls.

(** *** [authenticate] from the stored credentials *)

Section StoredCredentials.

Context {L : PyLib}.
Variable E : Env.

Lemma oauth_path_stored (st : St) (f : File) (d : list (string * value)) :
  cred_file (world st) = Some f ->
  open_read_error E = None ->
  json_loads (content f) = inr (VDict d) ->
  oauth_path E false st
  = (token_and_email (dict_get d "id_token" VNone)
                     (resolved_email (self (loaded st d))),
     if truthy (dict_get d "id_token" VNone)
     then with_user_email (loaded st d) (resolved_email (self (loaded st d)))
     else loaded st d).
Proof.
  intros Hf Hr Hj. unfold oauth_path, bind.
  rewrite (load_object E st f d Hf Hr Hj). cbn [negb].
  assert (Hc : _credentials (self (loaded st d))
               = Some (credentials_of_dict d)) by reflexivity.
  assert (He : expired (credentials_of_dict d) = false) by reflexivity.
  assert (Hi : id_token (credentials_of_dict d)
               = Some (dict_get d "id_token" VNone)) by reflexivity.
  generalize dependent (loaded st d). intros st2 Hc.
  generalize dependent (credentials_of_dict d). intros c He Hi Hc.
  unfold ret, get_self. rewrite Hc, He. cbv beta iota. rewrite Hc, Hi.
  unfold token_and_email.
  destruct (truthy (dict_get d "id_token" VNone)); [| reflexivity].
  rewrite extract_user_email_spec.
  destruct (truthy (resolved_email (self st2))); reflexivity.
Qed.

Lemma rewrap_token_and_email (idt email : value) (st : St) :
  match token_and_email idt email with
  | inr r => (inr r, st)
  | inl e => (inl (rewrap_google_errors E e), st)
  end = (token_and_email idt email, st).
Proof.
  unfold token_and_email.
  destruct (truthy idt); [destruct (truthy email) |]; reflexivity.
Qed.

Lemma authenticate_stored (st : St) (f : File) (d : list (string * value)) :
  gcloud_unavailable E ->
  cred_file (world st) = Some f ->
  open_read_error E = None ->
  json_loads (content f) = inr (VDict d) ->
  let st1 := loaded (after_token_source E st) d in
  let idt := dict_get d "id_token" VNone in
  let email := resolved_email (self st1) in
  authenticate E false st
  = (token_and_email idt email,
     if truthy idt then with_user_email st1 email else st1).
Proof.
  intros Hg Hf Hr Hj st1 idt email. rewrite authenticate_unfold.
  destruct (token_source_unavailable E st Hg) as [e He].
  rewrite (run_pair (_get_identity_token_without_audience E) st).
  rewrite He, token_source_state.
  fold (after_token_source E st).
  rewrite (oauth_path_stored (after_token_source E st) f d Hf Hr Hj).
  fold st1. fold idt. fold email.
  pose proof (rewrap_token_and_email idt email
                (if truthy idt then with_user_email st1 email else st1)) as Hw.
  destruct (token_and_email idt email) as [e1 | r]; exact Hw.
Qed.

(** X10: when gcloud yields no token and the credential file holds a JSON
    object, [authenticate] (not forced) answers from the file alone.  The
    result is the stored identity token with the resolved email, or the
    error "Failed to obtain ID token from credentials" when the token is
    missing or empty, or "Failed to extract user email from credentials";
    after the gcloud calls, the only calls are the existence test and the
    read of the file: the loaded credentials are never refreshed, no OAuth
    flow runs and nothing is written back. *)
Theorem authenticate_from_stored_credentials
  (st : St) (f : File) (d : list (string * value)) :
  gcloud_unavailable E ->
  cred_file (world st) = Some f ->
  open_read_error E = None ->
  json_loads (content f) = inr (VDict d) ->
  let st1 := loaded (after_token_source E st) d in
  let idt := dict_get d "id_token" VNone in
  let email := resolved_email (self st1) in
  authenticate E false st
  = (token_and_email idt email,
     if truthy idt then with_user_email st1 email else st1).
Proof. apply authenticate_stored. Qed.

End StoredCredentials.

Lemma authenticate_from_stored_credentials_witness :
  let E := Scenario.bare in
  let st := Stored.holding Stored.COMPLETE in
  let d := Stored.COMPLETE in
  let st1 := loaded (after_token_source E st) d in
  let idt := dict_get d "id_token" VNone in
  let email := resolved_email (L := RefLib.lib) (self st1) in
  authenticate (L := RefLib.lib) E false st
  = (token_and_email idt email,
     if truthy idt then with_user_email st1 email else st1).
Proof.
  apply (authenticate_from_stored_credentials
           (L := RefLib.lib) Scenario.bare
           (Stored.holding Stored.COMPLETE)
           (Stored.file_of Stored.COMPLETE) Stored.COMPLETE).
  - left. reflexivity.
  - reflexivity.
  - reflexivity.
  - vm_compute. reflexivity.
Defined.

Example stored_credentials_give_the_token :
  fst (authenticate (L := RefLib.lib) Scenario.bare false
         (Stored.holding Stored.COMPLETE))
  = inr (VStr Sample.TOKEN_LEN_0, VStr "abc@example.org").
Proof. vm_compute. reflexivity. Qed.

(** *** [is_authenticated] *)

Section IsAuthenticated.

Context {L : PyLib}.
Variable E : Env.

Lemma is_authenticated_in_memory (st : St) (c : Credentials) :
  _credentials (self st) = Some c ->
  expired c = false ->
  is_authenticated E st = (inr (truthy (token c)), st).
Proof.
  intros Hc He. unfold is_authenticated, try_except, probe, has_token.
  run_monad. rewrite Hc. cbn. rewrite Hc, He. cbn. rewrite Hc. reflexivity.
Qed.

Lemma refresh_call_fails (st : St) (c : Credentials) (e : exn) :
  _credentials (self st) = Some c ->
  refresh E c = inl e ->
  _refresh_credentials E st
  = (inl (if isinstance e RefreshError
          then Exn TokenRefreshError
                 ("Failed to refresh credentials: " ++ exn_str E e) (Some e)
          else e),
     after_events st [EvRefresh]).
Proof.
  intros Hc Hr. unfold _refresh_credentials, call_refresh. run_monad.
  rewrite Hc. cbn. rewrite Hr.
  destruct (isinstance e RefreshError); reflexivity.
Qed.

Lemma is_authenticated_refresh_fails (st : St) (c : Credentials) (e : exn) :
  _credentials (self st) = Some c ->
  expired c = true ->
  refresh E c = inl e ->
  is_authenticated E st = (inr false, after_events st [EvRefresh]).
Proof.
  intros Hc He Hr. unfold is_authenticated, try_except, probe, bind.
  unfold get_self at 1. rewrite Hc. unfold ret at 1.
  unfold get_self at 1. rewrite Hc, He.
  rewrite (refresh_call_fails st c e Hc Hr). reflexivity.
Qed.

Lemma is_authenticated_no_file (st : St) :
  _credentials (self st) = None ->
  cred_file (world st) = None ->
  is_authenticated E st = (inr false, after_events st [EvExists]).
Proof.
  intros Hc Hf. unfold is_authenticated, try_except, probe, bind.
  unfold get_self at 1. rewrite Hc.
  rewrite (load_missing_file E st Hf). reflexivity.
Qed.

Lemma is_authenticated_loaded
  (st : St) (f : File) (d : list (string * value)) :
  _credentials (self st) = None ->
  cred_file (world st) = Some f ->
  open_read_error E = None ->
  json_loads (content f) = inr (VDict d) ->
  is_authenticated E st
  = (inr (truthy (dict_get d "token" VNone)), loaded st d).
Proof.
  intros Hc Hf Hr Hj. unfold is_authenticated, try_except, probe, bind.
  unfold get_self at 1. rewrite Hc.
  rewrite (load_object E st f d Hf Hr Hj). reflexivity.
Qed.

(** X11: no error escapes [is_authenticated]: whatever fails inside (an
    unreadable or malformed file, a refresh that fails, a directory that
    cannot be made), the answer is [False]; and when the answer is [True],
    the manager holds credentials with a non-empty token.  (The errors of
    the model are all subclasses of [Exception].) *)
Theorem is_authenticated_never_raises (st : St) :
  exists b, fst (is_authenticated E st) = inr b
            /\ (b = true ->
                has_token (self (snd (is_authenticated E st))) = true).
Proof.
  unfold is_authenticated, try_except.
  destruct (probe E st) as [[e | b] st'] eqn:Hp.
  - exists false. split; [reflexivity | discriminate].
  - exists b. split; [reflexivity |]. intros ->. cbn [snd].
    unfold probe in Hp.
    apply bind_inr in Hp. destruct Hp as (s & st1 & _ & Hp).
    apply bind_inr in Hp. destruct Hp as (nothing & st2 & _ & Hp).
    destruct nothing; [discriminate Hp |].
    apply bind_inr in Hp. destruct Hp as (s2 & st3 & _ & Hp).
    apply bind_inr in Hp. destruct Hp as (u & st4 & _ & Hp).
    apply bind_inr in Hp. destruct Hp as (s3 & st5 & Hg & Hp).
    unfold get_self in Hg. injection Hg as <- <-.
    unfold ret in Hp. injection Hp as Ht <-. exact Ht.
Qed.

(** X12: with credentials in memory, [is_authenticated] does not consult the
    credential file.  When they are not expired it answers from memory
    alone, without any call; when they are expired and the refresh fails,
    it answers [False], the error is dropped and the credentials stay. *)
Theorem is_authenticated_with_credentials_in_memory
  (st : St) (c : Credentials) :
  _credentials (self st) = Some c ->
  (expired c = false ->
   is_authenticated E st = (inr (truthy (token c)), st))
  /\ (forall e, expired c = true -> refresh E c = inl e ->
      is_authenticated E st = (inr false, after_events st [EvRefresh])).
Proof.
  intros Hc. split.
  - apply is_authenticated_in_memory. exact Hc.
  - intros e. apply is_authenticated_refresh_fails. exact Hc.
Qed.

Lemma calls_refresh_exact :
  calls_only (fun ev => ev = EvRefresh \/ origin_of ev = FileWrite)
             (_refresh_credentials E).
Proof.
  unfold _refresh_credentials, call_refresh.
  calls_steps_with ltac:(calls_known calls_save);
    apply calls_emit; left; reflexivity.
Qed.

(** X13: [is_authenticated] runs no gcloud command, starts no OAuth flow and
    does not ask for ambient credentials: besides the credential file, the
    only call it can make is a refresh. *)
Theorem is_authenticated_calls :
  calls_only (fun ev => ev = EvRefresh \/ origin_of ev = FileRead
                        \/ origin_of ev = FileWrite)
             (is_authenticated E).
Proof.
  unfold is_authenticated, probe.
  calls_steps_with
    ltac:(first [ calls_known calls_refresh_exact | calls_known calls_load ]).
Qed.

(** X14: [is_authenticated] and [authenticate] disagree on a credential file
    that has an access token and no identity token: with gcloud
    unavailable, the first answers [True] and the second raises "Failed to
    obtain ID token from credentials". *)
Theorem is_authenticated_yet_authenticate_fails
  (st : St) (f : File) (d : list (string * value)) :
  gcloud_unavailable E ->
  _credentials (self st) = None ->
  cred_file (world st) = Some f ->
  open_read_error E = None ->
  json_loads (content f) = inr (VDict d) ->
  truthy (dict_get d "token" VNone) = true ->
  truthy (dict_get d "id_token" VNone) = false ->
  fst (is_authenticated E st) = inr true
  /\ fst (authenticate E false st)
     = inl (Exn AuthenticationError
              "Failed to obtain ID token from credentials" None).
Proof.
  intros Hg Hc Hf Hr Hj Ht Hi. split.
  - rewrite (is_authenticated_loaded st f d Hc Hf Hr Hj), Ht. reflexivity.
  - rewrite (authenticate_stored E st f d Hg Hf Hr Hj).
    unfold token_and_email. rewrite Hi. reflexivity.
Qed.

End IsAuthenticated.

Lemma is_authenticated_with_credentials_in_memory_witness :
  is_authenticated (L := RefLib.lib) Scenario.bare
    (Sample.holding Sample.TOKEN_LEN_0)
  = (inr true, Sample.holding Sample.TOKEN_LEN_0).
Proof.
  apply (proj1 (is_authenticated_with_credentials_in_memory
                  (L := RefLib.lib) Scenario.bare
                  (Sample.holding Sample.TOKEN_LEN_0)
                  (Scenario.user_credentials Sample.TOKEN_LEN_0) eq_refl)).
  reflexivity.
Defined.

Lemma is_authenticated_yet_authenticate_fails_witness :
  fst (is_authenticated (L := RefLib.lib) Scenario.bare
         (Stored.holding Stored.ACCESS_ONLY)) = inr true
  /\ fst (authenticate (L := RefLib.lib) Scenario.bare false
            (Stored.holding Stored.ACCESS_ONLY))
     = inl (Exn AuthenticationError
              "Failed to obtain ID token from credentials" None).
Proof.
  apply (is_authenticated_yet_authenticate_fails
           (L := RefLib.lib) Scenario.bare
           (Stored.holding Stored.ACCESS_ONLY)
           (Stored.file_of Stored.ACCESS_ONLY) Stored.ACCESS_ONLY).
  - left. reflexivity.
  - reflexivity.
  - reflexivity.
  - reflexivity.
  - vm_compute. reflexivity.
  - reflexivity.
  - reflexivity.
Defined.

(** *** [logout] *)

Section Logout.

Context {L : PyLib}.
Variable E : Env.

Lemma logout_run (exists_error unlink_error : option exn) (st : St) :
  logout exists_error unlink_error st
  = match exists_error, cred_file (world st), unlink_error with
    | Some e, _, _ => (inl e, after_events st [EvExists])
    | None, Some _, Some e => (inl e, after_events st [EvExists])
    | None, Some _, None =>
        (inr tt, cleared (with_file (after_events st [EvExists]) None))
    | None, None, _ => (inr tt, cleared (after_events st [EvExists]))
    end.
Proof.
  unfold logout, path_exists_or, path_exists, unlink_file, cleared, with_file,
    with_user_email, with_credentials, after_events.
  destruct exists_error as [e |]; run_monad; [reflexivity |].
  destruct (cred_file (world st)) as [f |]; [destruct unlink_error |];
    reflexivity.
Qed.

(** X15: [logout] either returns, and then the credential file is gone and
    the manager is as it was when it was made (no credentials, no cached
    email, the same client secrets path and audience); or it raises, and
    then nothing is forgotten: the fields and the file are as before.  It
    raises in two cases only, with the error of the file system as it is:
    when the existence test of line 295 fails, whether or not there is a
    file, and when there is a file and its removal fails. *)
Theorem logout_clears_or_raises
  (exists_error unlink_error : option exn) (st : St) :
  match fst (logout exists_error unlink_error st) with
  | inr _ =>
      exists_error = None
      /\ cred_file (world (snd (logout exists_error unlink_error st))) = None
      /\ self (snd (logout exists_error unlink_error st))
         = init (client_secrets_path (self st)) (audience (self st))
  | inl e =>
      (exists_error = Some e
       \/ (exists_error = None /\ unlink_error = Some e
           /\ cred_file (world st) <> None))
      /\ self (snd (logout exists_error unlink_error st)) = self st
      /\ cred_file (world (snd (logout exists_error unlink_error st)))
         = cred_file (world st)
  end.
Proof.
  rewrite logout_run.
  destruct exists_error as [e0 |]; [cbn; auto |].
  destruct (cred_file (world st)) as [f |] eqn:Hf;
    [destruct unlink_error as [e |] |]; cbn.
  - split; [| split; [reflexivity | assumption]].
    right. repeat split. discriminate.
  - repeat split.
  - split; [reflexivity |]. split; [assumption | reflexivity].
Qed.

(** X16: after a [logout] that returned, [is_authenticated] answers [False],
    and all it does is to see that there is no credential file. *)
Theorem logout_then_not_authenticated
  (exists_error unlink_error : option exn) (st : St) :
  fst (logout exists_error unlink_error st) = inr tt ->
  is_authenticated E (snd (logout exists_error unlink_error st))
  = (inr false,
     after_events (snd (logout exists_error unlink_error st)) [EvExists]).
Proof.
  rewrite logout_run. intros H. apply is_authenticated_no_file.
  - destruct exists_error; [discriminate H |].
    destruct (cred_file (world st)); [destruct unlink_error |];
      try discriminate H; reflexivity.
  - destruct exists_error; [discriminate H |].
    destruct (cred_file (world st)) as [f |] eqn:Hf; [destruct unlink_error |];
      try discriminate H; cbn; [reflexivity | exact Hf].
Qed.

End Logout.

Lemma logout_then_not_authenticated_witness :
  is_authenticated (L := RefLib.lib) Scenario.bare
    (snd (logout None None (Stored.holding Stored.COMPLETE)))
  = (inr false,
     after_events (snd (logout None None (Stored.holding Stored.COMPLETE)))
                  [EvExists]).
Proof.
  apply (logout_then_not_authenticated
           (L := RefLib.lib) Scenario.bare None None
           (Stored.holding Stored.COMPLETE)).
  reflexivity.
Defined.

Example logout_unsearchable_directory_raises :
  logout (Some Cases.permission_denied) None (Scenario.fresh None None)
  = (inl Cases.permission_denied,
     after_events (Scenario.fresh None None) [EvExists]).
Proof. reflexivity. Qed.

(** *** The credential store: failures and repetition *)

Section StoreFailures.

Context {L : PyLib}.
Variable E : Env.

Lemma resolved_email_idempotent (st : St) :
  resolved_email (self (with_user_email st (resolved_email (self st))))
  = resolved_email (self st).
Proof.
  unfold resolved_email at 1.
  cbn [self with_user_email _user_email _credentials].
  destruct (truthy (resolved_email (self st))) eqn:Ht; [reflexivity |].
  revert Ht. unfold resolved_email.
  destruct (truthy (_user_email (self st))) eqn:Hcached; [congruence |].
  destruct (_credentials (self st)) as [c |]; [| reflexivity].
  destruct (id_token c) as [idt |]; [| reflexivity].
  destruct (truthy idt); [| reflexivity].
  destruct (token_email idt) as [e | [v |]]; reflexivity.
Qed.

(** X17: [_extract_user_email] is idempotent: a second call returns the same
    email and changes nothing, whether or not the first one found an
    email. *)
Theorem extract_user_email_idempotent (st : St) :
  _extract_user_email (snd (_extract_user_email st))
  = (fst (_extract_user_email st), snd (_extract_user_email st)).
Proof.
  rewrite (extract_user_email_spec st). cbn [fst snd].
  rewrite extract_user_email_spec, resolved_email_idempotent.
  reflexivity.
Qed.

Lemma save_mkdir_fails (st : St) (c : Credentials) (e : exn) :
  _credentials (self st) = Some c ->
  mkdir_error E = Some e ->
  _save_credentials E st = (inl e, after_events st [EvMkdir]).
Proof.
  intros Hc Hm. unfold _save_credentials, mkdir_parent. run_monad.
  rewrite Hc, Hm. reflexivity.
Qed.

Lemma save_open_fails (st : St) (c : Credentials) (e : exn) :
  _credentials (self st) = Some c ->
  mkdir_error E = None ->
  open_write_error E = Some e ->
  _save_credentials E st
  = (inr tt, save_attempted st (cred_file (world st))
               [EvWrite (saved_text st c)]).
Proof.
  intros Hc Hm Hw. unfold _save_credentials, mkdir_parent, bind.
  unfold get_self at 1. rewrite Hc. unfold emit at 1. rewrite Hm.
  unfold ret at 1. rewrite extract_user_email_spec.
  unfold try_except, write_credentials, write_file, bind, emit.
  rewrite Hw. unfold save_attempted, saved_text, after_events, with_file,
    with_user_email. cbn. rewrite <- app_assoc. reflexivity.
Qed.

Lemma save_chmod_fails (st : St) (c : Credentials) (e : exn) :
  _credentials (self st) = Some c ->
  mkdir_error E = None ->
  open_write_error E = None ->
  chmod_error E = Some e ->
  _save_credentials E st
  = (inr tt,
     save_attempted st
       (Some {| content := saved_text st c; mode := mode_on_write E st |})
       [EvWrite (saved_text st c); EvChmod MODE_0600]).
Proof.
  intros Hc Hm Hw Hch. unfold _save_credentials, mkdir_parent, bind.
  unfold get_self at 1. rewrite Hc. unfold emit at 1. rewrite Hm.
  unfold ret at 1. rewrite extract_user_email_spec.
  unfold try_except, write_credentials, write_file, chmod, bind, emit.
  rewrite Hw, Hch. unfold save_attempted, saved_text, mode_on_write,
    after_events, with_file, with_user_email. cbn.
  rewrite <- !app_assoc. reflexivity.
Qed.

(** X18: failures of writing are swallowed by [_save_credentials], which still
    returns.  When the file cannot be opened for writing, the file is as it
    was and no mode is set.  When the mode cannot be set, the new text is
    in the file with the mode the file had, or the one the umask leaves for
    a new file: not restricted to the owner.  In both cases the resolved
    email is cached. *)
Theorem save_swallows_write_and_chmod_failures
  (st : St) (c : Credentials) (e : exn) :
  _credentials (self st) = Some c ->
  mkdir_error E = None ->
  (open_write_error E = Some e ->
   _save_credentials E st
   = (inr tt, save_attempted st (cred_file (world st))
                [EvWrite (saved_text st c)]))
  /\ (open_write_error E = None -> chmod_error E = Some e ->
      _save_credentials E st
      = (inr tt,
         save_attempted st
           (Some {| content := saved_text st c; mode := mode_on_write E st |})
           [EvWrite (saved_text st c); EvChmod MODE_0600])).
Proof.
  intros Hc Hm. split.
  - apply save_open_fails; assumption.
  - apply save_chmod_fails; assumption.
Qed.

Lemma refresh_then_save (st : St) (c c' : Credentials) :
  _credentials (self st) = Some c ->
  refresh E c = inr c' ->
  _refresh_credentials E st
  = match _save_credentials E
            (with_credentials (after_events st [EvRefresh]) (Some c')) with
    | (inr u, st') => (inr u, st')
    | (inl e, st') => (inl (rewrap_refresh_error E e), st')
    end.
Proof.
  intros Hc Hr. unfold _refresh_credentials, call_refresh, bind.
  unfold get_self at 1. rewrite Hc. unfold try_except, bind.
  unfold emit at 1, lift at 1. rewrite Hr.
  unfold set_credentials, bind, get_self, put_self.
  cbn [self world].
  change {| self := _; world := _ |}
    with (with_credentials (after_events st [EvRefresh]) (Some c')).
  destruct (_save_credentials E
              (with_credentials (after_events st [EvRefresh]) (Some c')))
    as [[e | u] st']; [| reflexivity].
  unfold rewrap_refresh_error. destruct (isinstance e RefreshError);
    reflexivity.
Qed.

(** X19: the outcomes of [_refresh_credentials].  Without credentials it
    raises a [TokenRefreshError] and calls nothing.  When the refresh call
    raises, the credentials stay as they were and nothing is saved; a
    [RefreshError] is wrapped in a [TokenRefreshError] with the error as its
    cause, any other error passes as it is.  When the refresh call returns
    and the file system meets no error, the new credentials replace the old
    ones and are saved. *)
Theorem refresh_outcomes (st : St) (c c' : Credentials) (e : exn) :
  (_credentials (self st) = None ->
   _refresh_credentials E st
   = (inl (Exn TokenRefreshError "No credentials available to refresh" None),
      st))
  /\ (_credentials (self st) = Some c -> refresh E c = inl e ->
      _refresh_credentials E st
      = (inl (rewrap_refresh_error E e), after_events st [EvRefresh]))
  /\ (_credentials (self st) = Some c -> refresh E c = inr c' ->
      writable E ->
      _refresh_credentials E st
      = (inr tt,
         saved (with_credentials (after_events st [EvRefresh]) (Some c')) c')).
Proof.
  split; [| split].
  - intros Hc. unfold _refresh_credentials. run_monad. rewrite Hc.
    reflexivity.
  - intros Hc Hr. exact (refresh_call_fails E st c e Hc Hr).
  - intros Hc Hr Hw. rewrite (refresh_then_save st c c' Hc Hr).
    rewrite (save_writes E (with_credentials (after_events st [EvRefresh])
                                             (Some c')) c' eq_refl Hw).
    reflexivity.
Qed.

(** X20: a directory that cannot be made is the one failure of a save that is
    not swallowed, and it reaches the callers after they have put the new
    credentials in memory.  [_save_credentials] raises the error of the
    file system as it is; so does [_refresh_credentials] (unless the error
    is a [RefreshError]); the interactive OAuth flow wraps it as "OAuth
    flow failed: ...".  In both callers the new credentials are kept in
    memory and nothing is written. *)
Theorem mkdir_failure_reaches_callers
  (st : St) (c c' : Credentials) (e : exn) :
  mkdir_error E = Some e ->
  (_credentials (self st) = Some c ->
   _save_credentials E st = (inl e, after_events st [EvMkdir]))
  /\ (_credentials (self st) = Some c -> refresh E c = inr c' ->
      _refresh_credentials E st
      = (inl (rewrap_refresh_error E e),
         after_events
           (with_credentials (after_events st [EvRefresh]) (Some c'))
           [EvMkdir]))
  /\ (no_client_secrets E (self st) = false -> run_flow E = inr c' ->
      _perform_oauth_flow E st
      = (inl (flow_failed E e),
         after_events
           (with_credentials (after_events st [EvFlow]) (Some c'))
           [EvMkdir])).
Proof.
  intros Hm. split; [| split].
  - intros Hc. apply (save_mkdir_fails st c e Hc Hm).
  - intros Hc Hr. rewrite (refresh_then_save st c c' Hc Hr).
    rewrite (save_mkdir_fails
               (with_credentials (after_events st [EvRefresh]) (Some c'))
               c' e eq_refl Hm).
    reflexivity.
  - intros Hs Hf. rewrite (flow_interactive E st c' Hs Hf).
    rewrite (save_mkdir_fails
               (with_credentials (after_events st [EvFlow]) (Some c'))
               c' e eq_refl Hm).
    reflexivity.
Qed.

End StoreFailures.

Lemma save_swallows_write_and_chmod_failures_witness :
  let E := Cases.with_file_errors None None (Some Cases.permission_denied) None
             Scenario.bare in
  let st := Sample.holding Sample.TOKEN_LEN_0 in
  _save_credentials (L := RefLib.lib) E st
  = (inr tt,
     save_attempted (L := RefLib.lib) st None
       [EvWrite (saved_text (L := RefLib.lib) st
                   (Scenario.user_credentials Sample.TOKEN_LEN_0))]).
Proof.
  apply (proj1 (save_swallows_write_and_chmod_failures
                  (L := RefLib.lib)
                  (Cases.with_file_errors None None
                     (Some Cases.permission_denied) None Scenario.bare)
                  (Sample.holding Sample.TOKEN_LEN_0)
                  (Scenario.user_credentials Sample.TOKEN_LEN_0)
                  Cases.permission_denied eq_refl eq_refl)).
  reflexivity.
Defined.

Lemma refresh_outcomes_witness :
  let c := Cases.expire (Scenario.user_credentials Sample.TOKEN_LEN_0) in
  let c' := Scenario.user_credentials Sample.TOKEN_LEN_2 in
  let E := Cases.with_refresh c' Scenario.bare in
  let st := with_credentials (Scenario.fresh None None) (Some c) in
  _refresh_credentials (L := RefLib.lib) E st
  = (inr tt,
     saved (L := RefLib.lib)
       (with_credentials (after_events st [EvRefresh]) (Some c')) c').
Proof.
  apply (proj2 (proj2 (refresh_outcomes
                         (L := RefLib.lib)
                         (Cases.with_refresh
                            (Scenario.user_credentials Sample.TOKEN_LEN_2)
                            Scenario.bare)
                         (with_credentials (Scenario.fresh None None)
                            (Some (Cases.expire
                                     (Scenario.user_credentials
                                        Sample.TOKEN_LEN_0))))
                         (Cases.expire
                            (Scenario.user_credentials Sample.TOKEN_LEN_0))
                         (Scenario.user_credentials Sample.TOKEN_LEN_2)
                         Cases.permission_denied))).
  - reflexivity.
  - reflexivity.
  - repeat split.
Defined.

Lemma mkdir_failure_reaches_callers_witness :
  let c := Cases.expire (Scenario.user_credentials Sample.TOKEN_LEN_0) in
  let c' := Scenario.user_credentials Sample.TOKEN_LEN_2 in
  let E := Cases.with_file_errors None (Some Cases.permission_denied) None None
             (Cases.with_refresh c' Scenario.bare) in
  let st := with_credentials (Scenario.fresh None None) (Some c) in
  _refresh_credentials (L := RefLib.lib) E st
  = (inl Cases.permission_denied,
     after_events (with_credentials (after_events st [EvRefresh]) (Some c'))
                  [EvMkdir]).
Proof.
  apply (proj1 (proj2 (mkdir_failure_reaches_callers
                         (L := RefLib.lib)
                         (Cases.with_file_errors None
                            (Some Cases.permission_denied) None None
                            (Cases.with_refresh
                               (Scenario.user_credentials Sample.TOKEN_LEN_2)
                               Scenario.bare))
                         (with_credentials (Scenario.fresh None None)
                            (Some (Cases.expire
                                     (Scenario.user_credentials
                                        Sample.TOKEN_LEN_0))))
                         (Cases.expire
                            (Scenario.user_credentials Sample.TOKEN_LEN_0))
                         (Scenario.user_credentials Sample.TOKEN_LEN_2)
                         Cases.permission_denied eq_refl)));
    reflexivity.
Defined.

(** *** Loading: all or nothing *)

Section LoadFurther.

Context {L : PyLib}.
Variable E : Env.

Lemma load_read_fails (st : St) (f : File) (e : exn) :
  cred_file (world st) = Some f ->
  open_read_error E = Some e ->
  _load_stored_credentials E st
  = (if isinstance e JSONDecodeError || isinstance e KeyError
        || isinstance e FileNotFoundError
     then inr false else inl e,
     after_events st [EvExists; EvRead]).
Proof.
  intros Hf Hr.
  unfold _load_stored_credentials, path_exists, load_from_file, read_file,
    after_events.
  run_monad. rewrite Hf, Hr. cbn.
  destruct (isinstance e JSONDecodeError || isinstance e KeyError
            || isinstance e FileNotFoundError);
    cbn; rewrite <- app_assoc; reflexivity.
Qed.

Lemma load_result (st : St) :
  (exists f d, cred_file (world st) = Some f
               /\ json_loads (content f) = inr (VDict d)
               /\ _load_stored_credentials E st = (inr true, loaded st d))
  \/ (fst (_load_stored_credentials E st) <> inr true
      /\ self (snd (_load_stored_credentials E st)) = self st).
Proof.
  destruct (cred_file (world st)) as [f |] eqn:Hf.
  - destruct (open_read_error E) as [e |] eqn:Hr.
    + right. rewrite (load_read_fails st f e Hf Hr).
      destruct (isinstance e JSONDecodeError || isinstance e KeyError
                || isinstance e FileNotFoundError);
        split; [discriminate | reflexivity | discriminate | reflexivity].
    + destruct (json_loads (content f)) as [e | v] eqn:Hj.
      * right. rewrite (load_from_file_rejected E st f e Hf Hr Hj).
        destruct (isinstance e JSONDecodeError || isinstance e KeyError
                  || isinstance e FileNotFoundError);
          split; [discriminate | reflexivity | discriminate | reflexivity].
      * assert (Hv : (exists d, v = VDict d) \/ (forall d, v <> VDict d)).
        { destruct v; try (right; intros d; discriminate). left. eauto. }
        destruct Hv as [[d ->] | Hv].
        -- left. exists f, d. split; [reflexivity |]. split; [exact Hj |].
           apply (load_object E st f d Hf Hr Hj).
        -- right.
           destruct (load_not_an_object E st f v Hf Hr Hj Hv) as (e & -> & _).
           split; [discriminate | reflexivity].
  - right. rewrite (load_missing_file E st Hf).
    split; [discriminate | reflexivity].
Qed.

(** X21: a load is all or nothing, and only reads.  Either it returns [True],
    and then the file holds a JSON object and both fields are set from it,
    the credentials not being expired; or it returns [False] or raises, and
    then the manager's fields are as they were.  In every case the
    credential file is left as it is and the only calls are the existence
    test and the read. *)
Theorem load_all_or_nothing (st : St) :
  ((exists f d, cred_file (world st) = Some f
                /\ json_loads (content f) = inr (VDict d)
                /\ _load_stored_credentials E st = (inr true, loaded st d)
                /\ exists c, _credentials (self (loaded st d)) = Some c
                             /\ expired c = false)
   \/ (fst (_load_stored_credentials E st) <> inr true
       /\ self (snd (_load_stored_credentials E st)) = self st))
  /\ cred_file (world (snd (_load_stored_credentials E st)))
     = cred_file (world st)
  /\ calls_at (fun ev => ev = EvExists \/ ev = EvRead)
              (_load_stored_credentials E) st.
Proof.
  split; [| split].
  - destruct (load_result st) as [(f & d & Hf & Hj & Hd) | H];
      [left | right; exact H].
    exists f, d. repeat (split; [assumption |]).
    eexists. split; reflexivity.
  - apply (load_keeps_file E st).
  - revert st. eapply calls_weaken; [| apply calls_load].
    intros ev H. destruct ev; try discriminate H; auto.
Qed.

(** X22: a credential file that cannot be opened for a reason other than its
    absence, say for lack of permission, is not treated as missing: with
    gcloud unavailable, [authenticate] raises the error of the file system
    as it is, after the existence test and the attempt to read, and no
    OAuth flow is tried. *)
Theorem authenticate_unreadable_file_raises
  (st : St) (f : File) (e : exn) :
  gcloud_unavailable E ->
  cred_file (world st) = Some f ->
  open_read_error E = Some e ->
  isinstance e OSError = true ->
  isinstance e FileNotFoundError = false ->
  authenticate E false st
  = (inl e, after_events (after_token_source E st) [EvExists; EvRead]).
Proof.
  intros Hg Hf Hr Hos Hnf. rewrite authenticate_unfold.
  destruct (token_source_unavailable E st Hg) as [e0 He0].
  rewrite (run_pair (_get_identity_token_without_audience E) st).
  rewrite He0, token_source_state. fold (after_token_source E st).
  unfold oauth_path, bind.
  rewrite (load_read_fails (after_token_source E st) f e Hf Hr).
  destruct e as [c m k]. unfold rewrap_google_errors.
  destruct c; try discriminate Hos; try discriminate Hnf; reflexivity.
Qed.

(** X23: a credential file that holds JSON which is not an object (a list, a
    string, a number) makes [authenticate] raise an [AttributeError], not
    an [AuthenticationError], when gcloud is unavailable. *)
Theorem authenticate_non_object_file_raises
  (st : St) (f : File) (v : value) :
  gcloud_unavailable E ->
  cred_file (world st) = Some f ->
  open_read_error E = None ->
  json_loads (content f) = inr v ->
  (forall d, v <> VDict d) ->
  exists e, authenticate E false st
            = (inl e, after_events (after_token_source E st) [EvExists; EvRead])
            /\ exn_cls e = AttributeError
            /\ isinstance e AuthenticationError = false.
Proof.
  intros Hg Hf Hr Hj Hv. rewrite authenticate_unfold.
  destruct (token_source_unavailable E st Hg) as [e0 He0].
  rewrite (run_pair (_get_identity_token_without_audience E) st).
  rewrite He0, token_source_state. fold (after_token_source E st).
  unfold oauth_path, bind.
  destruct (load_not_an_object E (after_token_source E st) f v Hf Hr Hj Hv)
    as (e & -> & Hc).
  exists e. destruct e as [c m k]. cbn in Hc. subst c.
  repeat split.
Qed.

End LoadFurther.

Lemma authenticate_unreadable_file_raises_witness :
  let E := Cases.with_file_errors (Some Cases.permission_denied) None None None
             Scenario.bare in
  let st := Stored.holding Stored.COMPLETE in
  authenticate (L := RefLib.lib) E false st
  = (inl Cases.permission_denied,
     after_events (after_token_source E st) [EvExists; EvRead]).
Proof.
  apply (authenticate_unreadable_file_raises
           (L := RefLib.lib)
           (Cases.with_file_errors (Some Cases.permission_denied) None None None
              Scenario.bare)
           (Stored.holding Stored.COMPLETE)
           (Stored.file_of Stored.COMPLETE) Cases.permission_denied).
  - left. reflexivity.
  - reflexivity.
  - reflexivity.
  - reflexivity.
  - reflexivity.
Defined.

Lemma authenticate_non_object_file_raises_witness :
  exists e,
    authenticate (L := RefLib.lib) Scenario.bare false (Sample.on_disk "[]")
    = (inl e, after_events (after_token_source Scenario.bare
                              (Sample.on_disk "[]"))
                           [EvExists; EvRead])
    /\ exn_cls e = AttributeError
    /\ isinstance e AuthenticationError = false.
Proof.
  apply (authenticate_non_object_file_raises
           (L := RefLib.lib) Scenario.bare (Sample.on_disk "[]")
           {| content := "[]"; mode := 420 |} (VList [])).
  - left. reflexivity.
  - reflexivity.
  - reflexivity.
  - reflexivity.
  - intros d. discriminate.
Defined.

(** *** [authenticate] through the OAuth flow *)

Section ThroughTheFlow.

Context {L : PyLib}.
Variable E : Env.


Lemma authenticate_flow (st : St) (c : Credentials) (idt : value) :
  gcloud_unavailable E ->
  no_client_secrets E (self st) = false ->
  run_flow E = inr c ->
  writable E ->
  expired c = false ->
  id_token c = Some idt ->
  truthy idt = true ->
  let st1 := with_credentials (after_events (after_token_source E st) [EvFlow])
                              (Some c) in
  authenticate E true st
  = (token_and_email idt (resolved_email (self st1)), saved st1 c).
Proof.
  intros Hg Hs Hf Hw He Hi Ht st1. rewrite authenticate_unfold.
  destruct (token_source_unavailable E st Hg) as [e0 He0].
  rewrite (run_pair (_get_identity_token_without_audience E) st).
  rewrite He0, token_source_state. fold (after_token_source E st).
  unfold oauth_path, bind.
  rewrite (flow_interactive E (after_token_source E st) c Hs Hf).
  fold st1. rewrite (save_writes E st1 c eq_refl Hw).
  assert (Hc : _credentials (self (saved st1 c)) = Some c) by reflexivity.
  assert (Hres : resolved_email (self (saved st1 c))
                 = resolved_email (self st1))
    by exact (resolved_email_idempotent st1).
  assert (Hwu : with_user_email (saved st1 c) (resolved_email (self st1))
                = saved st1 c) by reflexivity.
  generalize dependent (saved st1 c). intros st2 Hc Hres Hwu.
  unfold get_self, ret. rewrite Hc, He. cbv beta iota. rewrite Hc, Hi, Ht.
  rewrite extract_user_email_spec, Hres, Hwu.
  unfold token_and_email. rewrite Ht.
  destruct (truthy (resolved_email (self st1))); reflexivity.
Qed.

(** X25: the interactive flow through [authenticate].  With gcloud
    unavailable and a client secrets file, a forced [authenticate] runs the
    consent flow, keeps the credentials and saves them with the resolved
    email before it looks at them; it returns their identity token with
    that email, or raises "Failed to extract user email from credentials"
    when no email resolves: the credentials are on disk in both cases. *)
Theorem authenticate_through_interactive_flow
  (st : St) (c : Credentials) (idt : value) :
  gcloud_unavailable E ->
  no_client_secrets E (self st) = false ->
  run_flow E = inr c ->
  writable E ->
  expired c = false ->
  id_token c = Some idt ->
  truthy idt = true ->
  let st1 := with_credentials (after_events (after_token_source E st) [EvFlow])
                              (Some c) in
  authenticate E true st
  = (token_and_email idt (resolved_email (self st1)), saved st1 c).
Proof. apply authenticate_flow. Qed.

(** X26: the cached email outlives a new login.  When the manager has a
    cached email, a forced [authenticate] through the consent flow returns
    the new identity token with the cached email, whatever the email claim
    of the new token, and writes that email to the credential file. *)
Theorem cached_email_outlives_reauthentication
  (st : St) (c : Credentials) (idt : value) :
  truthy (_user_email (self st)) = true ->
  gcloud_unavailable E ->
  no_client_secrets E (self st) = false ->
  run_flow E = inr c ->
  writable E ->
  expired c = false ->
  id_token c = Some idt ->
  truthy idt = true ->
  fst (authenticate E true st) = inr (idt, _user_email (self st))
  /\ cred_file (world (snd (authenticate E true st)))
     = Some (saved_file c (_user_email (self st))).
Proof.
  intros Hem Hg Hs Hf Hw He Hi Ht.
  rewrite (authenticate_flow st c idt Hg Hs Hf Hw He Hi Ht).
  assert (Hr : resolved_email
                 (self (with_credentials
                          (after_events (after_token_source E st) [EvFlow])
                          (Some c)))
               = _user_email (self st)).
  { unfold resolved_email. cbn [self with_credentials after_events
      after_token_source after_runs _user_email]. rewrite Hem. reflexivity. }
  cbn [fst snd]. unfold saved, token_and_email. rewrite Hr, Ht, Hem.
  split; reflexivity.
Qed.

(** X27: saving twice is saving once: a second [_save_credentials] writes
    the same text again and changes neither the file nor the fields. *)
Theorem save_twice_is_save_once (st : St) (c : Credentials) :
  _credentials (self st) = Some c ->
  writable E ->
  _save_credentials E (snd (_save_credentials E st))
  = (inr tt,
     after_events (snd (_save_credentials E st))
       [EvMkdir; EvWrite (saved_text st c); EvChmod MODE_0600]).
Proof.
  intros Hc Hw. rewrite (save_writes E st c Hc Hw). cbn [snd].
  rewrite (save_writes E (saved st c) c Hc Hw).
  unfold saved at 1.
  change (self (saved st c))
    with (self (with_user_email st (resolved_email (self st)))).
  rewrite resolved_email_idempotent. reflexivity.
Qed.

End ThroughTheFlow.


Lemma authenticate_through_interactive_flow_witness :
  let c := Scenario.user_credentials Sample.TOKEN_LEN_0 in
  let E := Scenario.with_flow c Scenario.bare in
  let st := Scenario.fresh (Some "client_secrets.json") None in
  let st1 := with_credentials (after_events (after_token_source E st) [EvFlow])
                              (Some c) in
  authenticate (L := RefLib.lib) E true st
  = (token_and_email (VStr Sample.TOKEN_LEN_0)
                     (resolved_email (L := RefLib.lib) (self st1)),
     saved (L := RefLib.lib) st1 c).
Proof.
  apply (authenticate_through_interactive_flow
           (L := RefLib.lib)
           (Scenario.with_flow (Scenario.user_credentials Sample.TOKEN_LEN_0)
                               Scenario.bare)
           (Scenario.fresh (Some "client_secrets.json") None)
           (Scenario.user_credentials Sample.TOKEN_LEN_0)
           (VStr Sample.TOKEN_LEN_0)).
  - left. reflexivity.
  - reflexivity.
  - reflexivity.
  - repeat split.
  - reflexivity.
  - reflexivity.
  - reflexivity.
Defined.

Example interactive_flow_gives_the_token :
  fst (authenticate (L := RefLib.lib)
         (Scenario.with_flow (Scenario.user_credentials Sample.TOKEN_LEN_0)
                             Scenario.bare)
         true (Scenario.fresh (Some "client_secrets.json") None))
  = inr (VStr Sample.TOKEN_LEN_0, VStr "abc@example.org").
Proof. vm_compute. reflexivity. Qed.

Lemma cached_email_outlives_reauthentication_witness :
  let c := Scenario.user_credentials Sample.TOKEN_LEN_0 in
  let E := Scenario.with_flow c Scenario.bare in
  let st := with_user_email (Scenario.fresh (Some "client_secrets.json") None)
                            (VStr "old@example.org") in
  fst (authenticate (L := RefLib.lib) E true st)
  = inr (VStr Sample.TOKEN_LEN_0, _user_email (self st))
  /\ cred_file (world (snd (authenticate (L := RefLib.lib) E true st)))
     = Some (saved_file (L := RefLib.lib) c (_user_email (self st))).
Proof.
  apply (cached_email_outlives_reauthentication
           (L := RefLib.lib)
           (Scenario.with_flow (Scenario.user_credentials Sample.TOKEN_LEN_0)
                               Scenario.bare)
           (with_user_email (Scenario.fresh (Some "client_secrets.json") None)
                            (VStr "old@example.org"))
           (Scenario.user_credentials Sample.TOKEN_LEN_0)
           (VStr Sample.TOKEN_LEN_0)).
  - reflexivity.
  - left. reflexivity.
  - reflexivity.
  - reflexivity.
  - repeat split.
  - reflexivity.
  - reflexivity.
  - reflexivity.
Defined.

Lemma save_twice_is_save_once_witness :
  let st := Sample.holding Sample.TOKEN_LEN_0 in
  let c := Scenario.user_credentials Sample.TOKEN_LEN_0 in
  _save_credentials (L := RefLib.lib) Scenario.bare
    (snd (_save_credentials (L := RefLib.lib) Scenario.bare st))
  = (inr tt,
     after_events (snd (_save_credentials (L := RefLib.lib) Scenario.bare st))
       [EvMkdir; EvWrite (saved_text (L := RefLib.lib) st c);
        EvChmod MODE_0600]).
Proof.
  apply (save_twice_is_save_once
           (L := RefLib.lib) Scenario.bare
           (Sample.holding Sample.TOKEN_LEN_0)
           (Scenario.user_credentials Sample.TOKEN_LEN_0)).
  - reflexivity.
  - repeat split.
Defined.

(** *** The padding of the payload *)

Lemma pad_payload_aligned (payload : string) :
  (String.length payload mod 4 = 0)%nat -> pad_payload payload = payload.
Proof. intros H. unfold pad_payload. rewrite H. reflexivity. Qed.

(** The padding of lines 229-231 is idempotent, and it leaves a payload
    as it is exactly when the length of the payload is a multiple of
    four. *)
Lemma pad_payload_idempotent (payload : string) :
  pad_payload (pad_payload payload) = pad_payload payload
  /\ (pad_payload payload = payload
      <-> (String.length payload mod 4 = 0)%nat).
Proof.
  destruct (pad_payload_spec payload) as [Hlen (k & Hk & Hpad)].
  split; [apply pad_payload_aligned; exact Hlen |].
  split; [| apply pad_payload_aligned].
  intros H. rewrite H in Hlen. exact Hlen.
Qed.

(** X28: the padding and the decoder of the reference library.  A payload
    written in the base64url alphabet, padded by lines 229-231, is accepted
    by [urlsafe_b64decode] exactly when its length is not one more than a
    multiple of four. *)
Theorem padded_payload_decodes_unless_one_over (payload : string) :
  all_chars base64url_char payload = true ->
  returned (urlsafe_b64decode (PyLib := RefLib.lib) (pad_payload payload))
  = negb (String.length payload mod 4 =? 1)%nat.
Proof. apply PaddingFacts.padded_segment_decodes. Qed.

Lemma padded_payload_decodes_unless_one_over_witness :
  returned (urlsafe_b64decode (PyLib := RefLib.lib) (pad_payload "abcde"))
  = negb (String.length "abcde" mod 4 =? 1)%nat.
Proof.
  apply (padded_payload_decodes_unless_one_over "abcde"). reflexivity.
Defined.

(** *** The audience is never consulted *)

Section Audience.

Variable aud : option string.

Lemma sba_ret {A} (a : A) : same_but_audience aud (ret a) (ret a).
Proof. intros st. reflexivity. Qed.

Lemma sba_raise {A} (e : exn) : same_but_audience aud (@raise A e) (raise e).
Proof. intros st. reflexivity. Qed.

Lemma sba_lift {A} (r : exn + A) : same_but_audience aud (lift r) (lift r).
Proof. intros st. reflexivity. Qed.

Lemma sba_emit (ev : Event) : same_but_audience aud (emit ev) (emit ev).
Proof. intros st. reflexivity. Qed.

Lemma sba_get_file : same_but_audience aud get_file get_file.
Proof. intros st. reflexivity. Qed.

Lemma sba_put_file (f : option File) :
  same_but_audience aud (put_file f) (put_file f).
Proof. intros st. reflexivity. Qed.

Lemma sba_put_self (p : option string) (a0 : option string)
  (c : option Credentials) (v : value) :
  same_but_audience aud
    (put_self {| client_secrets_path := p; audience := aud;
                 _credentials := c; _user_email := v |})
    (put_self {| client_secrets_path := p; audience := a0;
                 _credentials := c; _user_email := v |}).
Proof. intros st. reflexivity. Qed.

Lemma sba_bind {A B} (m1 m2 : M A) (k1 k2 : A -> M B) :
  same_but_audience aud m1 m2 ->
  (forall a, same_but_audience aud (k1 a) (k2 a)) ->
  same_but_audience aud (bind m1 k1) (bind m2 k2).
Proof.
  intros Hm Hk st. unfold bind. rewrite (Hm st).
  destruct (m2 st) as [[e | a] st1]; cbn [fst snd]; [reflexivity |].
  apply Hk.
Qed.

Lemma sba_try {A} (m1 m2 : M A) (h1 h2 : exn -> M A) :
  same_but_audience aud m1 m2 ->
  (forall e, same_but_audience aud (h1 e) (h2 e)) ->
  same_but_audience aud (try_except m1 h1) (try_except m2 h2).
Proof.
  intros Hm Hh st. unfold try_except. rewrite (Hm st).
  destruct (m2 st) as [[e | a] st1]; cbn [fst snd]; [| reflexivity].
  apply Hh.
Qed.

Lemma sba_get_self_bind {B} (k1 k2 : Self -> M B) :
  (forall s, same_but_audience aud (k1 (set_audience s aud)) (k2 s)) ->
  same_but_audience aud (bind get_self k1) (bind get_self k2).
Proof. intros Hk st. unfold bind, get_self. apply Hk. Qed.

End Audience.

Ltac sba_step :=
  first
    [ apply sba_ret | apply sba_raise | apply sba_lift | apply sba_emit
    | apply sba_get_file | apply sba_put_file | apply sba_put_self
    | apply sba_get_self_bind; intros ?;
      cbn [set_audience client_secrets_path audience _credentials _user_email]
    | apply sba_bind; [| intros ?]
    | apply sba_try; [| intros ?]
    | match goal with
      | |- same_but_audience _ (match ?x with _ => _ end)
                               (match ?x with _ => _ end) => destruct x
      | |- same_but_audience _ (if ?x then _ else _)
                               (if ?x then _ else _) => destruct x
      | |- same_but_audience _ (raise_new _ _) _ => apply sba_raise
      | |- same_but_audience _ (raise_from _ _ _) _ => apply sba_raise
      | |- same_but_audience _ (set_credentials _) _ => unfold set_credentials
      | |- same_but_audience _ (set_user_email _) _ => unfold set_user_email
      end ].

Ltac sba_steps_with known := repeat first [ known | sba_step ].

Section AudienceOfMethods.

Context {L : PyLib}.
Variable E : Env.
Variable aud : option string.

Lemma sba_extract :
  same_but_audience aud _extract_user_email _extract_user_email.
Proof.
  unfold _extract_user_email, extract_from_token. sba_steps_with fail.
Qed.

Lemma sba_token_source :
  same_but_audience aud (_get_identity_token_without_audience E)
                        (_get_identity_token_without_audience E).
Proof.
  unfold _get_identity_token_without_audience, fetch_identity_token, run.
  sba_steps_with fail.
Qed.

Lemma sba_access_source :
  same_but_audience aud (_get_identity_token_with_audience E)
                        (_get_identity_token_with_audience E).
Proof.
  unfold _get_identity_token_with_audience, fetch_access_token, run.
  sba_steps_with fail.
Qed.

Lemma sba_load :
  same_but_audience aud (_load_stored_credentials E)
                        (_load_stored_credentials E).
Proof.
  unfold _load_stored_credentials, path_exists, load_from_file, read_file.
  sba_steps_with fail.
Qed.

Lemma sba_save :
  same_but_audience aud (_save_credentials E) (_save_credentials E).
Proof.
  unfold _save_credentials, mkdir_parent, write_credentials, write_file, chmod.
  sba_steps_with ltac:(apply sba_extract).
Qed.

Lemma sba_flow :
  same_but_audience aud (_perform_oauth_flow E) (_perform_oauth_flow E).
Proof.
  unfold _perform_oauth_flow, call_default, call_flow, no_client_secrets.
  sba_steps_with ltac:(apply sba_save).
Qed.

Lemma sba_refresh :
  same_but_audience aud (_refresh_credentials E) (_refresh_credentials E).
Proof.
  unfold _refresh_credentials, call_refresh.
  sba_steps_with ltac:(apply sba_save).
Qed.

Lemma sba_oauth_path (force : bool) :
  same_but_audience aud (oauth_path E force) (oauth_path E force).
Proof.
  unfold oauth_path.
  sba_steps_with
    ltac:(first [ apply sba_flow | apply sba_refresh | apply sba_load
                | apply sba_extract ]).
Qed.

Lemma sba_authenticate (force : bool) :
  same_but_audience aud (authenticate E force) (authenticate E force).
Proof.
  unfold authenticate.
  sba_steps_with
    ltac:(first [ apply sba_token_source | apply sba_oauth_path ]).
Qed.

Lemma sba_get_auth_headers :
  same_but_audience aud (get_auth_headers E) (get_auth_headers E).
Proof.
  unfold get_auth_headers.
  sba_steps_with ltac:(apply sba_authenticate).
Qed.

Lemma sba_is_authenticated :
  same_but_audience aud (is_authenticated E) (is_authenticated E).
Proof.
  unfold is_authenticated, probe, has_token.
  sba_steps_with ltac:(first [ apply sba_refresh | apply sba_load ]).
Qed.

Lemma sba_logout (exists_error unlink_error : option exn) :
  same_but_audience aud (logout exists_error unlink_error)
                        (logout exists_error unlink_error).
Proof.
  unfold logout, path_exists_or, path_exists, unlink_file.
  sba_steps_with fail.
Qed.

End AudienceOfMethods.

(** X29: the audience that the manager is made with is never consulted.
    Every public method, and the token source that is named after the
    audience, has the same outcome and the same effects whatever the
    audience is, and none of them changes it. *)
Theorem audience_is_never_consulted {L : PyLib} (E : Env)
  (force : bool) (exists_error unlink_error : option exn) :
  ignores_audience (authenticate E force)
  /\ ignores_audience (get_auth_headers E)
  /\ ignores_audience (is_authenticated E)
  /\ ignores_audience (logout exists_error unlink_error)
  /\ ignores_audience (_get_identity_token_with_audience E).
Proof.
  repeat split; intros aud.
  - apply sba_authenticate.
  - apply sba_get_auth_headers.
  - apply sba_is_authenticated.
  - apply sba_logout.
  - apply sba_access_source.
Qed.

(** *** The access-token source *)

Section AccessTokenSource.

Variable E : Env.

(** X30: [_get_identity_token_with_audience], whatever gcloud answers.  It
    runs [gcloud auth print-access-token], to which no audience is passed,
    and then, exactly when that call exited with code 0 and printed a
    token, the account lookup; it touches neither the manager's fields nor
    the credential file; it returns exactly when the token call succeeded
    and the lookup call completed, and then it returns the access token,
    stripped, with the account that the lookup printed, or with the
    placeholder when the lookup exited with another code. *)
Theorem access_token_source_calls (st : St) :
  snd (_get_identity_token_with_audience E st)
  = after_runs st (access_cmd :: if access_ok E then [email_cmd] else [])
  /\ (returned (fst (_get_identity_token_with_audience E st)) = true <->
      access_ok E = true /\ returned (subprocess_run E email_cmd) = true)
  /\ (forall p q,
        subprocess_run E access_cmd = inr p ->
        access_ok E = true ->
        subprocess_run E email_cmd = inr q ->
        fst (_get_identity_token_with_audience E st)
        = inr (VStr (PyStr.strip (stdout p)),
               VStr (if returncode q =? 0 then PyStr.strip (stdout q)
                     else PLACEHOLDER_EMAIL))).
Proof.
  unfold _get_identity_token_with_audience, fetch_access_token, run,
    access_ok, after_runs, after_events.
  run_monad.
  destruct (subprocess_run E access_cmd) as [e | p]; cbn.
  - split; [| split].
    + destruct (isinstance e TimeoutExpired);
        [| destruct (isinstance e FileNotFoundError)]; reflexivity.
    + split; [| intros [H _]; discriminate H].
      destruct (isinstance e TimeoutExpired);
        [| destruct (isinstance e FileNotFoundError)]; discriminate.
    + intros p q H. discriminate H.
  - destruct (returncode p =? 0); cbn.
    + destruct (PyStr.nonempty (PyStr.strip (stdout p))); cbn.
      * destruct (subprocess_run E email_cmd) as [e | q]; cbn.
        -- split; [| split].
           ++ destruct (isinstance e TimeoutExpired);
                [| destruct (isinstance e FileNotFoundError)];
                cbn; rewrite <- app_assoc; reflexivity.
           ++ split; [| intros [_ H]; discriminate H].
              destruct (isinstance e TimeoutExpired);
                [| destruct (isinstance e FileNotFoundError)]; discriminate.
           ++ intros p0 q _ _ H. discriminate H.
        -- split; [| split].
           ++ rewrite <- app_assoc. reflexivity.
           ++ split; auto.
           ++ intros p0 q0 Hp _ Hq. injection Hp as <-. injection Hq as <-.
              reflexivity.
      * split; [| split].
        -- reflexivity.
        -- split; [discriminate | intros [H _]; discriminate H].
        -- intros p0 q _ H. discriminate H.
    + split; [| split].
      * destruct (not_logged_in (access_error_msg_of p)); reflexivity.
      * split; [| intros [H _]; discriminate H].
        destruct (not_logged_in (access_error_msg_of p)); discriminate.
      * intros p0 q _ H. discriminate H.
Qed.

End AccessTokenSource.

Lemma access_token_source_calls_witness :
  let E := gcloud_prints "ya29.token" in
  fst (_get_identity_token_with_audience E (Scenario.fresh None None))
  = inr (VStr "ya29.token", VStr "ya29.token").
Proof.
  intros E.
  apply (proj2 (proj2 (access_token_source_calls E (Scenario.fresh None None)))
           {| returncode := 0; stdout := "ya29.token"; stderr := "" |}
           {| returncode := 0; stdout := "ya29.token"; stderr := "" |});
    reflexivity.
Defined.
